(** * Augraphy paper textures: PaperFactory and TextureGenerator

    A shallow embedding of [augraphy/base/paperfactory.py] and of the
    quilting, FFT-accumulation and frequency-removal parts of
    [augraphy/utilities/texturegenerator.py].

    Conventions.
    - A numpy image is an [Image]: its [shape] and a pixel function.
    - Python's ambient random generator is an explicit stream of draws that is
      threaded through every call ([Rng]); exceptions are the [Raise] results
      of the monad [M].
    - Where a result depends on how a float product or quotient rounds (the
      sizes that [resize] computes, the brightness range) Python floats are
      IEEE 754 doubles ([Float64]); in the texture syntheses, where only
      order and range matter, they are exact rationals ([Q]), and where numpy
      produces NaN or an infinity the value is an [npfloat].
    - OpenCV, numpy's floating-point kernels and the augraphy helpers that
      live outside these two files are the fields of the classes [OpenCV],
      [Numpy] and [Augraphy]: their results have the shape and dtype the
      callee documents, their pixel values are left open. *)

From Stdlib Require Import ZArith QArith Qround Qabs Qminmax List Bool String Lia Lqa.
From Stdlib Require Import Sorted SpecFloat.
Import ListNotations.

Open Scope Z_scope.

(** ** Python results and the random source *)

Inductive PyExc : Type :=
| ValueError
| ZeroDivisionError
| IndexError
| OverflowError
| CvError.

Inductive Res (A : Type) : Type :=
| Ok (a : A)
| Raise (e : PyExc).

Arguments Ok {A} a.
Arguments Raise {A} e.

(** The generator: an infinite sequence of raw draws and the position of the
    next one. *)
Record Rng : Type := mkRng { stream : nat -> Z; cursor : nat }.

Definition M (A : Type) : Type := Rng -> Res (A * Rng).

Definition ret {A : Type} (a : A) : M A := fun g => Ok (a, g).

Definition bind {A B : Type} (m : M A) (k : A -> M B) : M B :=
  fun g => match m g with
           | Ok (a, g') => k a g'
           | Raise e => Raise e
           end.

Definition raise {A : Type} (e : PyExc) : M A := fun _ => Raise e.

Declare Scope py_scope.
Delimit Scope py_scope with py.
Notation "x <- c ;; k" := (bind c (fun x => k))
  (at level 61, c at next level, right associativity) : py_scope.
Notation "' p <- c ;; k" := (bind c (fun x => let p := x in k))
  (at level 61, p pattern, c at next level, right associativity) : py_scope.
Open Scope py_scope.

Definition next_draw : M Z :=
  fun g => Ok (stream g (cursor g), mkRng (stream g) (S (cursor g))).

(** The generator after [n] more draws. *)
Definition advance (g : Rng) (n : nat) : Rng := mkRng (stream g) (n + cursor g).

(** The [n]-th of the draws to come. *)
Definition draw (g : Rng) (n : nat) : Z := stream g (n + cursor g).

(** [random.randint(a, b)]: both ends included, [ValueError] on an empty
    range. *)
Definition random_randint (a b : Z) : M Z :=
  if b <? a then raise ValueError
  else d <- next_draw ;; ret (a + d mod (b - a + 1)).

(** [np.random.randint(high)]: a value of [0, high), [ValueError] when
    [high <= 0]. *)
Definition np_random_randint (high : Z) : M Z :=
  if high <=? 0 then raise ValueError
  else d <- next_draw ;; ret (d mod high).

(** [random.random()]: a multiple of 2^-53 in [0, 1). *)
Definition two53 : Z := 9007199254740992.

Definition random_random : M Q :=
  d <- next_draw ;; ret (Qmake (d mod two53) 9007199254740992).

(** [random.uniform(a, b)] is [a + (b - a) * random()], also when [b < a]. *)
Definition random_uniform (a b : Q) : M Q :=
  u <- random_random ;; ret (a + (b - a) * u)%Q.

(** [random.choice(seq)]: [IndexError] on an empty sequence. *)
Definition random_choice {A : Type} (seq : list A) : M A :=
  match seq with
  | [] => raise IndexError
  | x :: _ => d <- next_draw ;;
              ret (nth (Z.to_nat (d mod Z.of_nat (List.length seq))) seq x)
  end.

(** Python's [int(x)] on a float: truncation toward zero. *)
Definition py_int (x : Q) : Z :=
  if Qlt_le_dec x 0 then Qceiling x else Qfloor x.

(** Python's [a / b] on two ints. *)
Definition py_truediv (a b : Z) : M Q :=
  if b =? 0 then raise ZeroDivisionError
  else ret (inject_Z a / inject_Z b)%Q.

(** ** Python floats as doubles

    A Python float is an IEEE 754 binary64 number.  The operations are those
    of the executable specification of the format in the Standard Library
    ([SpecFloat], rounding to nearest, ties to even) at precision 53. *)
Module Float64.

Definition t : Type := spec_float.

Definition prec : Z := 53.
Definition emax : Z := 1024.

(** The double nearest to [m * 2^e]. *)
Definition of_binary (m e : Z) : t := binary_normalize prec emax m e false.

(** [float(n)] for an int [n]: exact up to 2^53. *)
Definition of_int (n : Z) : t := of_binary n 0.

Definition add : t -> t -> t := SFadd prec emax.
Definition sub : t -> t -> t := SFsub prec emax.
Definition mul : t -> t -> t := SFmul prec emax.
Definition div : t -> t -> t := SFdiv prec emax.
Definition abs : t -> t := SFabs.
Definition ltb : t -> t -> bool := SFltb.
Definition eqb : t -> t -> bool := SFeqb.

(** A decimal literal [n / d], such as [1.2] or [1.5]: the nearest double. *)
Definition literal (n d : Z) : t := div (of_int n) (of_int d).

(** [int(x)]: truncation toward zero; [OverflowError] on an infinity,
    [ValueError] on NaN. *)
Definition to_int (x : t) : M Z :=
  match x with
  | S754_zero _ => ret 0
  | S754_finite s m e =>
      let magnitude :=
        if 0 <=? e then Z.pos m * 2 ^ e else Z.pos m / 2 ^ (- e) in
      ret (if s then - magnitude else magnitude)
  | S754_infinity _ => raise OverflowError
  | S754_nan => raise ValueError
  end.

(** [a / b] on two ints, each below 2^53 in magnitude: the correctly rounded
    quotient. *)
Definition truediv (a b : Z) : M t :=
  if b =? 0 then raise ZeroDivisionError
  else ret (div (of_int a) (of_int b)).

(** [random.random()]: the draw [k] of [0, 2^53) gives [k * 2^-53]. *)
Definition random : M t :=
  d <- next_draw ;; ret (of_binary (d mod two53) (-53)).

(** [random.uniform(a, b)] is [a + (b - a) * random()]. *)
Definition uniform (a b : t) : M t :=
  u <- random ;; ret (add a (mul (sub b a) u)).

End Float64.

(** [for i in range(n)] threading an accumulator. *)
Fixpoint for_range_from {A : Type} (n : nat) (i : Z) (body : Z -> A -> M A)
  (acc : A) : M A :=
  match n with
  | O => ret acc
  | S n' => acc' <- body i acc ;; for_range_from n' (i + 1) body acc'
  end.

Definition for_range {A : Type} (n : Z) (body : Z -> A -> M A) (acc : A) : M A :=
  for_range_from (Z.to_nat n) 0 body acc.

(** ** numpy arrays *)

(** An image of [shape = (height, width)] when [channels = None] and
    [(height, width, c)] when [channels = Some c]; [pix y x c] is the sample of
    row [y], column [x], channel [c] (channel 0 for a 2-D array). *)
Record Image : Type := mkImage {
  height : Z;
  width : Z;
  channels : option Z;
  pix : Z -> Z -> Z -> Z
}.

(** [len(img.shape)] *)
Definition ndim (img : Image) : Z :=
  match channels img with None => 2 | Some _ => 3 end.

(** The cast to [uint8] and [uint8] addition, which wrap modulo 256. *)
Definition uint8 (v : Z) : Z := v mod 256.

(** One bound of a slice [a:b] over an axis of length [n]: a negative bound
    counts from the end, and bounds are clamped to the axis. *)
Definition slice_index (n : Z) (i : option Z) (default : Z) : Z :=
  match i with
  | None => default
  | Some i => if i <? 0 then Z.max (i + n) 0 else Z.min i n
  end.

(** First index and length of the slice [start:stop]. *)
Definition slice_range (n : Z) (start stop : option Z) : Z * Z :=
  let lo := slice_index n start 0 in
  let hi := slice_index n stop n in
  (lo, Z.max 0 (hi - lo)).

(** [a[y0:y1, x0:x1]] *)
Definition slice2 (a : Image) (y0 y1 x0 x1 : option Z) : Image :=
  let ry := slice_range (height a) y0 y1 in
  let rx := slice_range (width a) x0 x1 in
  mkImage (snd ry) (snd rx) (channels a)
          (fun y x c => pix a (fst ry + y) (fst rx + x) c).

(** [np.rot90(a)]: one counter-clockwise quarter turn, and [np.rot90(a, k)]. *)
Definition rot90_once (a : Image) : Image :=
  mkImage (width a) (height a) (channels a)
          (fun y x c => pix a x (width a - 1 - y) c).

Definition np_rot90 (a : Image) (k : Z) : Image :=
  Nat.iter (Z.to_nat (k mod 4)) rot90_once a.

(** Sum of [f 0 + ... + f (n-1)] and the sum of one channel over an image. *)
Fixpoint sum_upto (n : nat) (f : Z -> Z) : Z :=
  match n with
  | O => 0
  | S n' => sum_upto n' f + f (Z.of_nat n')
  end.

Definition channel_sum (a : Image) (c : Z) : Z :=
  sum_upto (Z.to_nat (height a))
           (fun y => sum_upto (Z.to_nat (width a)) (fun x => pix a y x c)).

(** [np.mean] / [np.average] of one channel; [None] is the NaN numpy gives
    for an empty array. *)
Definition np_mean (a : Image) (c : Z) : option Q :=
  if (height a <=? 0) || (width a <=? 0) then None
  else Some (inject_Z (channel_sum a c) / inject_Z (height a * width a))%Q.

(** numpy's float division: dividing by zero is no exception, it yields NaN
    for [0/0] and an infinity otherwise. *)
Inductive npfloat : Type :=
| Fin (q : Q)
| PosInf
| NegInf
| NaN.

Definition np_divide (a b : Q) : npfloat :=
  if Qeq_bool b 0 then
    if Qeq_bool a 0 then NaN
    else if Qlt_le_dec 0 a then PosInf else NegInf
  else Fin (a / b)%Q.

(** A float array: its shape and its values. *)
Record FloatImage : Type := mkFloatImage {
  fheight : Z;
  fwidth : Z;
  fpix : Z -> Z -> Q
}.

(** ** The collaborators *)

Inductive Interpolation : Type := INTER_LINEAR | INTER_AREA.

(** The four corners [(x, y)] of [np.int0(cv2.boxPoints(rectangle))]. *)
Record Box : Type := mkBox {
  corner0 : Z * Z;
  corner1 : Z * Z;
  corner2 : Z * Z;
  corner3 : Z * Z
}.

(** OpenCV.  Each field gives the pixel values of one OpenCV call; the shape
    and dtype of the result are fixed by the wrappers below. *)
Class OpenCV : Type := {
  resize_pixel : Interpolation -> Image -> Z -> Z -> Z -> Z -> Z -> Z;
  bgr2gray_pixel : Z -> Z -> Z -> Z;
  bgr2hsv_pixel : Z -> Z -> Z -> Z * Z * Z;
  gaussian_pixel : Z -> Image -> Z -> Z -> Z -> Z;
  otsu_pixel : Image -> Z -> Z -> Z;
  erode_pixel : Z -> Image -> Z -> Z -> Z;
  median_pixel : Z -> Image -> Z -> Z -> Z -> Z;
  multiply_pixel : Q -> Z -> Z -> Z;
  Contour : Type;
  findContours : Image -> list Contour;
  contourArea : Contour -> Q;
  minAreaRect_box : Contour -> Box
}.

Section Cv2.
Context {cv : OpenCV}.

(** [cv2.resize(src, (w, h), interpolation)]: the result has exactly the
    requested size; an empty source or an empty size is a [cv2.error]. *)
Definition cv2_resize (src : Image) (dsize_w dsize_h : Z)
  (interpolation : Interpolation) : M Image :=
  if (height src <=? 0) || (width src <=? 0)
     || (dsize_w <=? 0) || (dsize_h <=? 0)
  then raise CvError
  else ret (mkImage dsize_h dsize_w (channels src)
              (fun y x c =>
                 uint8 (resize_pixel interpolation src dsize_w dsize_h y x c))).

(** [cv2.cvtColor(a, cv2.COLOR_GRAY2BGR)] copies the gray value into three
    channels. *)
Definition cvt_GRAY2BGR (a : Image) : Image :=
  mkImage (height a) (width a) (Some 3) (fun y x _ => pix a y x 0).

Definition cvt_BGR2GRAY (a : Image) : Image :=
  mkImage (height a) (width a) None
    (fun y x _ => uint8 (bgr2gray_pixel (pix a y x 0) (pix a y x 1) (pix a y x 2))).

Definition cvt_BGR2HSV (a : Image) : Image :=
  mkImage (height a) (width a) (Some 3)
    (fun y x c =>
       let '(h, s, v) := bgr2hsv_pixel (pix a y x 0) (pix a y x 1) (pix a y x 2) in
       uint8 (if c =? 0 then h else if c =? 1 then s else v)).

Definition cv2_GaussianBlur (a : Image) (ksize : Z) : Image :=
  mkImage (height a) (width a) (channels a)
    (fun y x c => uint8 (gaussian_pixel ksize a y x c)).

(** [cv2.threshold(a, 0, 255, THRESH_BINARY + THRESH_OTSU)[1]] *)
Definition cv2_threshold_otsu (a : Image) : Image :=
  mkImage (height a) (width a) (channels a)
    (fun y x _ => uint8 (otsu_pixel a y x)).

(** [cv2.erode(a, np.ones((k, k), np.uint8), iterations=1)] *)
Definition cv2_erode (a : Image) (k : Z) : Image :=
  mkImage (height a) (width a) (channels a)
    (fun y x _ => uint8 (erode_pixel k a y x)).

Definition cv2_medianBlur (a : Image) (ksize : Z) : Image :=
  mkImage (height a) (width a) (channels a)
    (fun y x c => uint8 (median_pixel ksize a y x c)).

(** [cv2.multiply(a, b, scale=s)] *)
Definition cv2_multiply (a b : Image) (s : Q) : Image :=
  mkImage (height a) (width a) (channels a)
    (fun y x c => uint8 (multiply_pixel s (pix a y x c) (pix b y x c))).
End Cv2.

(** The rest of augraphy.  [OverlayBuilder], [ColorPaper], [Brightness],
    [generate_average_intensity], [enhance_contrast] and
    [Augmentation.should_run] are defined in other files of the package;
    [texture_generator] is [TextureGenerator.__call__] with [quilt_texture=0],
    whose generators are floating-point syntheses. *)
Class Augraphy : Type := {
  build_overlay : string -> Image -> Image -> M Image;
  color_paper : Z * Z -> Z * Z -> Image -> M Image;
  brightness : Float64.t * Float64.t -> Z -> Image -> M Image;
  generate_average_intensity : Image -> Float64.t;
  enhance_contrast_pixel : Image -> Z -> Z -> Z -> Z;
  should_run : Q -> M bool;
  texture_generator : string -> Z -> Z -> M Image
}.

(** The directory of textures.  [glob pattern] is [glob.glob(pattern)];
    [imread file] is [cv2.imread(file)] with its default flag: [None] for a
    file that is no image, an 8-bit image of three channels otherwise. *)
Class Disk : Type := {
  glob : string -> list string;
  imread : string -> option Image
}.

(** [os.path.basename]: what follows the last slash. *)
Fixpoint basename_from (path acc : string) : string :=
  match path with
  | EmptyString => acc
  | String c rest =>
      if Ascii.eqb c (Ascii.ascii_of_nat 47) then basename_from rest EmptyString
      else basename_from rest (String.append acc (String c EmptyString))
  end.

Definition os_path_basename (path : string) : string :=
  basename_from path EmptyString.

(** ** augraphy/base/paperfactory.py *)

Module PaperFactory.

(** A constructor argument that is either the string ["random"] or an int
    used as a truth value. *)
Inductive Flag : Type :=
| FlagRandom
| FlagValue (v : Z).

Record t : Type := mkPaperFactory {
  paper_textures : list Image;
  texture_file_names : list string;
  texture_enable_color : Flag;
  blend_texture : Flag;
  blend_method : string;
  p : Q
}.

(** What [__call__] returns: nothing when the augmentation does not run,
    the texture, or the list [[texture, mask, keypoints, bounding_boxes]]. *)
Inductive Output (Aux : Type) : Type :=
| OutNone
| OutTexture (texture : Image)
| OutList (texture : Image) (mask keypoints bounding_boxes : option Aux).

Arguments OutNone {Aux}.
Arguments OutTexture {Aux} texture.
Arguments OutList {Aux} texture mask keypoints bounding_boxes.

Definition truthy (v : Z) : bool := negb (v =? 0).

(** [seq[i]] for [0 <= i] *)
Definition list_get {A : Type} (seq : list A) (i : Z) : M A :=
  match nth_error seq (Z.to_nat i) with
  | Some x => ret x
  | None => raise IndexError
  end.

(** [np.sort] on a short vector. *)
Fixpoint insert_sorted (v : Z) (l : list Z) : list Z :=
  match l with
  | [] => [v]
  | w :: l' => if v <=? w then v :: l else w :: insert_sorted v l'
  end.

Definition np_sort (l : list Z) : list Z := fold_right insert_sorted [] l.

(** [np.argsort(areas)]: the indices by ascending area, equal areas in
    index order. *)
Fixpoint insert_index (areas : list Q) (i : nat) (l : list nat) : list nat :=
  match l with
  | [] => [i]
  | j :: l' =>
      if Qlt_le_dec (nth i areas 0%Q) (nth j areas 0%Q) then i :: l
      else j :: insert_index areas i l'
  end.

Definition np_argsort (areas : list Q) : list nat :=
  fold_left (fun acc i => insert_index areas i acc)
            (seq 0 (List.length areas)) [].

(** [a >= b] and [a < b] on floats. *)
Definition Qgeb (a b : Q) : bool := Qle_bool b a.
Definition Qltb (a b : Q) : bool := negb (Qle_bool b a).

(** The sum of two averages and the comparison [a > b], NaN-aware. *)
Definition nan_add (a b : option Q) : option Q :=
  match a, b with
  | Some x, Some y => Some (x + y)%Q
  | _, _ => None
  end.

Definition nan_gtb (a b : option Q) : bool :=
  match a, b with
  | Some x, Some y => Qltb y x
  | _, _ => false
  end.

Section Methods.
Context {cv : OpenCV} {au : Augraphy}.

(** How the loop over [enumerate(area_indexs)] ends: by [return texture]
    from inside the loop, or past the loop with [max_contour]. *)
Inductive Walk : Type :=
| WalkReturn
| WalkCrop (max_contour : Contour).

(** The loop of [check_paper_edges], at position [i] of [area_indexs]
    with [rest = area_indexs[i:]]. *)
Fixpoint walk_contours (contours : list Contour) (areas : list Q)
  (min_area : Q) (len : nat) (i : nat) (rest : list nat)
  (max_contour : Contour) : Walk :=
  match rest with
  | [] => WalkCrop max_contour
  | area_index :: rest' =>
      if Nat.eqb i (len - 1) then
        if Qgeb (nth area_index areas 0%Q) min_area then
          walk_contours contours areas min_area len (S i) rest'
                        (nth area_index contours max_contour)
        else WalkReturn
      else
        if Qgeb (nth area_index areas 0%Q) min_area
           && Qltb (nth (hd area_index rest') areas 0%Q) min_area
        then WalkCrop (nth area_index contours max_contour)
        else WalkReturn
  end.

(** The binary mask handed to [cv2.findContours]. *)
Definition edge_mask (texture : Image) : Image :=
  let ysize := height texture in
  let xsize := width texture in
  let texture_gray :=
    if ndim texture >? 2 then cvt_BGR2GRAY texture else texture in
  let texture_blur := cv2_GaussianBlur texture_gray 5 in
  let texture_binary := cv2_threshold_otsu texture_gray in
  let border_average :=
    option_map (fun s => s / 4)%Q
      (nan_add
         (nan_add
            (nan_add
               (np_mean (slice2 texture_binary None None None (Some 10)) 0)
               (np_mean (slice2 texture_binary None None (Some (-10)) None) 0))
            (np_mean (slice2 texture_binary None (Some 10) None None) 0))
         (np_mean (slice2 texture_binary (Some (-10)) None None None) 0)) in
  let center_x := py_int (inject_Z xsize / 2) in
  let center_y := py_int (inject_Z ysize / 2) in
  let center_average :=
    np_mean (slice2 texture_blur (Some (center_y - 10)) (Some (center_y + 10))
                    (Some (center_x - 10)) (Some (center_x + 10))) 0 in
  let texture_binary :=
    if nan_gtb border_average center_average then
      mkImage (height texture_binary) (width texture_binary)
              (channels texture_binary)
              (fun y x c => uint8 (255 - pix texture_binary y x c))
    else texture_binary in
  cv2_erode texture_binary 9.

Definition check_paper_edges (texture : Image) : Image :=
  let ysize := height texture in
  let xsize := width texture in
  let contours := findContours (edge_mask texture) in
  let areas := map contourArea contours in
  let area_indexs := rev (np_argsort areas) in
  let min_area := (inject_Z (ysize * xsize) * (65 # 100))%Q in
  match contours with
  | [] => texture
  | first :: _ =>
      let max_contour := nth (hd O area_indexs) contours first in
      match walk_contours contours areas min_area
                          (List.length area_indexs) 0 area_indexs max_contour with
      | WalkReturn => texture
      | WalkCrop max_contour =>
          let bbox := minAreaRect_box max_contour in
          let corners := [corner0 bbox; corner1 bbox; corner2 bbox; corner3 bbox] in
          let y_list := np_sort (map snd corners) in
          let x_list := np_sort (map fst corners) in
          let y_top := nth 1 y_list 0 in
          let y_bottom := nth 2 y_list 0 in
          let x_left := nth 1 x_list 0 in
          let x_right := nth 2 x_list 0 in
          slice2 texture (Some y_top) (Some y_bottom) (Some x_left) (Some x_right)
      end
  end.

(** The first half of [resize]: [if texture_h > shape_h or texture_w >
    shape_w:  # Zoom out]. *)
Definition zoom_out (texture : Image) (shape_h shape_w : Z) : M Image :=
  let texture_h := height texture in
  let texture_w := width texture in
  if (texture_h >? shape_h) || (texture_w >? shape_w) then
    h_ratio <- Float64.truediv shape_h texture_h ;;
    w_ratio <- Float64.truediv shape_w texture_w ;;
    scale <- (if Float64.ltb w_ratio h_ratio
              then Float64.uniform h_ratio (Float64.literal 12 10)
              else Float64.uniform w_ratio (Float64.literal 12 10)) ;;
    zoom_w <- Float64.to_int (Float64.mul (Float64.of_int texture_w) scale) ;;
    zoom_h <- Float64.to_int (Float64.mul (Float64.of_int texture_h) scale) ;;
    cv2_resize texture zoom_w zoom_h INTER_LINEAR
  else ret texture.

(** The second half: [if texture_h <= shape_h or texture_w <= shape_w:
    # Zoom in], on the sizes read back after the first half. *)
Definition zoom_in (texture : Image) (shape_h shape_w : Z) : M Image :=
  let texture_h := height texture in
  let texture_w := width texture in
  if (texture_h <=? shape_h) || (texture_w <=? shape_w) then
    h_ratio <- Float64.truediv shape_h texture_h ;;
    w_ratio <- Float64.truediv shape_w texture_w ;;
    scale <- (if Float64.ltb w_ratio h_ratio
              then Float64.uniform h_ratio
                     (Float64.add h_ratio (Float64.literal 15 10))
              else Float64.uniform w_ratio
                     (Float64.add w_ratio (Float64.literal 15 10))) ;;
    zoom_w <- Float64.to_int (Float64.mul (Float64.of_int texture_w) scale) ;;
    zoom_h <- Float64.to_int (Float64.mul (Float64.of_int texture_h) scale) ;;
    cv2_resize texture zoom_w zoom_h INTER_LINEAR
  else ret texture.

Definition resize (texture : Image) (shape_h shape_w : Z) : M Image :=
  texture <- zoom_out texture shape_h shape_w ;;
  zoom_in texture shape_h shape_w.

(** The first half of [retrieve_texture] (lines 76-88): a library texture
    picked at random, rotated and edge-cropped, and the new value of
    [self.texture_file_name]. *)
Definition choose_texture (self : t) : M (Image * string) :=
  random_index <-
    random_randint 0 (Z.of_nat (List.length (paper_textures self)) - 1) ;;
  texture <- list_get (paper_textures self) random_index ;;
  k <- random_randint 1 4 ;;
  let texture := np_rot90 texture k in
  texture_file_name <- list_get (texture_file_names self) random_index ;;
  ret (check_paper_edges texture, texture_file_name).

(** Returns the texture and the new value of [self.texture_file_name]. *)
Definition retrieve_texture (self : t) (image : Image) : M (Image * string) :=
  let shape_h := height image in
  let shape_w := width image in
  chosen <- choose_texture self ;;
  let texture := fst chosen in
  let texture_file_name := snd chosen in
  if (height texture >? shape_h) && (width texture >? shape_w) then
    let difference_y := height texture - shape_h in
    let difference_x := width texture - shape_w in
    start_y <- random_randint 0 difference_y ;;
    start_x <- random_randint 0 difference_x ;;
    ret (slice2 texture (Some start_y) (Some (start_y + shape_h))
                (Some start_x) (Some (start_x + shape_w)),
         texture_file_name)
  else
    texture <- resize texture shape_h shape_w ;;
    ret (texture, texture_file_name).

(** One of the four single-side crops of [generate_random_texture]. *)
Definition crop_side (selection ysize xsize crop_y crop_x : Z)
  (texture : Image) : Image :=
  if selection =? 0 then slice2 texture (Some crop_y) None None None
  else if selection =? 1 then slice2 texture None (Some (ysize - crop_y)) None None
  else if selection =? 2 then slice2 texture None None (Some crop_x) None
  else if selection =? 3 then slice2 texture None None None (Some (xsize - crop_x))
  else texture.

Definition generate_random_texture (image : Image) : M Image :=
  let ysize := height image in
  let xsize := width image in
  texture_type <-
    random_choice ["normal"; "strange"; "rough_stains"; "fine_stains";
                   "granular"]%string ;;
  texture <- texture_generator texture_type xsize ysize ;;
  edge_type <- random_choice ["curvy_edge"; "broken_edge"]%string ;;
  texture_edge <- texture_generator edge_type xsize ysize ;;
  let texture :=
    if String.eqb edge_type "curvy_edge"
    then cv2_multiply texture texture_edge (1 # 255)
    else mkImage (height texture) (width texture) (channels texture)
           (fun y x c =>
              if pix texture_edge y x c <=? 0 then 0 else pix texture y x c) in
  let crop_x := py_int (inject_Z xsize / 20) in
  let crop_y := py_int (inject_Z ysize / 20) in
  first <- random_randint 0 1 ;;
  if truthy first then
    let selections := [0; 1; 2; 3] in
    selection1 <- random_choice selections ;;
    let texture := crop_side selection1 ysize xsize crop_y crop_x texture in
    second <- random_randint 0 1 ;;
    if truthy second then
      let selections := remove Z.eq_dec selection1 selections in
      selection2 <- random_choice selections ;;
      ret (crop_side selection2 ysize xsize crop_y crop_x texture)
    else ret texture
  else ret texture.

(** The texture acquisition at the head of [__call__] (lines 196-202). *)
Definition acquire_texture (self : t) (image : Image) : M Image :=
  match paper_textures self with
  | _ :: _ => r <- retrieve_texture self image ;; ret (fst r)
  | [] => generate_random_texture image
  end.

Definition blend_methods : list string :=
  ["ink_to_paper"; "min"; "max"; "mix"; "normal"; "lighten"; "darken";
   "screen"; "dodge"; "multiply"; "divide"; "grain_merge"; "overlay";
   "FFT"]%string.

(** "get another image as texture" (lines 207-215): the second texture,
    acquired at the size of the first and brought to its number of
    dimensions. *)
Definition second_texture (self : t) (texture : Image) : M Image :=
  if 0 <? Z.of_nat (List.length (paper_textures self)) then
    r <- retrieve_texture self texture ;;
    let new_texture := fst r in
    if (ndim new_texture <? 3) && (ndim texture >? 2)
    then ret (cvt_GRAY2BGR new_texture)
    else if (ndim new_texture >? 2) && (ndim texture <? 3)
         then ret (cvt_BGR2GRAY new_texture)
         else ret new_texture
  else generate_random_texture texture.

(** The body of [if blend_texture:] (lines 205-257).  The resize that
    follows the acquisition reads [texture], and its result replaces
    [new_texture]. *)
Definition blend_textures (self : t) (texture : Image) : M Image :=
  new_texture <- second_texture self texture ;;
  new_texture <- cv2_resize texture (width texture) (height texture) INTER_AREA ;;
  blend_method <-
    (if String.eqb (blend_method self) "random"
     then random_choice blend_methods
     else ret (blend_method self)) ;;
  build_overlay blend_method new_texture texture.

(** The colour stage (lines 259-277). *)
Definition color_texture (texture_enable_color : Z) (texture : Image) : M Image :=
  if truthy texture_enable_color then
    if ndim texture <? 3 then
      let texture := cvt_GRAY2BGR texture in
      let hue_offset := 10 in
      hue <- random_randint hue_offset (255 - hue_offset) ;;
      let hue_range := (hue - hue_offset, hue + hue_offset) in
      let saturation_offset := 10 in
      saturation <-
        random_randint (50 + saturation_offset) (205 - saturation_offset) ;;
      let saturation_range :=
        (saturation - saturation_offset, saturation + saturation_offset) in
      color_paper hue_range saturation_range texture
    else ret texture
  else
    if ndim texture >? 2 then ret (cvt_BGR2GRAY texture) else ret texture.

(** The brightness stage (lines 279-288), in double arithmetic; a zero
    intensity divides by zero. *)
Definition brighten_texture (texture : Image) : M Image :=
  let texture_intensity := generate_average_intensity texture in
  let target_intensity := Float64.of_int 200 in
  if Float64.ltb texture_intensity target_intensity then
    if Float64.eqb texture_intensity (Float64.of_int 0)
    then raise ZeroDivisionError
    else
      let brighten_ratio :=
        Float64.div
          (Float64.abs (Float64.sub texture_intensity target_intensity))
          texture_intensity in
      let brighten_min :=
        Float64.add (Float64.of_int 1)
                    (Float64.div brighten_ratio (Float64.of_int 2)) in
      let brighten_max := Float64.add (Float64.of_int 1) brighten_ratio in
      brightness (brighten_min, brighten_max) 1 texture
  else ret texture.

Definition resolve_flag (flag : Flag) : M Z :=
  match flag with
  | FlagRandom => random_randint 0 1
  | FlagValue v => ret v
  end.

Definition __call__ {Aux : Type} (self : t) (image : Image)
  (mask keypoints bounding_boxes : option Aux) (force : bool)
  : M (Output Aux) :=
  run <- (if force then ret true else should_run (p self)) ;;
  if run : bool then
    blend_texture <- resolve_flag (blend_texture self) ;;
    texture_enable_color <- resolve_flag (texture_enable_color self) ;;
    texture <- acquire_texture self image ;;
    texture <- (if truthy blend_texture
                then blend_textures self texture else ret texture) ;;
    texture <- color_texture texture_enable_color texture ;;
    texture <- brighten_texture texture ;;
    match mask, keypoints, bounding_boxes with
    | None, None, None => ret (OutTexture texture)
    | _, _, _ => ret (OutList texture mask keypoints bounding_boxes)
    end
  else ret OutNone.
End Methods.

Section Construction.
Context {disk : Disk}.

(** One turn of the loop of [__init__] over the files of the directory: the
    name of every file is recorded, the image only of a file that
    [cv2.imread] could read.  An image read with the default flag is 8-bit
    and has three channels, so of the conversions of the local [texture]
    only [pass] is reached, and what is appended is the second read of the
    same file. *)
Definition load_file (state : list string * list Image) (file : string)
  : list string * list Image :=
  let texture := imread file in
  let texture_file_names := fst state ++ [os_path_basename file] in
  match texture with
  | Some _ =>
      match imread file with
      | Some again => (texture_file_names, snd state ++ [again])
      | None => (texture_file_names, snd state)
      end
  | None => (texture_file_names, snd state)
  end.

Definition __init__ (texture_path : string)
  (texture_enable_color blend_texture : Flag) (blend_method : string) (p : Q) : t :=
  let loaded :=
    fold_left load_file (glob (String.append texture_path "/*")) ([], []) in
  mkPaperFactory (snd loaded) (fst loaded)
                 texture_enable_color blend_texture blend_method p.
End Construction.

End PaperFactory.

(** ** augraphy/utilities/texturegenerator.py *)

(** numpy's floating-point kernels.  [wave_ifft_pixel] is one outer pass of
    [generate_FFT_grid] up to the real part of the inverse transform (lines
    403-422); [masked_ifft_pixel] is the masked transform of
    [remove_frequency] before [np.abs] (lines 512-517); [power_pixel mid
    v_mean v] is [np.power(v, np.log(mid * 255) / np.log(v_mean))];
    [nan_to_uint8] is what the platform's cast gives for a NaN or an
    infinity. *)
Record WaveConfig : Type := mkWaveConfig {
  f_iterations : Z * Z;
  g_iterations : Z * Z;
  rresolutions : Q * Q;
  rA : Q * Q;
  rf : Q * Q;
  rp : Q * Q;
  rkx : Q * Q;
  rky : Q * Q
}.

Class Numpy : Type := {
  wave_ifft_pixel : Z -> Z -> WaveConfig -> M (Z -> Z -> Q);
  masked_ifft_pixel : Image -> (Z -> Z -> Z) -> Z -> Z -> Q;
  power_pixel : Q -> Q -> Z -> npfloat;
  nan_to_uint8 : Z
}.

Module TextureGenerator.

Definition Qgeb (a b : Q) : bool := Qle_bool b a.
Definition Qltb (a b : Q) : bool := negb (Qle_bool b a).

(** The indices [0 .. n-1] of an axis. *)
Definition axis (n : Z) : list Z := map Z.of_nat (seq 0 (Z.to_nat n)).

(** All values of a float array, row by row. *)
Definition values (a : FloatImage) : list Q :=
  flat_map (fun y => map (fun x => fpix a y x) (axis (fwidth a)))
           (axis (fheight a)).

(** [a.min()] and [a.max()]: [ValueError] on an empty array. *)
Definition np_min (a : FloatImage) : M Q :=
  match values a with
  | [] => raise ValueError
  | v :: l => ret (fold_left Qmin l v)
  end.

Definition np_max (a : FloatImage) : M Q :=
  match values a with
  | [] => raise ValueError
  | v :: l => ret (fold_left Qmax l v)
  end.

(** [np.zeros((h, w), dtype="uint8")] and [np.zeros((h, w, c), ...)], where
    [c] is the length of an axis of an existing array: a negative dimension
    is a [ValueError]. *)
Definition np_zeros (h w : Z) (c : option Z) : M Image :=
  if (h <? 0) || (w <? 0) then raise ValueError
  else ret (mkImage h w c (fun _ _ _ => 0)).

(** [a += b] on two [uint8] arrays of one shape. *)
Definition iadd_uint8 (a b : Image) : Image :=
  mkImage (height a) (width a) (channels a)
          (fun y x c => uint8 (pix a y x c + pix b y x c)).

(** The arithmetic sum of the samples that several images have at one
    position. *)
Definition pixel_sum (images : list Image) (y x c : Z) : Z :=
  fold_right Z.add 0 (map (fun img => pix img y x c) images).

(** [(a - a.min()) / (a.max() - a.min())], element by element. *)
Definition minmax_normalize (a : FloatImage) : M (Z -> Z -> npfloat) :=
  lo <- np_min a ;;
  hi <- np_max a ;;
  ret (fun y x => np_divide (fpix a y x - lo) (hi - lo)).

Definition np_scale (x : npfloat) (k : Q) : npfloat :=
  match x with
  | Fin q => Fin (q * k)
  | other => other
  end.

Section Methods.
Context {cv : OpenCV} {au : Augraphy} {np : Numpy}.

(** [np.uint8(x)] on a float. *)
Definition float_to_uint8 (x : npfloat) : Z :=
  match x with
  | Fin q => uint8 (py_int q)
  | _ => uint8 nan_to_uint8
  end.

(** [x.clip(0, 255)] on a float. *)
Definition np_clip_0_255 (x : npfloat) : npfloat :=
  match x with
  | Fin q => Fin (Qmax 0 (Qmin 255 q))
  | PosInf => Fin 255
  | NegInf => Fin 0
  | NaN => NaN
  end.

(** One outer pass of [generate_FFT_grid]: the 8-bit image that is added
    into the output (lines 403-428). *)
Definition fft_pass (xsize ysize : Z) (config : WaveConfig) : M Image :=
  real_part <- wave_ifft_pixel xsize ysize config ;;
  let new_wave_grid := mkFloatImage ysize xsize real_part in
  normalized <- minmax_normalize new_wave_grid ;;
  ret (mkImage ysize xsize None
         (fun y x _ => float_to_uint8 (np_scale (normalized y x) 255))).

Definition generate_FFT_grid (xsize ysize : Z) (config : WaveConfig) : M Image :=
  wave_grid_output <- np_zeros ysize xsize None ;;
  passes <- random_randint (fst (f_iterations config)) (snd (f_iterations config)) ;;
  for_range passes
    (fun _ wave_grid_output =>
       new_wave_grid <- fft_pass xsize ysize config ;;
       ret (iadd_uint8 wave_grid_output new_wave_grid))
    wave_grid_output.

(** Lines 499-518 of [remove_frequency]: the magnitude of the inverse
    transform of the spectrum with the disk of radius [r] removed. *)
Definition masked_magnitude (wave_grid_output : Image) (r : Z) : FloatImage :=
  let ysize := height wave_grid_output in
  let xsize := width wave_grid_output in
  let cy := ysize / 2 in
  let cx := xsize / 2 in
  let mask := fun y x =>
    if (x - cx) * (x - cx) + (y - cy) * (y - cy) <=? r * r then 0 else 1 in
  mkFloatImage ysize xsize
    (fun y x => Qabs (masked_ifft_pixel wave_grid_output mask y x)).

(** The 8-bit images of [n] successive outer passes. *)
Fixpoint fft_passes (n : nat) (xsize ysize : Z) (config : WaveConfig)
  : M (list Image) :=
  match n with
  | O => ret []
  | S n' =>
      new_wave_grid <- fft_pass xsize ysize config ;;
      rest <- fft_passes n' xsize ysize config ;;
      ret (new_wave_grid :: rest)
  end.

Definition remove_frequency (wave_grid_output : Image) (frequency : Z) : M Image :=
  let ysize := height wave_grid_output in
  let xsize := width wave_grid_output in
  r <- random_randint frequency frequency ;;
  let wave_grid_output2 := masked_magnitude wave_grid_output r in
  normalized <- minmax_normalize wave_grid_output2 ;;
  ret (mkImage ysize xsize (channels wave_grid_output)
         (fun y x _ => uint8 (255 - float_to_uint8 (np_scale (normalized y x) 255)))).

(** [np.mean(image_hsv[y : y + patch_size, x : x + patch_size, c])] *)
Definition patch_mean (image_hsv : Image) (patch_size y x c : Z) : option Q :=
  np_mean (slice2 image_hsv (Some y) (Some (y + patch_size))
                  (Some x) (Some (x + patch_size))) c.

(** [image[y : y + patch_size, x : x + patch_size]] *)
Definition patch_at (image : Image) (patch_size y x : Z) : Image :=
  slice2 image (Some y) (Some (y + patch_size)) (Some x) (Some (x + patch_size)).

(** [[m - offset, m + offset]]; NaN when the mean is. *)
Definition range_around (m : option Q) (offset : Q) : option (Q * Q) :=
  option_map (fun m => (m - offset, m + offset)%Q) m.

(** [m >= r[0] and m < r[1]] *)
Definition in_range (m : option Q) (r : option (Q * Q)) : bool :=
  match m, r with
  | Some m, Some (lo, hi) => Qgeb m lo && Qltb m hi
  | _, _ => false
  end.

(** The test of [get_random_patch] on the patch at [(y, x)]: its mean
    hue, saturation and value all lie in their ranges. *)
Definition accepted (image_hsv : Image) (patch_size y x : Z)
  (h_range s_range v_range : option (Q * Q)) : bool :=
  let h_mean := patch_mean image_hsv patch_size y x 0 in
  let s_mean := patch_mean image_hsv patch_size y x 1 in
  let v_mean := patch_mean image_hsv patch_size y x 2 in
  in_range h_mean h_range && in_range s_mean s_range
  && in_range v_mean v_range.

(** The gamma correction of an accepted patch (lines 666-668). *)
Definition gamma_correct (image_patch : Image) (v_mean : Q) (v_range : Q * Q)
  : Image :=
  let mid := ((fst v_range + snd v_range) / 2 / 255)%Q in
  mkImage (height image_patch) (width image_patch) (channels image_patch)
    (fun y x c =>
       float_to_uint8 (np_clip_0_255 (power_pixel mid v_mean (pix image_patch y x c)))).

(** The [while n < 10] loop of [get_random_patch], with [tries = 10 - n]
    iterations left. *)
Fixpoint search_patch (tries : nat) (image_texture image_hsv : Image)
  (patch_size ysize xsize : Z) (h_range s_range v_range : option (Q * Q))
  (image_patch : Image) : M Image :=
  match tries with
  | O => ret image_patch
  | S tries' =>
      y <- np_random_randint (ysize - patch_size) ;;
      x <- np_random_randint (xsize - patch_size) ;;
      let v_mean := patch_mean image_hsv patch_size y x 2 in
      if accepted image_hsv patch_size y x h_range s_range v_range then
        match v_mean, v_range with
        | Some v_mean, Some v_range =>
            ret (gamma_correct (patch_at image_texture patch_size y x)
                               v_mean v_range)
        | _, _ => ret image_patch
        end
      else search_patch tries' image_texture image_hsv patch_size ysize xsize
                        h_range s_range v_range image_patch
  end.

Definition get_random_patch (image_texture image_hsv : Image)
  (patch_size ysize xsize : Z) (h_range s_range v_range : option (Q * Q))
  : M Image :=
  y <- np_random_randint (ysize - patch_size) ;;
  x <- np_random_randint (xsize - patch_size) ;;
  let image_patch := patch_at image_texture patch_size y x in
  search_patch 10 image_texture image_hsv patch_size ysize xsize
               h_range s_range v_range image_patch.

(** [image_quilt[y : y + patch_size, x : x + patch_size] = image_patch]:
    the patch must have the shape of the region, up to the broadcasting
    of an axis of length 1. *)
Definition assign_patch (image_quilt : Image) (patch_size y x : Z)
  (image_patch : Image) : M Image :=
  let ry := slice_range (height image_quilt) (Some y) (Some (y + patch_size)) in
  let rx := slice_range (width image_quilt) (Some x) (Some (x + patch_size)) in
  if ((height image_patch =? snd ry) || (height image_patch =? 1))
     && ((width image_patch =? snd rx) || (width image_patch =? 1))
  then
    ret (mkImage (height image_quilt) (width image_quilt) (channels image_quilt)
           (fun yy xx c =>
              if (fst ry <=? yy) && (yy <? fst ry + snd ry)
                 && (fst rx <=? xx) && (xx <? fst rx + snd rx)
              then pix image_patch
                       (if height image_patch =? 1 then 0 else yy - fst ry)
                       (if width image_patch =? 1 then 0 else xx - fst rx) c
              else pix image_quilt yy xx c))
  else raise ValueError.

(** [m < 245 and m > 10] on the mean brightness of a patch. *)
Definition not_blank (m : option Q) : bool :=
  match m with
  | Some m => Qltb m 245 && Qltb 10 m
  | None => false
  end.

(** The [while n < 10] loop that looks for the reference patch, with
    [tries = 10 - n] iterations left; it leaves the last sampled
    [(y, x)]. *)
Fixpoint find_reference (tries : nat) (image_hsv : Image)
  (patch_size ysize xsize : Z) (y x : Z) : M (Z * Z) :=
  match tries with
  | O => ret (y, x)
  | S tries' =>
      y <- np_random_randint (ysize - patch_size) ;;
      x <- np_random_randint (xsize - patch_size) ;;
      if not_blank (patch_mean image_hsv patch_size y x 2) then ret (y, x)
      else find_reference tries' image_hsv patch_size ysize xsize y x
  end.

Definition enhance_contrast (image : Image) : Image :=
  mkImage (height image) (width image) (channels image)
          (fun y x c => uint8 (enhance_contrast_pixel image y x c)).

Definition quilt_texture (image_texture : Image)
  (patch_size patch_number_width patch_number_height : Z) : M Image :=
  let overlap := patch_size / 5 in
  let ysize := patch_number_height * patch_size - (patch_number_height - 1) * overlap in
  let xsize := patch_number_width * patch_size - (patch_number_width - 1) * overlap in
  let is_gray := ndim image_texture <? 3 in
  let image_texture :=
    if is_gray then cvt_GRAY2BGR image_texture else image_texture in
  image_quilt <- np_zeros ysize xsize (channels image_texture) ;;
  let ysize := height image_texture in
  let xsize := width image_texture in
  let image_hsv := cvt_BGR2HSV image_texture in
  yx <- find_reference 10 image_hsv patch_size ysize xsize 0 0 ;;
  let y := fst yx in
  let x := snd yx in
  let h_reference := patch_mean image_hsv patch_size y x 0 in
  let s_reference := patch_mean image_hsv patch_size y x 1 in
  let v_reference := patch_mean image_hsv patch_size y x 2 in
  let offset := 10%Q in
  let h_range := range_around h_reference offset in
  let s_range := range_around s_reference offset in
  let v_range := range_around v_reference offset in
  image_quilt <-
    for_range patch_number_height
      (fun i image_quilt =>
         for_range patch_number_width
           (fun j image_quilt =>
              let y := i * (patch_size - overlap) in
              let x := j * (patch_size - overlap) in
              image_patch <- get_random_patch image_texture image_hsv patch_size
                               ysize xsize h_range s_range v_range ;;
              assign_patch image_quilt patch_size y x image_patch)
           image_quilt)
      image_quilt ;;
  let image_quilt := cv2_medianBlur image_quilt 11 in
  let image_quilt := enhance_contrast image_quilt in
  ret (if is_gray then cvt_BGR2GRAY image_quilt else image_quilt).
End Methods.

(** *** [generate_strange_texture] *)

(** A float array of shape [(cheight, cwidth, 3)]. *)
Record FloatColorImage : Type := mkFloatColorImage {
  cheight : Z;
  cwidth : Z;
  cpix : Z -> Z -> Z -> Q
}.

(** [int(x + t_random * 80.0 + m_random[0] * 10.0)
     ^ int(y + t_random * 80.0 + m_random[1] * 10.0)] *)
Definition strange_value (t_random m0 m1 : Q) (y x : Z) : Z :=
  Z.lxor (py_int (inject_Z x + t_random * 80 + m0 * 10))
         (py_int (inject_Z y + t_random * 80 + m1 * 10)).

(** [for i in range(i, stop, step): if value % i == 0: color =
    background_value], with [fuel] iterations at most. *)
Fixpoint divisor_loop (fuel : nat) (value i stop step : Z)
  (color background_value : Q) : Q :=
  match fuel with
  | O => color
  | S fuel' =>
      if i <? stop then
        divisor_loop fuel' value (i + step) stop step
          (if value mod i =? 0 then background_value else color)
          background_value
      else color
  end.

(** The colour of a pixel before it is divided into channels; [step] is the
    drawn stride of the divisor search, which runs over
    [range(3, floor(sqrt(value)), step)]. *)
Definition strange_color (background_value : Q) (value step : Z) : Q :=
  let color := 1%Q in
  let color := if value <=? 1 then background_value else color in
  let color :=
    if (value mod 2 =? 0) && (value >? 2) then background_value else color in
  divisor_loop (Z.to_nat (Z.sqrt value)) value 3 (Z.sqrt value) step
               color background_value.

(** The body of the two loops: the three channels of the pixel [(y, x)]. *)
Definition strange_pixel (background_value t_random m0 m1 : Q) (y x : Z)
  : M (Q * Q * Q) :=
  let value := strange_value t_random m0 m1 y x in
  step <- random_randint 1 10 ;;
  let color := strange_color background_value value step in
  u0 <- random_uniform (1 # 100) 3 ;;
  u1 <- random_uniform (1 # 100) 3 ;;
  u2 <- random_uniform (1 # 100) 3 ;;
  ret (color / u0, color / u1, color / u2)%Q.

(** [image[y, x] = new_color] *)
Definition set_color (image : FloatColorImage) (y x : Z) (new_color : Q * Q * Q)
  : FloatColorImage :=
  mkFloatColorImage (cheight image) (cwidth image)
    (fun yy xx c =>
       if (yy =? y) && (xx =? x) then
         if c =? 0 then fst (fst new_color)
         else if c =? 1 then snd (fst new_color) else snd new_color
       else cpix image yy xx c).

Definition color_rot90_once (a : FloatColorImage) : FloatColorImage :=
  mkFloatColorImage (cwidth a) (cheight a)
    (fun y x c => cpix a x (cwidth a - 1 - y) c).

Definition color_rot90 (a : FloatColorImage) (k : Z) : FloatColorImage :=
  Nat.iter (Z.to_nat (k mod 4)) color_rot90_once a.

Definition generate_strange_texture (oxsize oysize : Z) : M FloatColorImage :=
  background_value <- random_uniform (4 # 100) (11 # 100) ;;
  t_random <- random_uniform 0 100 ;;
  m0 <- random_uniform 0 100 ;;
  m1 <- random_uniform 0 100 ;;
  image_strange_texture <-
    (if (oysize <? 0) || (oxsize <? 0) then raise ValueError
     else ret (mkFloatColorImage oysize oxsize (fun _ _ _ => 0%Q))) ;;
  image_strange_texture <-
    for_range oysize
      (fun y image =>
         for_range oxsize
           (fun x image =>
              new_color <- strange_pixel background_value t_random m0 m1 y x ;;
              ret (set_color image y x new_color))
           image)
      image_strange_texture ;;
  k <- random_randint 0 3 ;;
  ret (color_rot90 image_strange_texture k).

(** *** [generate_normal_texture] *)

(** The noise of one layer:
    [cv2.resize(np.random.normal(0, sigma, (new_xsize, new_ysize, channel)),
    dsize=(xsize, ysize))], as the values that [image_output += result] adds
    at each position of the [ysize] by [xsize] output.  The action raises
    where numpy or OpenCV does: a negative [sigma], an empty layer, a layer
    of several channels that cannot be added to the 2-D output. *)
Class NormalNoise : Type := {
  normal_layer : Q -> Z -> Z -> Z -> Z -> Z -> M (Z -> Z -> Q)
}.

Section NormalTexture.
Context {np : Numpy} {noise : NormalNoise}.

(** The [while ratio != 1] loop, with [fuel] iterations at most; [None] when
    the fuel runs out before the loop ends. *)
Fixpoint noise_loop (fuel : nat) (xsize ysize channel : Z) (sigma : Q)
  (turbulence ratio : Z) (image_output : FloatImage) : M (option FloatImage) :=
  match fuel with
  | O => ret None
  | S fuel' =>
      if ratio =? 1 then ret (Some image_output)
      else
        new_ysize <- py_truediv ysize ratio ;;
        new_xsize <- py_truediv xsize ratio ;;
        result <- normal_layer sigma (py_int new_xsize) (py_int new_ysize)
                               channel xsize ysize ;;
        let image_output :=
          mkFloatImage (fheight image_output) (fwidth image_output)
            (fun y x => (fpix image_output y x + result y x)%Q) in
        if turbulence =? 0 then raise ZeroDivisionError
        else
          let next := ratio / turbulence in
          noise_loop fuel' xsize ysize channel sigma turbulence
                     (if next =? 0 then 1 else next) image_output
  end.

(** What follows the loop: the clip to [0, 255], the rescaling to
    [32, 255], the cast, and the conversion to three channels. *)
Definition finish_normal_texture (channel : Z) (image_output : FloatImage) : M Image :=
  let clipped :=
    mkFloatImage (fheight image_output) (fwidth image_output)
      (fun y x => Qmax 0 (Qmin 255 (fpix image_output y x))) in
  let new_min := 32%Q in
  let new_max := 255%Q in
  normalized <- minmax_normalize clipped ;;
  let image_output :=
    mkImage (fheight clipped) (fwidth clipped) None
      (fun y x _ =>
         float_to_uint8
           (match normalized y x with
            | Fin q => Fin (q * (new_max - new_min) + new_min)
            | other => other
            end)) in
  ret (if channel =? 3 then cvt_GRAY2BGR image_output else image_output).

Definition generate_normal_texture (fuel : nat) (xsize ysize channel : Z)
  (value sigma : Q) (turbulence : Z) : M (option Image) :=
  image_output <-
    (if (ysize <? 0) || (xsize <? 0) then raise ValueError
     else ret (mkFloatImage ysize xsize (fun _ _ => value))) ;;
  let ratio := Z.min xsize ysize in
  looped <- noise_loop fuel xsize ysize channel sigma turbulence ratio image_output ;;
  match looped with
  | None => ret None
  | Some image_output =>
      result <- finish_normal_texture channel image_output ;;
      ret (Some result)
  end.
End NormalTexture.

End TextureGenerator.

(** ** Concrete collaborators

    Stand-ins for the collaborators, used where a property is evaluated on a
    concrete run. *)

Module Fixtures.

(** An OpenCV whose filters copy their input, whose resize is nearest
    neighbour and whose contour finder is given: a contour is its area and
    the corners of its rotated rectangle. *)
Definition cv_with (find : Image -> list (Q * Box)) : OpenCV := {|
  resize_pixel := fun _ src w h y x c =>
    pix src (y * height src / h) (x * width src / w) c;
  bgr2gray_pixel := fun b g r => (b + g + r) / 3;
  bgr2hsv_pixel := fun b g r => (0, 0, Z.max b (Z.max g r));
  gaussian_pixel := fun _ a y x c => pix a y x c;
  otsu_pixel := fun a y x => if 127 <? pix a y x 0 then 255 else 0;
  erode_pixel := fun _ a y x => pix a y x 0;
  median_pixel := fun _ a y x c => pix a y x c;
  multiply_pixel := fun s a b => py_int (s * inject_Z (a * b));
  Contour := Q * Box;
  findContours := find;
  contourArea := fst;
  minAreaRect_box := snd
|}.

Definition cv_plain : OpenCV := cv_with (fun _ => []).

(** A compositor that returns its foreground (mode [normal] at opacity 1),
    a colorizer that paints every sample with [ink], and a generator of
    flat gray. *)
Definition augraphy_with (ink : Z) : Augraphy := {|
  build_overlay := fun _ foreground _ => ret foreground;
  color_paper := fun _ _ img =>
    ret (mkImage (height img) (width img) (Some 3) (fun _ _ _ => ink));
  brightness := fun _ _ img => ret img;
  generate_average_intensity := fun _ => Float64.of_int 255;
  enhance_contrast_pixel := fun img y x c => pix img y x c;
  should_run := fun _ => ret true;
  texture_generator := fun _ w h => ret (mkImage h w None (fun _ _ _ => 128))
|}.

(** A numpy whose wave pass is the ramp [x], whose masked transform is the
    exact discrete Fourier transform of an image of one row and at most
    two columns, and whose NaN casts to 0. *)
Definition numpy_small : Numpy := {|
  wave_ifft_pixel := fun _ _ _ => ret (fun _ x => inject_Z x);
  masked_ifft_pixel := fun img mask _ x =>
    if width img =? 1 then inject_Z (pix img 0 0 0 * mask 0 0)
    else
      let low := (pix img 0 0 0 + pix img 0 1 0) * mask 0 1 in
      let high := (pix img 0 0 0 - pix img 0 1 0) * mask 0 0 in
      if x =? 0 then (inject_Z (low + high) / 2)%Q
      else (inject_Z (low - high) / 2)%Q;
  power_pixel := fun _ _ v => Fin (inject_Z v);
  nan_to_uint8 := 0
|}.

(** A flat image and an image whose sample encodes its position. *)
Definition flat (h w : Z) (c : option Z) (v : Z) : Image :=
  mkImage h w c (fun _ _ _ => v).

Definition grid (h w : Z) (c : option Z) : Image :=
  mkImage h w c (fun y x _ => 10 * y + x).

(** A numpy whose masked transform gives back the samples of the image. *)
Definition numpy_echo : Numpy := {|
  wave_ifft_pixel := fun _ _ _ => ret (fun y x => inject_Z (y + x));
  masked_ifft_pixel := fun img _ y x => inject_Z (pix img y x 0);
  power_pixel := fun _ _ v => Fin (inject_Z v);
  nan_to_uint8 := 0
|}.

(** The gray image of one row [[a, b]]. *)
Definition pair_image (a b : Z) : Image :=
  mkImage 1 2 None (fun _ x _ => if x =? 0 then a else b).

(** Generators: a constant stream and a stream given by its first draws. *)
Definition rng_const (d : Z) : Rng := mkRng (fun _ => d) 0.

Definition rng_of (draws : list Z) : Rng := mkRng (fun n => nth n draws 0) 0.



(** The wave ranges of [generate_rough_stains_texture], with the given
    number of outer passes. *)
Definition config_of (passes : Z * Z) : WaveConfig :=
  mkWaveConfig passes (2, 4) (95 # 100, 95 # 100)%Q (5, 15)%Q
               (1 # 100, 3 # 100)%Q (0, 6)%Q (-1, 1)%Q (-1, 1)%Q.

(** A directory given by its files in listing order, each with what
    [cv2.imread] makes of it. *)
Definition disk_of (files : list (string * option Image)) : Disk := {|
  glob := fun _ => map fst files;
  imread := fun file =>
    match find (fun entry => String.eqb (fst entry) file) files with
    | Some entry => snd entry
    | None => None
    end
|}.

(** Noise layers that add the column index scaled by [amount], without a
    draw. *)
Definition noise_ramp (amount : Q) : TextureGenerator.NormalNoise := {|
  TextureGenerator.normal_layer := fun _ _ _ _ _ _ =>
    ret (fun _ x => (amount * inject_Z x)%Q)
|}.

(** A factory over a given library, one file name per texture. *)
Definition factory_of (textures : list Image) (color blend : Z) : PaperFactory.t :=
  PaperFactory.mkPaperFactory textures
    (map (fun _ => "texture.png"%string) textures)
    (PaperFactory.FlagValue color) (PaperFactory.FlagValue blend)
    "normal"%string 1%Q.

End Fixtures.

(** * Properties *)

(** ** The numpy and Python primitives on small inputs *)

Example slice_from_end : slice_range 10 (Some (-3)) None = (7, 3).
Proof. reflexivity. Qed.

Example slice_clamped : slice_range 10 (Some 8) (Some 15) = (8, 2).
Proof. reflexivity. Qed.

Example slice_empty : slice_range 10 (Some 6) (Some 6) = (6, 0).
Proof. reflexivity. Qed.

Example py_int_truncates : py_int (7 # 2) = 3 /\ py_int (-7 # 2) = -3.
Proof. split; reflexivity. Qed.

Example uint8_wraps : uint8 (200 + 100) = 44.
Proof. reflexivity. Qed.

(** [np.rot90([[0, 1, 2], [10, 11, 12]])] is [[[2, 12], [1, 11], [0, 10]]]. *)
Example rot90_quarter_turn :
  let r := np_rot90 (Fixtures.grid 2 3 None) 1 in
  (height r, width r) = (3, 2)
  /\ map (fun yx => pix r (fst yx) (snd yx) 0)
         [(0, 0); (0, 1); (1, 0); (1, 1); (2, 0); (2, 1)]
     = [2; 12; 1; 11; 0; 10].
Proof. split; reflexivity. Qed.

Example rot90_full_turn :
  pix (np_rot90 (Fixtures.grid 2 3 None) 4) 1 2 0 = 12.
Proof. reflexivity. Qed.

Example argsort_areas :
  PaperFactory.np_argsort [3; 1; 2; 1]%Q = [1; 3; 2; 0]%nat.
Proof. reflexivity. Qed.

Example sort_corners : PaperFactory.np_sort [9; 1; 9; 1] = [1; 1; 9; 9].
Proof. reflexivity. Qed.

Example divide_zero_by_zero :
  np_divide 0 0 = NaN /\ np_divide 1 0 = PosInf /\ np_divide 1 2 = Fin (1 / 2).
Proof. repeat split; reflexivity. Qed.

(** ** Arithmetic of the random source and of [int] *)



Lemma py_int_lower (z : Z) (q : Q) : (inject_Z z <= q)%Q -> z <= py_int q.
Proof.
  intros H. unfold py_int.
  assert (Hf : z <= Qfloor q).
  { rewrite <- (Qfloor_Z z). apply Qfloor_resp_le. exact H. }
  destruct (Qlt_le_dec q 0); [ | exact Hf].
  pose proof (Qle_floor_ceiling q) as Hc. rewrite <- Zle_Qle in Hc. lia.
Qed.

Lemma unit_draw_bounds (d : Z) :
  (0 <= Qmake (d mod two53) 9007199254740992 /\
   Qmake (d mod two53) 9007199254740992 < 1)%Q.
Proof.
  assert (H : 0 <= d mod two53 < two53) by (apply Z.mod_pos_bound; reflexivity).
  unfold Qle, Qlt. cbn [Qnum Qden]. unfold two53 in *. lia.
Qed.

(** [random.uniform(a, b)] never fails, takes one draw, and lies between
    its two arguments. *)
Lemma random_uniform_run (a b : Q) (g : Rng) :
  exists u : Q,
    random_uniform a b g = Ok ((a + (b - a) * u)%Q, mkRng (stream g) (S (cursor g)))
    /\ (0 <= u)%Q /\ (u < 1)%Q.
Proof.
  exists (Qmake (stream g (cursor g) mod two53) 9007199254740992).
  split; [reflexivity | apply unit_draw_bounds].
Qed.

(** ** Double arithmetic *)

Lemma py_truediv_run (a b : Z) (g : Rng) :
  b <> 0 -> py_truediv a b g = Ok ((inject_Z a / inject_Z b)%Q, g).
Proof.
  intros Hb. unfold py_truediv.
  destruct (Z.eqb_spec b 0); [contradiction | reflexivity].
Qed.

(** The literals [1.2] and [1.5], and a draw of [random.random()]. *)
Example float_literals :
  Float64.literal 12 10 = S754_finite false 5404319552844595 (-52)
  /\ Float64.literal 15 10 = S754_finite false 6755399441055744 (-52)
  /\ Float64.random (mkRng (fun _ => 4503599627370496) 0)
     = Ok (S754_finite false 4503599627370496 (-53),
           mkRng (fun _ => 4503599627370496) 1).
Proof. repeat split; vm_compute; reflexivity. Qed.

(** [61 / 7] is rounded down, so that [7 * (61 / 7)] is the double just
    below 61, and [int] truncates it to 60. *)
Example product_of_quotient_rounds_down :
  Float64.truediv 61 7 (mkRng (fun _ => 0) 0)
  = Ok (S754_finite false 4905706736957147 (-49), mkRng (fun _ => 0) 0)
  /\ Float64.mul (Float64.of_int 7) (S754_finite false 4905706736957147 (-49))
     = S754_finite false 8584986789675007 (-47)
  /\ Float64.to_int (S754_finite false 8584986789675007 (-47))
       (mkRng (fun _ => 0) 0)
     = Ok (60, mkRng (fun _ => 0) 0).
Proof. repeat split; vm_compute; reflexivity. Qed.

(** An average intensity one unit in the last place below 200 gives a
    brightness range whose lower end rounds to 1.0, and an intensity of 50
    gives the range from 2.5 to 4.0. *)
Example brightness_range_rounds :
  let range := fun intensity : Float64.t =>
    let brighten_ratio :=
      Float64.div (Float64.abs (Float64.sub intensity (Float64.of_int 200)))
                  intensity in
    (Float64.add (Float64.of_int 1)
                 (Float64.div brighten_ratio (Float64.of_int 2)),
     Float64.add (Float64.of_int 1) brighten_ratio) in
  fst (range (Float64.of_binary (200 * 2 ^ 45 - 1) (-45))) = Float64.of_int 1
  /\ range (Float64.of_int 50) = (Float64.literal 5 2, Float64.of_int 4).
Proof. split; vm_compute; reflexivity. Qed.

(** ** [PaperFactory.resize] *)

(** Zooming a 49 by 49 texture out to 1 by 1 when [random.random()] returns
    0.0: [49 * (1 / 49)] rounds below 1, the zoom is (0, 0), and OpenCV
    refuses it. *)
Example resize_zoom_out_to_nothing :
  PaperFactory.resize (cv := Fixtures.cv_plain) (Fixtures.grid 49 49 None)
    1 1 (Fixtures.rng_const 0) = Raise CvError.
Proof. vm_compute. reflexivity. Qed.

(** C5 fails in the code.  A 7 by 7 texture is fitted to a 61 by 61 target
    and [random.random()] returns 0.0: the zoom-in scale is the double
    nearest to 61/7, which lies below 61/7; 7 times it rounds to
    60.99999999999999, [int] truncates that to 60, and the texture returned
    is 60 by 60, smaller than the target on both axes. *)
Theorem resize_falls_short_of_target :
  exists texture' g',
    PaperFactory.resize (cv := Fixtures.cv_plain) (Fixtures.grid 7 7 None)
      61 61 (Fixtures.rng_const 0) = Ok (texture', g')
    /\ height texture' = 60 /\ width texture' = 60
    /\ height texture' < 61 /\ width texture' < 61.
Proof.
  eexists _, _. split; [vm_compute; reflexivity | ].
  cbn [height width]. repeat split; reflexivity.
Qed.

(** ** Draws and slices *)

Lemma random_randint_run (a b : Z) (g : Rng) :
  a <= b ->
  random_randint a b g
  = Ok (a + stream g (cursor g) mod (b - a + 1), advance g 1)
  /\ a <= a + stream g (cursor g) mod (b - a + 1) <= b.
Proof.
  intros H. unfold random_randint.
  destruct (Z.ltb_spec b a); [lia | ].
  split; [reflexivity | ].
  pose proof (Z.mod_pos_bound (stream g (cursor g)) (b - a + 1)). lia.
Qed.

Lemma np_random_randint_run (high : Z) (g : Rng) :
  0 < high ->
  np_random_randint high g = Ok (stream g (cursor g) mod high, advance g 1)
  /\ 0 <= stream g (cursor g) mod high < high.
Proof.
  intros H. unfold np_random_randint.
  destruct (Z.leb_spec high 0); [lia | ].
  split; [reflexivity | apply Z.mod_pos_bound; exact H].
Qed.

Lemma np_random_randint_empty (high : Z) (g : Rng) :
  high <= 0 -> np_random_randint high g = Raise ValueError.
Proof.
  intros H. unfold np_random_randint.
  destruct (Z.leb_spec high 0); [reflexivity | lia].
Qed.

(** A slice that lies inside the axis is taken as written. *)
Lemma slice_range_inside (n lo len : Z) :
  0 <= lo -> 0 <= len -> lo + len <= n ->
  slice_range n (Some lo) (Some (lo + len)) = (lo, len).
Proof.
  intros H1 H2 H3. unfold slice_range, slice_index.
  destruct (Z.ltb_spec lo 0); [lia | ].
  destruct (Z.ltb_spec (lo + len) 0); [lia | ].
  f_equal; lia.
Qed.

(** ** [PaperFactory.retrieve_texture] *)

Section RetrieveFacts.
Context {cv : OpenCV}.

Lemma list_get_run {A : Type} (seq : list A) (i : Z) (g : Rng) :
  0 <= i < Z.of_nat (List.length seq) ->
  exists x, PaperFactory.list_get seq i g = Ok (x, g) /\ In x seq.
Proof.
  intros H. unfold PaperFactory.list_get.
  destruct (nth_error seq (Z.to_nat i)) as [x | ] eqn:E.
  - exists x. split; [reflexivity | eapply nth_error_In; exact E].
  - apply nth_error_None in E. lia.
Qed.

(** With a non-empty library, [choose_texture] returns a library texture,
    rotated by one to four quarter turns and edge-cropped, after two
    draws. *)
Lemma choose_texture_run (self : PaperFactory.t) (g : Rng) :
  PaperFactory.paper_textures self <> [] ->
  (List.length (PaperFactory.paper_textures self)
   <= List.length (PaperFactory.texture_file_names self))%nat ->
  exists texture k name,
    In texture (PaperFactory.paper_textures self) /\ 1 <= k <= 4
    /\ PaperFactory.choose_texture self g
       = Ok ((PaperFactory.check_paper_edges (np_rot90 texture k), name),
             advance g 2).
Proof.
  intros Hne Hnames. unfold PaperFactory.choose_texture.
  set (n := Z.of_nat (List.length (PaperFactory.paper_textures self))).
  assert (Hn : 0 < n).
  { subst n. destruct (PaperFactory.paper_textures self);
      [contradiction | cbn [List.length]; lia]. }
  destruct (random_randint_run 0 (n - 1) g) as [Hidx Hb]; [lia | ].
  set (idx := 0 + stream g (cursor g) mod (n - 1 - 0 + 1)) in *.
  destruct (list_get_run (PaperFactory.paper_textures self) idx (advance g 1))
    as (texture & Hget & Hin); [subst n; lia | ].
  destruct (random_randint_run 1 4 (advance g 1)) as [Hk Hkb]; [lia | ].
  set (k := 1 + stream (advance g 1) (cursor (advance g 1)) mod (4 - 1 + 1)) in *.
  destruct (list_get_run (PaperFactory.texture_file_names self) idx
              (advance (advance g 1) 1)) as (name & Hname & _);
    [subst n; lia | ].
  exists texture, k, name. split; [exact Hin | ]. split; [exact Hkb | ].
  unfold bind. rewrite Hidx, Hget, Hk, Hname. reflexivity.
Qed.

(** C3, as the code has it.  With a non-empty library: when the rotated,
    edge-cropped texture is strictly larger than the target on both axes,
    the result is the [H] by [W] window of it at a drawn offset; otherwise
    the result is what [resize] returns for it, with no crop after it. *)
Theorem retrieve_texture_fit (self : PaperFactory.t) (image : Image) (g : Rng) :
  PaperFactory.paper_textures self <> [] ->
  (List.length (PaperFactory.paper_textures self)
   <= List.length (PaperFactory.texture_file_names self))%nat ->
  0 <= height image -> 0 <= width image ->
  exists texture name g1,
    PaperFactory.choose_texture self g = Ok ((texture, name), g1)
    /\ if (height texture >? height image) && (width texture >? width image)
       then
         exists result g' start_y start_x,
           PaperFactory.retrieve_texture self image g = Ok ((result, name), g')
           /\ height result = height image /\ width result = width image
           /\ 0 <= start_y <= height texture - height image
           /\ 0 <= start_x <= width texture - width image
           /\ forall y x c,
               pix result y x c = pix texture (start_y + y) (start_x + x) c
       else
         PaperFactory.retrieve_texture self image g
         = match PaperFactory.resize texture (height image) (width image) g1 with
           | Ok (result, g') => Ok ((result, name), g')
           | Raise e => Raise e
           end.
Proof.
  intros Hne Hnames HH HW.
  destruct (choose_texture_run self g Hne Hnames)
    as (texture0 & k & name & _ & _ & Hchoose).
  set (texture := PaperFactory.check_paper_edges (np_rot90 texture0 k)) in *.
  exists texture, name, (advance g 2). split; [exact Hchoose | ].
  assert (Hrun : PaperFactory.retrieve_texture self image g
                 = (if (height texture >? height image)
                       && (width texture >? width image)
                    then
                      start_y <- random_randint 0 (height texture - height image) ;;
                      start_x <- random_randint 0 (width texture - width image) ;;
                      ret (slice2 texture (Some start_y)
                             (Some (start_y + height image))
                             (Some start_x) (Some (start_x + width image)),
                           name)
                    else
                      result <- PaperFactory.resize texture (height image)
                                  (width image) ;;
                      ret (result, name)) (advance g 2)).
  { unfold PaperFactory.retrieve_texture. cbv zeta. unfold bind at 1.
    rewrite Hchoose. reflexivity. }
  rewrite Hrun. clear Hrun.
  destruct ((height texture >? height image) && (width texture >? width image))
    eqn:E.
  - apply andb_true_iff in E. destruct E as [E1 E2].
    apply Z.gtb_lt in E1. apply Z.gtb_lt in E2.
    destruct (random_randint_run 0 (height texture - height image) (advance g 2))
      as [Hy Hyb]; [lia | ].
    set (start_y := 0 + _) in *.
    destruct (random_randint_run 0 (width texture - width image)
                (advance (advance g 2) 1)) as [Hx Hxb]; [lia | ].
    set (start_x := 0 + stream (advance (advance g 2) 1) _ mod _) in *.
    eexists _, _, start_y, start_x. split.
    + unfold bind. rewrite Hy, Hx. reflexivity.
    + unfold slice2. cbn [height width pix].
      rewrite !slice_range_inside by lia. cbn [fst snd].
      split; [reflexivity | ]. split; [reflexivity | ].
      split; [lia | ]. split; [lia | reflexivity].
  - unfold bind.
    destruct (PaperFactory.resize texture (height image) (width image)
                (advance g 2)) as [[result g'] | e]; reflexivity.
Qed.
End RetrieveFacts.

Lemma retrieve_texture_fit_witness :
  exists texture name g1,
    PaperFactory.choose_texture (cv := Fixtures.cv_plain)
      (Fixtures.factory_of [Fixtures.grid 5 6 (Some 3)] 0 0)
      (Fixtures.rng_const 1) = Ok ((texture, name), g1)
    /\ if (height texture >? 3) && (width texture >? 3)
       then
         exists result g' start_y start_x,
           PaperFactory.retrieve_texture (cv := Fixtures.cv_plain)
             (Fixtures.factory_of [Fixtures.grid 5 6 (Some 3)] 0 0)
             (Fixtures.flat 3 3 (Some 3) 0) (Fixtures.rng_const 1)
           = Ok ((result, name), g')
           /\ height result = 3 /\ width result = 3
           /\ 0 <= start_y <= height texture - 3
           /\ 0 <= start_x <= width texture - 3
           /\ forall y x c,
               pix result y x c = pix texture (start_y + y) (start_x + x) c
       else
         PaperFactory.retrieve_texture (cv := Fixtures.cv_plain)
           (Fixtures.factory_of [Fixtures.grid 5 6 (Some 3)] 0 0)
           (Fixtures.flat 3 3 (Some 3) 0) (Fixtures.rng_const 1)
         = match PaperFactory.resize (cv := Fixtures.cv_plain) texture 3 3 g1 with
           | Ok (result, g') => Ok ((result, name), g')
           | Raise e => Raise e
           end.
Proof.
  apply (@retrieve_texture_fit Fixtures.cv_plain
           (Fixtures.factory_of [Fixtures.grid 5 6 (Some 3)] 0 0)
           (Fixtures.flat 3 3 (Some 3) 0) (Fixtures.rng_const 1)).
  - discriminate.
  - simpl. lia.
  - simpl. lia.
  - simpl. lia.
Defined.

(** C3 as stated fails: a 2 by 2 library texture fitted to a 3 by 3 target is
    returned 4 by 4, as [resize] leaves it. *)
Lemma retrieve_texture_not_exact :
  exists result name g',
    PaperFactory.retrieve_texture (cv := Fixtures.cv_plain)
      (Fixtures.factory_of [Fixtures.grid 2 2 (Some 3)] 0 0)
      (Fixtures.flat 3 3 (Some 3) 0) (Fixtures.rng_const 4503599627370496)
    = Ok ((result, name), g')
    /\ height result = 4 /\ width result = 4
    /\ height result <> height (Fixtures.flat 3 3 (Some 3) 0).
Proof.
  eexists _, _, _. split; [vm_compute; reflexivity | ].
  split; [reflexivity | ]. split; [reflexivity | ]. simpl. lia.
Qed.

(** ** [PaperFactory.check_paper_edges] *)

Section EdgeFacts.
Context {cv : OpenCV}.

(** With two contours or more, the loop is left in its first iteration:
    the largest contour is kept when it reaches [min_area] and the second
    largest does not, and the texture is returned as it is otherwise. *)
Lemma walk_contours_first (contours : list Contour) (areas : list Q)
  (min_area : Q) (first second : nat) (rest : list nat) (max_contour : Contour) :
  PaperFactory.walk_contours contours areas min_area
    (List.length (first :: second :: rest)) 0 (first :: second :: rest) max_contour
  = if PaperFactory.Qgeb (nth first areas 0%Q) min_area
       && PaperFactory.Qltb (nth second areas 0%Q) min_area
    then PaperFactory.WalkCrop (nth first contours max_contour)
    else PaperFactory.WalkReturn.
Proof. reflexivity. Qed.

(** A single contour is kept exactly when it reaches [min_area]. *)
Lemma walk_contours_single (contours : list Contour) (areas : list Q)
  (min_area : Q) (only : nat) (max_contour : Contour) :
  PaperFactory.walk_contours contours areas min_area 1 0 [only] max_contour
  = if PaperFactory.Qgeb (nth only areas 0%Q) min_area
    then PaperFactory.WalkCrop (nth only contours max_contour)
    else PaperFactory.WalkReturn.
Proof. reflexivity. Qed.
End EdgeFacts.


(** ** [PaperFactory.__call__]: blending *)

Section BlendFacts.
Context {cv : OpenCV} {au : Augraphy}.

(** Once the second texture is acquired it is not used again: what goes to
    the compositor as the foreground is a resize of the first texture to its
    own size. *)
Lemma blend_drops_second_texture (self : PaperFactory.t) (texture second : Image)
  (g g1 : Rng) :
  PaperFactory.second_texture self texture g = Ok (second, g1) ->
  PaperFactory.blend_textures self texture g
  = (new_texture <- cv2_resize texture (width texture) (height texture) INTER_AREA ;;
     blend_method <-
       (if String.eqb (PaperFactory.blend_method self) "random"
        then random_choice PaperFactory.blend_methods
        else ret (PaperFactory.blend_method self)) ;;
     build_overlay blend_method new_texture texture) g1.
Proof.
  intros H. unfold PaperFactory.blend_textures. unfold bind at 1.
  rewrite H. reflexivity.
Qed.
End BlendFacts.

(** C1 at the failing input.  A library of a texture of 10s and a texture of
    200s; the first texture is drawn from the 10s, the second from the 200s,
    and the compositor, which returns the foreground it is handed, returns
    10s: it was handed the first texture, not the second. *)
Theorem blend_hands_over_first_texture :
  let self := Fixtures.factory_of
                [Fixtures.flat 4 4 (Some 3) 10; Fixtures.flat 4 4 (Some 3) 200] 0 1 in
  let image := Fixtures.flat 2 2 (Some 3) 0 in
  let g := Fixtures.rng_of [0; 0; 0; 0; 1; 0; 0; 0] in
  exists first g1 second g2 merged g3,
    PaperFactory.acquire_texture (cv := Fixtures.cv_plain)
      (au := Fixtures.augraphy_with 0) self image g = Ok (first, g1)
    /\ PaperFactory.second_texture (cv := Fixtures.cv_plain)
         (au := Fixtures.augraphy_with 0) self first g1 = Ok (second, g2)
    /\ PaperFactory.blend_textures (cv := Fixtures.cv_plain)
         (au := Fixtures.augraphy_with 0) self first g1 = Ok (merged, g3)
    /\ (height second, width second) = (height first, width first)
    /\ pix first 0 0 0 = 10 /\ pix second 0 0 0 = 200 /\ pix merged 0 0 0 = 10.
Proof.
  cbv zeta. eexists _, _, _, _, _, _.
  split; [vm_compute; reflexivity | ].
  split; [vm_compute; reflexivity | ].
  split; [vm_compute; reflexivity | ].
  repeat split; vm_compute; reflexivity.
Qed.

(** ** [PaperFactory.__call__]: colour *)

Section ColorFacts.
Context {cv : OpenCV} {au : Augraphy}.

(** C4, as the code has it.  With colorization enabled, a texture of two
    dimensions is converted to 3 channels and handed to the colorizer with
    the hue window [hue - 10, hue + 10] for a drawn [hue] of [10, 245] and
    the saturation window [saturation - 10, saturation + 10] for a drawn
    [saturation] of [60, 195]; a texture that already has a channel axis is
    returned as it is, without a draw and without the colorizer.  With
    colorization disabled, a texture with a channel axis is collapsed to a
    single channel and a gray one is returned as it is. *)
Theorem color_texture_cases (texture_enable_color : Z) (texture : Image) (g : Rng) :
  let hue := 10 + stream g (cursor g) mod 236 in
  let saturation := 60 + stream g (S (cursor g)) mod 136 in
  (10 <= hue <= 245 /\ 60 <= saturation <= 195)
  /\ channels (cvt_GRAY2BGR texture) = Some 3
  /\ ndim (cvt_BGR2GRAY texture) = 2
  /\ PaperFactory.color_texture texture_enable_color texture g
     = if PaperFactory.truthy texture_enable_color then
         if ndim texture <? 3 then
           color_paper (hue - 10, hue + 10) (saturation - 10, saturation + 10)
                       (cvt_GRAY2BGR texture) (advance g 2)
         else Ok (texture, g)
       else
         if ndim texture >? 2 then Ok (cvt_BGR2GRAY texture, g)
         else Ok (texture, g).
Proof.
  cbv zeta. split.
  - pose proof (Z.mod_pos_bound (stream g (cursor g)) 236).
    pose proof (Z.mod_pos_bound (stream g (S (cursor g))) 136). lia.
  - split; [reflexivity | ]. split; [reflexivity | ].
    unfold PaperFactory.color_texture.
    destruct (PaperFactory.truthy texture_enable_color).
    + destruct (ndim texture <? 3); reflexivity.
    + destruct (ndim texture >? 2); reflexivity.
Qed.
End ColorFacts.

(** C4 as stated fails: a library texture has three channels, and with
    colorization enabled [__call__] returns its samples, 7, untouched by the
    colorizer, which paints 99. *)
Lemma call_skips_colorizer_on_bgr :
  let self := Fixtures.factory_of [Fixtures.flat 4 4 (Some 3) 7] 1 0 in
  let image := Fixtures.flat 2 2 (Some 3) 0 in
  exists texture g',
    PaperFactory.__call__ (cv := Fixtures.cv_plain) (au := Fixtures.augraphy_with 99)
      (Aux := unit) self image None None None true (Fixtures.rng_const 0)
    = Ok (PaperFactory.OutTexture texture, g')
    /\ pix texture 0 0 0 = 7
    /\ forall hue_range saturation_range g,
        exists painted g'',
          color_paper (Augraphy := Fixtures.augraphy_with 99)
                      hue_range saturation_range texture g = Ok (painted, g'')
          /\ pix painted 0 0 0 = 99.
Proof.
  cbv zeta. eexists _, _. split; [vm_compute; reflexivity | ].
  split; [reflexivity | ].
  intros hue_range saturation_range g. eexists _, _. split; reflexivity.
Qed.

(** ** [TextureGenerator.get_random_patch] and [quilt_texture]: the draws *)

Section PatchDrawFacts.
Context {cv : OpenCV} {au : Augraphy} {np : Numpy}.

Lemma get_random_patch_no_room (image_texture image_hsv : Image)
  (patch_size ysize xsize : Z) (h_range s_range v_range : option (Q * Q)) (g : Rng) :
  ysize <= patch_size \/ xsize <= patch_size ->
  TextureGenerator.get_random_patch image_texture image_hsv patch_size ysize xsize
    h_range s_range v_range g = Raise ValueError.
Proof.
  intros H. unfold TextureGenerator.get_random_patch. unfold bind at 1.
  destruct (Z.le_gt_cases ysize patch_size) as [Hy | Hy].
  - rewrite np_random_randint_empty by lia. reflexivity.
  - destruct (np_random_randint_run (ysize - patch_size) g) as [Hrun _]; [lia | ].
    rewrite Hrun. unfold bind at 1.
    rewrite np_random_randint_empty by lia. reflexivity.
Qed.

Lemma find_reference_no_room (tries : nat) (image_hsv : Image)
  (patch_size ysize xsize y x : Z) (g : Rng) :
  ysize <= patch_size \/ xsize <= patch_size ->
  TextureGenerator.find_reference (S tries) image_hsv patch_size ysize xsize y x g
  = Raise ValueError.
Proof.
  intros H. cbn [TextureGenerator.find_reference]. unfold bind at 1.
  destruct (Z.le_gt_cases ysize patch_size) as [Hy | Hy].
  - rewrite np_random_randint_empty by lia. reflexivity.
  - destruct (np_random_randint_run (ysize - patch_size) g) as [Hrun _]; [lia | ].
    rewrite Hrun. unfold bind at 1.
    rewrite np_random_randint_empty by lia. reflexivity.
Qed.

(** C10.  When the source texture is not strictly higher and strictly wider
    than [patch_size], the first location draw of [quilt_texture] and of
    [get_random_patch] has an empty range and the call raises: neither
    returns. *)
Theorem patch_draws_need_room (image_texture image_hsv : Image)
  (patch_size patch_number_width patch_number_height : Z)
  (h_range s_range v_range : option (Q * Q)) (g : Rng) :
  height image_texture <= patch_size \/ width image_texture <= patch_size ->
  TextureGenerator.quilt_texture image_texture patch_size patch_number_width
    patch_number_height g = Raise ValueError
  /\ TextureGenerator.get_random_patch image_texture image_hsv patch_size
       (height image_texture) (width image_texture) h_range s_range v_range g
     = Raise ValueError.
Proof.
  intros H. split; [ | apply get_random_patch_no_room; exact H].
  unfold TextureGenerator.quilt_texture. cbv zeta. unfold bind at 1.
  match goal with
  | |- match ?z g with _ => _ end = _ => destruct (z g) as [[image_quilt g1] | e] eqn:Ez
  end.
  - unfold bind at 1. rewrite find_reference_no_room; [reflexivity | ].
    destruct (ndim image_texture <? 3); exact H.
  - unfold TextureGenerator.np_zeros in Ez.
    match type of Ez with
    | (if ?c then _ else _) g = _ => destruct c; [ | discriminate]
    end.
    unfold raise in Ez. congruence.
Qed.
End PatchDrawFacts.

Lemma patch_draws_need_room_witness :
  TextureGenerator.quilt_texture (cv := Fixtures.cv_plain)
    (au := Fixtures.augraphy_with 0) (np := Fixtures.numpy_small)
    (Fixtures.grid 20 30 None) 20 3 3 (Fixtures.rng_const 7) = Raise ValueError
  /\ TextureGenerator.get_random_patch (np := Fixtures.numpy_small)
       (Fixtures.grid 20 30 None) (Fixtures.grid 20 30 None) 20 20 30
       None None None (Fixtures.rng_const 7)
     = Raise ValueError.
Proof.
  apply (@patch_draws_need_room Fixtures.cv_plain (Fixtures.augraphy_with 0)
           Fixtures.numpy_small (Fixtures.grid 20 30 None) (Fixtures.grid 20 30 None)
           20 3 3 None None None (Fixtures.rng_const 7)).
  left. simpl. lia.
Defined.

(** ** [TextureGenerator.get_random_patch]: the fallback *)


Lemma advance_advance (g : Rng) (n m : nat) :
  advance (advance g n) m = advance g (n + m).
Proof. unfold advance. cbn [stream cursor]. f_equal. lia. Qed.


Section FallbackFacts.
Context {np : Numpy}.


End FallbackFacts.



(** ** [TextureGenerator.generate_FFT_grid] *)

Section FFTGridFacts.
Context {np : Numpy}.

Lemma uint8_range (v : Z) : 0 <= uint8 v <= 255.
Proof. unfold uint8. pose proof (Z.mod_pos_bound v 256). lia. Qed.

Lemma float_to_uint8_range (x : npfloat) :
  0 <= TextureGenerator.float_to_uint8 x <= 255.
Proof. destruct x; apply uint8_range. Qed.

(** The loop of [generate_FFT_grid] adds the images of its passes into the
    output, one [+=] each. *)
Lemma accumulate_passes (n : nat) (xsize ysize : Z) (config : WaveConfig)
  (i : Z) (acc : Image) (g : Rng) :
  for_range_from n i
    (fun _ wave_grid_output =>
       new_wave_grid <- TextureGenerator.fft_pass xsize ysize config ;;
       ret (TextureGenerator.iadd_uint8 wave_grid_output new_wave_grid))
    acc g
  = match TextureGenerator.fft_passes n xsize ysize config g with
    | Ok (passes, g') => Ok (fold_left TextureGenerator.iadd_uint8 passes acc, g')
    | Raise e => Raise e
    end.
Proof.
  revert i acc g. induction n as [ | n IH]; intros i acc g.
  - reflexivity.
  - cbn [for_range_from TextureGenerator.fft_passes]. unfold bind at 1 2 4.
    destruct (TextureGenerator.fft_pass xsize ysize config g) as [[img g1] | e];
      [ | reflexivity].
    unfold ret at 1. rewrite IH. unfold bind.
    destruct (TextureGenerator.fft_passes n xsize ysize config g1) as [[rest g2] | e];
      reflexivity.
Qed.

(** [uint8] additions in a row give the sum modulo 256. *)
Lemma iadd_uint8_fold (passes : list Image) (acc : Image) (y x c : Z) :
  pix acc y x c = pix acc y x c mod 256 ->
  pix (fold_left TextureGenerator.iadd_uint8 passes acc) y x c
  = (pix acc y x c + TextureGenerator.pixel_sum passes y x c) mod 256.
Proof.
  revert acc. induction passes as [ | p passes IH]; intros acc Hacc.
  - cbn. rewrite Z.add_0_r. exact Hacc.
  - cbn [fold_left]. rewrite IH.
    + unfold TextureGenerator.iadd_uint8, uint8. cbn [pix].
      unfold TextureGenerator.pixel_sum. cbn [map fold_right].
      rewrite Zplus_mod_idemp_l. f_equal. lia.
    + unfold TextureGenerator.iadd_uint8, uint8. cbn [pix].
      rewrite Z.mod_mod by lia. reflexivity.
Qed.

Lemma fft_passes_images (n : nat) (xsize ysize : Z) (config : WaveConfig)
  (g g' : Rng) (passes : list Image) :
  TextureGenerator.fft_passes n xsize ysize config g = Ok (passes, g') ->
  List.length passes = n
  /\ forall p y x c, In p passes -> 0 <= pix p y x c <= 255.
Proof.
  revert g g' passes. induction n as [ | n IH]; intros g g' passes H.
  - cbn in H. unfold ret in H. injection H as <- _.
    split; [reflexivity | intros p y x c []].
  - cbn [TextureGenerator.fft_passes] in H. unfold bind at 1 in H.
    destruct (TextureGenerator.fft_pass xsize ysize config g) as [[img g1] | e] eqn:Ep;
      [ | discriminate].
    unfold bind at 1 in H.
    destruct (TextureGenerator.fft_passes n xsize ysize config g1)
      as [[rest g2] | e] eqn:Er; [ | discriminate].
    unfold ret in H. injection H as <- _.
    destruct (IH _ _ _ Er) as [Hlen Hrange].
    split; [cbn; lia | ].
    intros p y x c [<- | Hin]; [ | apply Hrange; exact Hin].
    unfold TextureGenerator.fft_pass, bind in Ep.
    destruct (wave_ifft_pixel xsize ysize config g) as [[real_part g3] | e];
      [ | discriminate].
    destruct (TextureGenerator.minmax_normalize _ g3) as [[normalized g4] | e];
      [ | discriminate].
    unfold ret in Ep. injection Ep as <- _. cbn [pix].
    apply float_to_uint8_range.
Qed.

(** C9, as the code has it.  The grid that [generate_FFT_grid] returns is,
    at every position, the sum of the 8-bit images of its outer passes
    reduced modulo 256: the output is a [uint8] array and each [+=] wraps.
    When a pass raises, so does [generate_FFT_grid]. *)
Theorem generate_FFT_grid_wraps (xsize ysize : Z) (config : WaveConfig) (g : Rng) :
  0 <= xsize -> 0 <= ysize ->
  fst (f_iterations config) <= snd (f_iterations config) ->
  let n := Z.to_nat (fst (f_iterations config)
                     + draw g 0 mod (snd (f_iterations config)
                                     - fst (f_iterations config) + 1)) in
  match TextureGenerator.fft_passes n xsize ysize config (advance g 1) with
  | Ok (passes, g') =>
      List.length passes = n
      /\ (forall p y x c, In p passes -> 0 <= pix p y x c <= 255)
      /\ exists grid,
          TextureGenerator.generate_FFT_grid xsize ysize config g = Ok (grid, g')
          /\ forall y x c,
              pix grid y x c = TextureGenerator.pixel_sum passes y x c mod 256
  | Raise e => TextureGenerator.generate_FFT_grid xsize ysize config g = Raise e
  end.
Proof.
  intros Hx Hy Hf n.
  assert (Hgen : TextureGenerator.generate_FFT_grid xsize ysize config g
                 = match TextureGenerator.fft_passes n xsize ysize config (advance g 1) with
                   | Ok (passes, g') =>
                       Ok (fold_left TextureGenerator.iadd_uint8 passes
                             (mkImage ysize xsize None (fun _ _ _ => 0)), g')
                   | Raise e => Raise e
                   end).
  { unfold TextureGenerator.generate_FFT_grid, TextureGenerator.np_zeros.
    destruct (Z.ltb_spec ysize 0); [lia | ].
    destruct (Z.ltb_spec xsize 0); [lia | ].
    cbn [orb]. unfold bind at 1. unfold ret at 1. unfold bind at 1.
    destruct (random_randint_run (fst (f_iterations config))
                (snd (f_iterations config)) g Hf) as [Hrun _].
    rewrite Hrun. unfold for_range. apply accumulate_passes. }
  destruct (TextureGenerator.fft_passes n xsize ysize config (advance g 1))
    as [[passes g'] | e] eqn:Ep; [ | exact Hgen].
  destruct (fft_passes_images _ _ _ _ _ _ _ Ep) as [Hlen Hrange].
  split; [exact Hlen | ]. split; [exact Hrange | ].
  eexists. split; [exact Hgen | ].
  intros y x c. rewrite iadd_uint8_fold; reflexivity.
Qed.
End FFTGridFacts.

Lemma generate_FFT_grid_wraps_witness :
  match TextureGenerator.fft_passes (np := Fixtures.numpy_small)
          (Z.to_nat (2 + draw (Fixtures.rng_const 0) 0 mod (2 - 2 + 1)))
          2 1 (Fixtures.config_of (2, 2)) (advance (Fixtures.rng_const 0) 1) with
  | Ok (passes, g') =>
      List.length passes
      = Z.to_nat (2 + draw (Fixtures.rng_const 0) 0 mod (2 - 2 + 1))
      /\ (forall p y x c, In p passes -> 0 <= pix p y x c <= 255)
      /\ exists grid,
          TextureGenerator.generate_FFT_grid (np := Fixtures.numpy_small)
            2 1 (Fixtures.config_of (2, 2)) (Fixtures.rng_const 0) = Ok (grid, g')
          /\ forall y x c,
              pix grid y x c = TextureGenerator.pixel_sum passes y x c mod 256
  | Raise e =>
      TextureGenerator.generate_FFT_grid (np := Fixtures.numpy_small)
        2 1 (Fixtures.config_of (2, 2)) (Fixtures.rng_const 0) = Raise e
  end.
Proof.
  apply (@generate_FFT_grid_wraps Fixtures.numpy_small 2 1
           (Fixtures.config_of (2, 2)) (Fixtures.rng_const 0)).
  - lia.
  - lia.
  - simpl. lia.
Defined.

(** C9 as stated fails: two passes over a grid of one row and two columns
    each give the image [0, 255]; their sum at the second column is 510, and
    the grid returned holds 254 there. *)
Lemma fft_grid_sum_wraps_at_256 :
  let config := Fixtures.config_of (2, 2) in
  let g := Fixtures.rng_const 0 in
  exists grid passes g',
    TextureGenerator.generate_FFT_grid (np := Fixtures.numpy_small) 2 1 config g
    = Ok (grid, g')
    /\ TextureGenerator.fft_passes (np := Fixtures.numpy_small) 2 2 1 config
         (advance g 1) = Ok (passes, g')
    /\ map (fun p => pix p 0 1 0) passes = [255; 255]
    /\ TextureGenerator.pixel_sum passes 0 1 0 = 510
    /\ pix grid 0 1 0 = 254.
Proof.
  cbv zeta. eexists _, _, _.
  split; [vm_compute; reflexivity | ].
  split; [vm_compute; reflexivity | ].
  repeat split; vm_compute; reflexivity.
Qed.

(** ** [TextureGenerator.remove_frequency] *)

Lemma in_axis (n i : Z) : In i (TextureGenerator.axis n) <-> 0 <= i < n.
Proof.
  unfold TextureGenerator.axis. rewrite in_map_iff. split.
  - intros (k & <- & Hk). apply in_seq in Hk. lia.
  - intros H. exists (Z.to_nat i). split; [lia | ]. apply in_seq. lia.
Qed.

Lemma in_values (a : FloatImage) (q : Q) :
  In q (TextureGenerator.values a) <->
  exists y x, 0 <= y < fheight a /\ 0 <= x < fwidth a /\ q = fpix a y x.
Proof.
  unfold TextureGenerator.values. rewrite in_flat_map. split.
  - intros (y & Hy & Hq). apply in_map_iff in Hq. destruct Hq as (x & <- & Hx).
    exists y, x. rewrite <- !in_axis. auto.
  - intros (y & x & Hy & Hx & ->). exists y. split; [apply in_axis; exact Hy | ].
    apply in_map_iff. exists x. split; [reflexivity | apply in_axis; exact Hx].
Qed.

Lemma fold_Qmin_uniform (l : list Q) (a v : Q) :
  (a == v)%Q -> (forall q, In q l -> (q == v)%Q) -> (fold_left Qmin l a == v)%Q.
Proof.
  revert a. induction l as [ | q l IH]; intros a Ha Hl; [exact Ha | ].
  cbn [fold_left]. apply IH.
  - destruct (Q.min_spec a q) as [[_ E] | [_ E]]; rewrite E;
      [exact Ha | apply Hl; left; reflexivity].
  - intros q' Hq'. apply Hl. right. exact Hq'.
Qed.

Lemma fold_Qmax_uniform (l : list Q) (a v : Q) :
  (a == v)%Q -> (forall q, In q l -> (q == v)%Q) -> (fold_left Qmax l a == v)%Q.
Proof.
  revert a. induction l as [ | q l IH]; intros a Ha Hl; [exact Ha | ].
  cbn [fold_left]. apply IH.
  - destruct (Q.max_spec a q) as [[_ E] | [_ E]]; rewrite E;
      [apply Hl; left; reflexivity | exact Ha].
  - intros q' Hq'. apply Hl. right. exact Hq'.
Qed.

(** On a non-empty array whose values are all equal, the min-max
    normalization divides zero by zero at every position. *)
Lemma minmax_normalize_uniform (a : FloatImage) (v : Q) (g : Rng) :
  0 < fheight a -> 0 < fwidth a ->
  (forall y x, 0 <= y < fheight a -> 0 <= x < fwidth a -> (fpix a y x == v)%Q) ->
  exists normalized,
    TextureGenerator.minmax_normalize a g = Ok (normalized, g)
    /\ forall y x, 0 <= y < fheight a -> 0 <= x < fwidth a -> normalized y x = NaN.
Proof.
  intros Hh Hw Hu.
  assert (Hall : forall q, In q (TextureGenerator.values a) -> (q == v)%Q).
  { intros q Hq. apply in_values in Hq. destruct Hq as (y & x & Hy & Hx & ->).
    apply Hu; assumption. }
  assert (Hin : In (fpix a 0 0) (TextureGenerator.values a)).
  { apply in_values. exists 0, 0. repeat split; lia. }
  unfold TextureGenerator.minmax_normalize, TextureGenerator.np_min,
    TextureGenerator.np_max, bind.
  destruct (TextureGenerator.values a) as [ | q0 l] eqn:Ev; [destruct Hin | ].
  assert (Hlo : (fold_left Qmin l q0 == v)%Q).
  { apply fold_Qmin_uniform; [apply Hall; left; reflexivity | ].
    intros q Hq. apply Hall. right. exact Hq. }
  assert (Hhi : (fold_left Qmax l q0 == v)%Q).
  { apply fold_Qmax_uniform; [apply Hall; left; reflexivity | ].
    intros q Hq. apply Hall. right. exact Hq. }
  unfold ret. eexists. split; [reflexivity | ].
  intros y x Hy Hx. cbv beta. unfold np_divide.
  assert (E1 : Qeq_bool (fold_left Qmax l q0 - fold_left Qmin l q0) 0 = true).
  { apply Qeq_bool_iff. rewrite Hlo, Hhi. ring. }
  assert (E2 : Qeq_bool (fpix a y x - fold_left Qmin l q0) 0 = true).
  { apply Qeq_bool_iff. rewrite Hlo, (Hu y x Hy Hx). ring. }
  rewrite E1, E2. reflexivity.
Qed.

Section RemoveFrequencyFacts.
Context {np : Numpy}.

Lemma random_randint_same (a : Z) (g : Rng) :
  random_randint a a g = Ok (a, advance g 1).
Proof.
  destruct (random_randint_run a a g) as [Hrun _]; [lia | ].
  rewrite Hrun. replace (a - a + 1) with 1 by lia.
  rewrite Z.mod_1_r, Z.add_0_r. reflexivity.
Qed.

(** C8, as the code has it.  [remove_frequency] has no guard: when the
    magnitude of the masked inverse transform is the same at every
    position, the normalization divides zero by zero at each of them, and
    every sample returned is 255 minus the [uint8] cast of that NaN. *)
Theorem remove_frequency_uniform (wave_grid_output : Image) (frequency : Z)
  (v : Q) (g : Rng) :
  0 < height wave_grid_output -> 0 < width wave_grid_output ->
  (forall y x,
      0 <= y < height wave_grid_output -> 0 <= x < width wave_grid_output ->
      (fpix (TextureGenerator.masked_magnitude wave_grid_output frequency) y x == v)%Q) ->
  exists normalized result,
    TextureGenerator.minmax_normalize
      (TextureGenerator.masked_magnitude wave_grid_output frequency) (advance g 1)
    = Ok (normalized, advance g 1)
    /\ TextureGenerator.remove_frequency wave_grid_output frequency g
       = Ok (result, advance g 1)
    /\ forall y x c,
        0 <= y < height wave_grid_output -> 0 <= x < width wave_grid_output ->
        normalized y x = NaN
        /\ pix result y x c = uint8 (255 - uint8 nan_to_uint8).
Proof.
  intros Hh Hw Hu.
  destruct (minmax_normalize_uniform
              (TextureGenerator.masked_magnitude wave_grid_output frequency)
              v (advance g 1) Hh Hw Hu) as (normalized & Hnorm & Hnan).
  eexists normalized, _. split; [exact Hnorm | ]. split.
  - unfold TextureGenerator.remove_frequency. cbv zeta. unfold bind at 1.
    rewrite random_randint_same. unfold bind at 1. rewrite Hnorm. reflexivity.
  - intros y x c Hy Hx. split; [apply Hnan; assumption | ].
    cbn [pix]. rewrite (Hnan y x Hy Hx). reflexivity.
Qed.
End RemoveFrequencyFacts.

Lemma remove_frequency_uniform_witness :
  exists normalized result,
    TextureGenerator.minmax_normalize
      (TextureGenerator.masked_magnitude (np := Fixtures.numpy_small)
         (Fixtures.pair_image 4 0) 0) (advance (Fixtures.rng_const 0) 1)
    = Ok (normalized, advance (Fixtures.rng_const 0) 1)
    /\ TextureGenerator.remove_frequency (np := Fixtures.numpy_small)
         (Fixtures.pair_image 4 0) 0 (Fixtures.rng_const 0)
       = Ok (result, advance (Fixtures.rng_const 0) 1)
    /\ forall y x c,
        0 <= y < 1 -> 0 <= x < 2 ->
        normalized y x = NaN
        /\ pix result y x c = uint8 (255 - uint8 0).
Proof.
  apply (@remove_frequency_uniform Fixtures.numpy_small (Fixtures.pair_image 4 0)
           0 2%Q (Fixtures.rng_const 0)).
  - reflexivity.
  - reflexivity.
  - intros y x Hy Hx. simpl in Hy, Hx.
    assert (Ey : y = 0) by lia. assert (Ex : x = 0 \/ x = 1) by lia.
    subst y. destruct Ex; subst x; vm_compute; reflexivity.
Defined.

(** C8 as stated fails.  For the image [[4, 0]] and radius 0 the magnitude is
    2 at both positions; the normalization yields NaN, not the magnitude, and
    the sample returned is 255 where leaving the magnitude unscaled gives 1.
    The constant image [[5, 5]] has magnitude 0 throughout and is divided the
    same way. *)
Lemma remove_frequency_divides_zero_by_zero :
  let g := Fixtures.rng_const 0 in
  let magnitude :=
    TextureGenerator.masked_magnitude (np := Fixtures.numpy_small)
      (Fixtures.pair_image 4 0) 0 in
  let flat_magnitude :=
    TextureGenerator.masked_magnitude (np := Fixtures.numpy_small)
      (Fixtures.pair_image 5 5) 0 in
  exists normalized normalized' result g',
    map Qred (TextureGenerator.values magnitude) = [2%Q; 2%Q]
    /\ map Qred (TextureGenerator.values flat_magnitude) = [0%Q; 0%Q]
    /\ TextureGenerator.minmax_normalize magnitude (advance g 1)
       = Ok (normalized, advance g 1)
    /\ TextureGenerator.minmax_normalize flat_magnitude (advance g 1)
       = Ok (normalized', advance g 1)
    /\ normalized 0 0 = NaN /\ normalized' 0 0 = NaN
    /\ TextureGenerator.remove_frequency (np := Fixtures.numpy_small)
         (Fixtures.pair_image 4 0) 0 g = Ok (result, g')
    /\ pix result 0 0 0 = 255
    /\ uint8 (255 - TextureGenerator.float_to_uint8 (np := Fixtures.numpy_small)
                      (TextureGenerator.np_scale (Fin 2) 255)) = 1.
Proof.
  cbv zeta. eexists _, _, _, _.
  split; [vm_compute; reflexivity | ].
  split; [vm_compute; reflexivity | ].
  split; [vm_compute; reflexivity | ].
  split; [vm_compute; reflexivity | ].
  repeat split; vm_compute; reflexivity.
Qed.

(** ** [TextureGenerator.quilt_texture]: the size of the quilt *)

(** A loop whose body keeps an invariant and never raises keeps the
    invariant and does not raise. *)
Lemma for_range_from_inv {A : Type} (P : A -> Prop) (body : Z -> A -> M A)
  (n : nat) (i : Z) (acc : A) (g : Rng) :
  (forall j a g0, i <= j < i + Z.of_nat n -> P a ->
     exists a' g1, body j a g0 = Ok (a', g1) /\ P a') ->
  P acc ->
  exists acc' g', for_range_from n i body acc g = Ok (acc', g') /\ P acc'.
Proof.
  revert i acc g. induction n as [ | n IH]; intros i acc g Hbody Hacc.
  - exists acc, g. split; [reflexivity | exact Hacc].
  - cbn [for_range_from]. unfold bind.
    destruct (Hbody i acc g ltac:(lia) Hacc) as (a' & g1 & Hrun & Ha').
    rewrite Hrun. apply IH; [ | exact Ha'].
    intros j a g0 Hj Ha. apply Hbody; [lia | exact Ha].
Qed.

Lemma for_range_inv {A : Type} (P : A -> Prop) (body : Z -> A -> M A)
  (n : Z) (acc : A) (g : Rng) :
  (forall j a g0, 0 <= j < n -> P a ->
     exists a' g1, body j a g0 = Ok (a', g1) /\ P a') ->
  P acc ->
  exists acc' g', for_range n body acc g = Ok (acc', g') /\ P acc'.
Proof.
  intros Hbody Hacc. unfold for_range. apply for_range_from_inv; [ | exact Hacc].
  intros j a g0 Hj Ha. apply Hbody; [lia | exact Ha].
Qed.

Section QuiltFacts.
Context {cv : OpenCV} {au : Augraphy} {np : Numpy}.

Lemma patch_at_shape (image : Image) (patch_size y x : Z) :
  0 <= patch_size -> 0 <= y -> y + patch_size <= height image ->
  0 <= x -> x + patch_size <= width image ->
  height (TextureGenerator.patch_at image patch_size y x) = patch_size
  /\ width (TextureGenerator.patch_at image patch_size y x) = patch_size.
Proof.
  intros Hp Hy Hy' Hx Hx'. unfold TextureGenerator.patch_at, slice2.
  cbn [height width]. rewrite !slice_range_inside by lia. split; reflexivity.
Qed.

(** A patch search over a texture with room for the patch returns, and
    returns a patch of [patch_size] by [patch_size]. *)
Lemma search_patch_shape (tries : nat) (image_texture image_hsv : Image)
  (patch_size : Z) (h_range s_range v_range : option (Q * Q))
  (image_patch : Image) (g : Rng) :
  0 <= patch_size ->
  patch_size < height image_texture -> patch_size < width image_texture ->
  height image_patch = patch_size -> width image_patch = patch_size ->
  exists patch g',
    TextureGenerator.search_patch tries image_texture image_hsv patch_size
      (height image_texture) (width image_texture) h_range s_range v_range
      image_patch g = Ok (patch, g')
    /\ height patch = patch_size /\ width patch = patch_size.
Proof.
  intros Hp Hy Hx Hph Hpw. revert g. induction tries as [ | tries IH]; intros g.
  - exists image_patch, g. split; [reflexivity | split; assumption].
  - cbn [TextureGenerator.search_patch]. unfold bind at 1.
    destruct (np_random_randint_run (height image_texture - patch_size) g)
      as [Hry Hyb]; [lia | ].
    rewrite Hry. unfold bind at 1.
    destruct (np_random_randint_run (width image_texture - patch_size) (advance g 1))
      as [Hrx Hxb]; [lia | ].
    rewrite Hrx.
    destruct (TextureGenerator.accepted _ _ _ _ _ _ _); [ | apply IH].
    destruct (TextureGenerator.patch_mean _ _ _ _ _) as [v_mean | ];
      [ | eexists _, _; split; [reflexivity | split; assumption]].
    destruct v_range as [v_range | ];
      [ | eexists _, _; split; [reflexivity | split; assumption]].
    eexists _, _. split; [reflexivity | ].
    unfold TextureGenerator.gamma_correct. cbn [height width].
    apply patch_at_shape; lia.
Qed.

Lemma get_random_patch_shape (image_texture image_hsv : Image)
  (patch_size : Z) (h_range s_range v_range : option (Q * Q)) (g : Rng) :
  0 <= patch_size ->
  patch_size < height image_texture -> patch_size < width image_texture ->
  exists patch g',
    TextureGenerator.get_random_patch image_texture image_hsv patch_size
      (height image_texture) (width image_texture) h_range s_range v_range g
    = Ok (patch, g')
    /\ height patch = patch_size /\ width patch = patch_size.
Proof.
  intros Hp Hy Hx. unfold TextureGenerator.get_random_patch. unfold bind at 1.
  destruct (np_random_randint_run (height image_texture - patch_size) g)
    as [Hry Hyb]; [lia | ].
  rewrite Hry. unfold bind at 1.
  destruct (np_random_randint_run (width image_texture - patch_size) (advance g 1))
    as [Hrx Hxb]; [lia | ].
  rewrite Hrx. apply search_patch_shape; try assumption;
    apply patch_at_shape; lia.
Qed.

(** Writing a patch of the right size into a region that lies inside the
    quilt succeeds and keeps the shape of the quilt. *)
Lemma assign_patch_shape (image_quilt image_patch : Image) (patch_size y x : Z)
  (g : Rng) :
  0 <= patch_size ->
  0 <= y -> y + patch_size <= height image_quilt ->
  0 <= x -> x + patch_size <= width image_quilt ->
  height image_patch = patch_size -> width image_patch = patch_size ->
  exists quilt,
    TextureGenerator.assign_patch image_quilt patch_size y x image_patch g
    = Ok (quilt, g)
    /\ height quilt = height image_quilt /\ width quilt = width image_quilt.
Proof.
  intros Hp Hy Hy' Hx Hx' Hph Hpw. unfold TextureGenerator.assign_patch. cbv zeta.
  rewrite !slice_range_inside by lia. cbn [fst snd].
  rewrite Hph, Hpw, !Z.eqb_refl. cbn [orb andb].
  eexists. split; [reflexivity | split; reflexivity].
Qed.

Lemma find_reference_run (tries : nat) (image_hsv : Image)
  (patch_size ysize xsize y x : Z) (g : Rng) :
  patch_size < ysize -> patch_size < xsize ->
  exists yx g',
    TextureGenerator.find_reference tries image_hsv patch_size ysize xsize y x g
    = Ok (yx, g').
Proof.
  intros Hy Hx. revert y x g. induction tries as [ | tries IH]; intros y x g.
  - eexists _, _. reflexivity.
  - cbn [TextureGenerator.find_reference]. unfold bind at 1.
    destruct (np_random_randint_run (ysize - patch_size) g) as [Hry _]; [lia | ].
    rewrite Hry. unfold bind at 1.
    destruct (np_random_randint_run (xsize - patch_size) (advance g 1))
      as [Hrx _]; [lia | ].
    rewrite Hrx.
    destruct (TextureGenerator.not_blank _); [ | apply IH].
    eexists _, _. reflexivity.
Qed.

(** The quilt of a texture with room for the patch: [quilt_texture]
    returns, its result has the size of the canvas, and its samples are
    8-bit. *)
Lemma quilt_texture_runs (image_texture : Image)
  (patch_size patch_number_width patch_number_height : Z) (g : Rng) :
  patch_size < height image_texture -> patch_size < width image_texture ->
  0 < patch_size -> 0 < patch_number_width -> 0 < patch_number_height ->
  exists image_quilt g',
    TextureGenerator.quilt_texture image_texture patch_size patch_number_width
      patch_number_height g = Ok (image_quilt, g')
    /\ height image_quilt
       = patch_number_height * patch_size
         - (patch_number_height - 1) * (patch_size / 5)
    /\ width image_quilt
       = patch_number_width * patch_size
         - (patch_number_width - 1) * (patch_size / 5)
    /\ forall y x c, 0 <= pix image_quilt y x c <= 255.
Proof.
  intros Hy Hx Hp Hnw Hnh. unfold TextureGenerator.quilt_texture. cbv zeta.
  set (overlap := patch_size / 5).
  assert (Hov : 0 <= overlap <= patch_size).
  { subst overlap. split; [apply Z.div_pos; lia | ].
    apply Z.div_le_upper_bound; lia. }
  set (ysize := patch_number_height * patch_size
                - (patch_number_height - 1) * overlap).
  set (xsize := patch_number_width * patch_size
                - (patch_number_width - 1) * overlap).
  set (source := if ndim image_texture <? 3
                 then cvt_GRAY2BGR image_texture else image_texture).
  assert (Hsrc : height source = height image_texture
                 /\ width source = width image_texture).
  { subst source. destruct (ndim image_texture <? 3); split; reflexivity. }
  destruct Hsrc as [Hsh Hsw].
  assert (Hys : 0 <= ysize) by (subst ysize; nia).
  assert (Hxs : 0 <= xsize) by (subst xsize; nia).
  unfold bind at 1. unfold TextureGenerator.np_zeros.
  destruct (Z.ltb_spec ysize 0); [lia | ].
  destruct (Z.ltb_spec xsize 0); [lia | ].
  cbn [orb]. unfold ret at 1. unfold bind at 1.
  destruct (find_reference_run 10 (cvt_BGR2HSV source) patch_size
              (height source) (width source) 0 0 g) as (yx & g1 & Href);
    [lia | lia | ].
  rewrite Href. unfold bind at 1.
  match goal with
  | |- context [for_range patch_number_height ?body ?acc g1] =>
      destruct (for_range_inv
                  (fun q => height q = ysize /\ width q = xsize)
                  body patch_number_height acc g1)
        as (quilt & g2 & Hloop & Hqh & Hqw)
  end.
  - intros i q g0 Hi [Hqh Hqw].
    apply for_range_inv; [ | split; assumption].
    intros j q' g0' Hj [Hqh' Hqw']. unfold bind.
    destruct (get_random_patch_shape source (cvt_BGR2HSV source) patch_size
                (TextureGenerator.range_around
                   (TextureGenerator.patch_mean (cvt_BGR2HSV source) patch_size
                      (fst yx) (snd yx) 0) 10)
                (TextureGenerator.range_around
                   (TextureGenerator.patch_mean (cvt_BGR2HSV source) patch_size
                      (fst yx) (snd yx) 1) 10)
                (TextureGenerator.range_around
                   (TextureGenerator.patch_mean (cvt_BGR2HSV source) patch_size
                      (fst yx) (snd yx) 2) 10)
                g0') as (patch & g3 & Hpatch & Hph & Hpw); [lia | lia | lia | ].
    rewrite Hpatch.
    destruct (assign_patch_shape q' patch patch_size
                (i * (patch_size - overlap)) (j * (patch_size - overlap)) g3)
      as (q'' & Hassign & Hh'' & Hw''); try assumption; try lia.
    + nia.
    + rewrite Hqh'. subst ysize. nia.
    + nia.
    + rewrite Hqw'. subst xsize. nia.
    + exists q'', g3. split; [exact Hassign | ]. split; congruence.
  - split; reflexivity.
  - rewrite Hloop. unfold ret. eexists _, _. split; [reflexivity | ].
    destruct (ndim image_texture <? 3); cbn [height width pix];
      (split; [exact Hqh | split; [exact Hqw | intros; apply uint8_range]]).
Qed.

(** C6.  For a source texture higher and wider than [patch_size] (and a
    positive patch size and positive patch counts), [quilt_texture] returns
    an image of height [nH * patch_size - (nH - 1) * (patch_size / 5)] and
    width [nW * patch_size - (nW - 1) * (patch_size / 5)], the division
    being the integer division; in particular a uniform gray texture of 100
    by 100 quilted with [patch_size = 20] and 3 by 3 patches gives an image
    of 52 by 52 whose samples all lie in [0, 255]. *)
Theorem quilt_texture_size :
  (forall (image_texture : Image)
          (patch_size patch_number_width patch_number_height : Z) (g : Rng),
      patch_size < height image_texture -> patch_size < width image_texture ->
      0 < patch_size -> 0 < patch_number_width -> 0 < patch_number_height ->
      exists image_quilt g',
        TextureGenerator.quilt_texture image_texture patch_size
          patch_number_width patch_number_height g = Ok (image_quilt, g')
        /\ height image_quilt
           = patch_number_height * patch_size
             - (patch_number_height - 1) * (patch_size / 5)
        /\ width image_quilt
           = patch_number_width * patch_size
             - (patch_number_width - 1) * (patch_size / 5)
        /\ forall y x c, 0 <= pix image_quilt y x c <= 255)
  /\ (forall (gray : Z) (g : Rng),
        exists image_quilt g',
          TextureGenerator.quilt_texture (Fixtures.flat 100 100 None gray)
            20 3 3 g = Ok (image_quilt, g')
          /\ height image_quilt = 52 /\ width image_quilt = 52
          /\ forall y x c, 0 <= pix image_quilt y x c <= 255).
Proof.
  split; [exact quilt_texture_runs | ].
  intros gray g.
  apply (quilt_texture_runs (Fixtures.flat 100 100 None gray) 20 3 3 g);
    reflexivity.
Qed.
End QuiltFacts.

Lemma quilt_texture_size_witness :
  (20 < 30 /\ 20 < 40) /\
  exists image_quilt g',
    TextureGenerator.quilt_texture (cv := Fixtures.cv_plain)
      (au := Fixtures.augraphy_with 0) (np := Fixtures.numpy_small)
      (Fixtures.grid 30 40 (Some 3)) 20 2 3 (Fixtures.rng_const 5)
    = Ok (image_quilt, g')
    /\ height image_quilt = 3 * 20 - (3 - 1) * (20 / 5)
    /\ width image_quilt = 2 * 20 - (2 - 1) * (20 / 5)
    /\ forall y x c, 0 <= pix image_quilt y x c <= 255.
Proof.
  split; [lia | ].
  apply (proj1 (@quilt_texture_size Fixtures.cv_plain (Fixtures.augraphy_with 0)
                  Fixtures.numpy_small)
           (Fixtures.grid 30 40 (Some 3)) 20 2 3 (Fixtures.rng_const 5));
    reflexivity.
Defined.

(** * Further properties of the code *)

(** ** [PaperFactory.retrieve_texture] and [resize]: empty inputs *)

Section EmptyInputFacts.
Context {cv : OpenCV}.

(** With an empty library the index draw [random.randint(0, -1)] has an
    empty range: [retrieve_texture] raises [ValueError] before it touches the
    library. *)
Theorem retrieve_texture_empty_library (self : PaperFactory.t) (image : Image)
  (g : Rng) :
  PaperFactory.paper_textures self = [] ->
  PaperFactory.retrieve_texture self image g = Raise ValueError.
Proof.
  intros H. unfold PaperFactory.retrieve_texture, PaperFactory.choose_texture.
  rewrite H. reflexivity.
Qed.

(** A texture with no rows or no columns makes [resize] divide by zero,
    whatever the (non-negative) target shape and the draws. *)
Theorem resize_empty_texture (texture : Image) (shape_h shape_w : Z) (g : Rng) :
  0 <= height texture -> 0 <= width texture ->
  height texture = 0 \/ width texture = 0 ->
  0 <= shape_h -> 0 <= shape_w ->
  PaperFactory.resize texture shape_h shape_w g = Raise ZeroDivisionError.
Proof.
  intros Hh Hw Hempty Hsh Hsw.
  assert (Hdiv : forall (k : Float64.t -> Float64.t -> M Image) g0,
             (h_ratio <- Float64.truediv shape_h (height texture) ;;
              w_ratio <- Float64.truediv shape_w (width texture) ;;
              k h_ratio w_ratio) g0 = Raise ZeroDivisionError).
  { intros k g0. unfold bind, Float64.truediv.
    destruct (Z.eqb_spec (height texture) 0) as [E | E]; [reflexivity | ].
    unfold ret. destruct (Z.eqb_spec (width texture) 0) as [E' | E'];
      [reflexivity | lia]. }
  unfold PaperFactory.resize. unfold bind at 1.
  unfold PaperFactory.zoom_out. cbv zeta.
  destruct ((height texture >? shape_h) || (width texture >? shape_w)).
  - rewrite (Hdiv (fun h_ratio w_ratio =>
       scale <- (if Float64.ltb w_ratio h_ratio
                 then Float64.uniform h_ratio (Float64.literal 12 10)
                 else Float64.uniform w_ratio (Float64.literal 12 10)) ;;
       zoom_w <- Float64.to_int
                   (Float64.mul (Float64.of_int (width texture)) scale) ;;
       zoom_h <- Float64.to_int
                   (Float64.mul (Float64.of_int (height texture)) scale) ;;
       cv2_resize texture zoom_w zoom_h INTER_LINEAR)).
    reflexivity.
  - unfold ret. unfold PaperFactory.zoom_in. cbv zeta.
    assert (E : (height texture <=? shape_h) || (width texture <=? shape_w) = true).
    { apply orb_true_iff. destruct Hempty as [E | E]; [left | right];
        apply Z.leb_le; lia. }
    rewrite E.
    apply (Hdiv (fun h_ratio w_ratio =>
       scale <- (if Float64.ltb w_ratio h_ratio
                 then Float64.uniform h_ratio
                        (Float64.add h_ratio (Float64.literal 15 10))
                 else Float64.uniform w_ratio
                        (Float64.add w_ratio (Float64.literal 15 10))) ;;
       zoom_w <- Float64.to_int
                   (Float64.mul (Float64.of_int (width texture)) scale) ;;
       zoom_h <- Float64.to_int
                   (Float64.mul (Float64.of_int (height texture)) scale) ;;
       cv2_resize texture zoom_w zoom_h INTER_LINEAR)).
Qed.
End EmptyInputFacts.

Lemma retrieve_texture_empty_library_witness :
  PaperFactory.retrieve_texture (cv := Fixtures.cv_plain)
    (Fixtures.factory_of [] 0 0) (Fixtures.flat 3 3 (Some 3) 0)
    (Fixtures.rng_const 5) = Raise ValueError.
Proof.
  apply (@retrieve_texture_empty_library Fixtures.cv_plain). reflexivity.
Defined.

Lemma resize_empty_texture_witness :
  PaperFactory.resize (cv := Fixtures.cv_plain) (Fixtures.flat 0 4 (Some 3) 0)
    3 3 (Fixtures.rng_const 5) = Raise ZeroDivisionError.
Proof.
  apply (@resize_empty_texture Fixtures.cv_plain); simpl; lia.
Defined.

(** ** [PaperFactory.check_paper_edges]: the crop is a window of the input *)

Lemma slice_range_bounds (n : Z) (start stop : option Z) :
  0 <= n ->
  0 <= fst (slice_range n start stop)
  /\ 0 <= snd (slice_range n start stop)
  /\ fst (slice_range n start stop) + snd (slice_range n start stop) <= n.
Proof.
  intros Hn. unfold slice_range, slice_index. cbn [fst snd].
  destruct start as [s | ], stop as [e | ];
    repeat match goal with
           | |- context [if ?a <? ?b then _ else _] => destruct (Z.ltb_spec a b)
           end; lia.
Qed.

Section WindowFacts.
Context {cv : OpenCV}.

(** Whatever the contours and the corners of their rectangles (negative
    coordinates and coordinates past the border included), the result of
    [check_paper_edges] is a window of its input: it has the input's channel
    layout, it lies inside the input, and its samples are the input's. *)
Theorem check_paper_edges_window (texture : Image) :
  0 <= height texture -> 0 <= width texture ->
  exists top left,
    0 <= top /\ 0 <= height (PaperFactory.check_paper_edges texture)
    /\ top + height (PaperFactory.check_paper_edges texture) <= height texture
    /\ 0 <= left /\ 0 <= width (PaperFactory.check_paper_edges texture)
    /\ left + width (PaperFactory.check_paper_edges texture) <= width texture
    /\ channels (PaperFactory.check_paper_edges texture) = channels texture
    /\ forall y x c,
        pix (PaperFactory.check_paper_edges texture) y x c
        = pix texture (top + y) (left + x) c.
Proof.
  intros Hh Hw.
  assert (Hsame : exists top left,
             0 <= top /\ 0 <= height texture
             /\ top + height texture <= height texture
             /\ 0 <= left /\ 0 <= width texture
             /\ left + width texture <= width texture
             /\ channels texture = channels texture
             /\ forall y x c, pix texture y x c = pix texture (top + y) (left + x) c).
  { exists 0, 0. repeat split; try lia. }
  unfold PaperFactory.check_paper_edges. cbv zeta.
  destruct (findContours (PaperFactory.edge_mask texture)) as [ | first rest];
    [exact Hsame | ].
  destruct (PaperFactory.walk_contours _ _ _ _ _ _ _) as [ | max_contour];
    [exact Hsame | ].
  unfold slice2. cbn [height width channels pix].
  match goal with
  | |- context [slice_range (height texture) ?a ?b] =>
      pose proof (slice_range_bounds (height texture) a b Hh) as (Hy1 & Hy2 & Hy3);
      set (ry := slice_range (height texture) a b) in *
  end.
  match goal with
  | |- context [slice_range (width texture) ?a ?b] =>
      pose proof (slice_range_bounds (width texture) a b Hw) as (Hx1 & Hx2 & Hx3);
      set (rx := slice_range (width texture) a b) in *
  end.
  exists (fst ry), (fst rx). repeat split; try assumption; try lia.
Qed.
End WindowFacts.

Lemma check_paper_edges_window_witness :
  exists top left,
    0 <= top
    /\ 0 <= height (PaperFactory.check_paper_edges
                      (cv := Fixtures.cv_with
                               (fun _ => [(90%Q, mkBox (-2, 1) (9, 1) (9, 14) (-2, 14))]))
                      (Fixtures.grid 10 10 None))
    /\ top + height (PaperFactory.check_paper_edges
                       (cv := Fixtures.cv_with
                                (fun _ => [(90%Q, mkBox (-2, 1) (9, 1) (9, 14) (-2, 14))]))
                       (Fixtures.grid 10 10 None)) <= 10
    /\ 0 <= left
    /\ 0 <= width (PaperFactory.check_paper_edges
                     (cv := Fixtures.cv_with
                              (fun _ => [(90%Q, mkBox (-2, 1) (9, 1) (9, 14) (-2, 14))]))
                     (Fixtures.grid 10 10 None))
    /\ left + width (PaperFactory.check_paper_edges
                       (cv := Fixtures.cv_with
                                (fun _ => [(90%Q, mkBox (-2, 1) (9, 1) (9, 14) (-2, 14))]))
                       (Fixtures.grid 10 10 None)) <= 10
    /\ channels (PaperFactory.check_paper_edges
                   (cv := Fixtures.cv_with
                            (fun _ => [(90%Q, mkBox (-2, 1) (9, 1) (9, 14) (-2, 14))]))
                   (Fixtures.grid 10 10 None)) = None
    /\ forall y x c,
        pix (PaperFactory.check_paper_edges
               (cv := Fixtures.cv_with
                        (fun _ => [(90%Q, mkBox (-2, 1) (9, 1) (9, 14) (-2, 14))]))
               (Fixtures.grid 10 10 None)) y x c
        = pix (Fixtures.grid 10 10 None) (top + y) (left + x) c.
Proof.
  apply (@check_paper_edges_window
           (Fixtures.cv_with (fun _ => [(90%Q, mkBox (-2, 1) (9, 1) (9, 14) (-2, 14))]))
           (Fixtures.grid 10 10 None)); simpl; lia.
Defined.

(** ** [PaperFactory.check_paper_edges]: which inputs are cropped *)

Section ArgsortFacts.
Variable areas : list Q.

Local Notation "'area_le'" :=
  (fun i j : nat => (nth i areas 0 <= nth j areas 0)%Q) (only parsing).













End ArgsortFacts.

Section CropDecisionFacts.
Context {cv : OpenCV}.






End CropDecisionFacts.




(** ** [PaperFactory.__call__]: the auxiliary outputs *)

Section CallFacts.
Context {cv : OpenCV} {au : Augraphy}.

(** Whenever [__call__] returns, the auxiliary inputs come back untouched:
    the result is the bare texture exactly when no mask, keypoints or
    bounding boxes were given, and the list [[texture, mask, keypoints,
    bounding_boxes]] with the very values that were passed in otherwise;
    nothing at all is returned only when the run was not forced. *)
Theorem call_passes_auxiliaries_through {Aux : Type} (self : PaperFactory.t)
  (image : Image) (mask keypoints bounding_boxes : option Aux) (force : bool)
  (g g' : Rng) (output : PaperFactory.Output Aux) :
  PaperFactory.__call__ self image mask keypoints bounding_boxes force g
  = Ok (output, g') ->
  match output with
  | PaperFactory.OutNone => force = false
  | PaperFactory.OutTexture _ =>
      mask = None /\ keypoints = None /\ bounding_boxes = None
  | PaperFactory.OutList _ m k b =>
      m = mask /\ k = keypoints /\ b = bounding_boxes
      /\ ~ (mask = None /\ keypoints = None /\ bounding_boxes = None)
  end.
Proof.
  unfold PaperFactory.__call__. intros H.
  unfold bind at 1 in H.
  destruct ((if force then ret true else should_run (PaperFactory.p self)) g)
    as [[run g0] | e] eqn:Erun; [ | discriminate].
  destruct run.
  - repeat (unfold bind at 1 in H;
            match type of H with
            | match ?m ?s with _ => _ end = _ =>
                destruct (m s) as [[? ?] | ?]; [ | discriminate]
            end).
    destruct mask as [m | ], keypoints as [k | ], bounding_boxes as [b | ];
      unfold ret in H; injection H as <- _; cbn;
      repeat split; try reflexivity; intros (? & ? & ?); discriminate.
  - unfold ret in H. injection H as <- _.
    destruct force; [ | reflexivity].
    unfold ret in Erun. discriminate.
Qed.
End CallFacts.

Lemma call_passes_auxiliaries_through_witness :
  exists output g',
    PaperFactory.__call__ (cv := Fixtures.cv_plain) (au := Fixtures.augraphy_with 0)
      (Fixtures.factory_of [Fixtures.flat 4 4 (Some 3) 7] 0 0)
      (Fixtures.flat 2 2 (Some 3) 0) (Some 5%nat) None (Some 9%nat) false
      (Fixtures.rng_const 0) = Ok (output, g')
    /\ match output with
       | PaperFactory.OutNone => false = false
       | PaperFactory.OutTexture _ =>
           Some 5%nat = None /\ @None nat = None /\ Some 9%nat = None
       | PaperFactory.OutList _ m k b =>
           m = Some 5%nat /\ k = None /\ b = Some 9%nat
           /\ ~ (Some 5%nat = None /\ @None nat = None /\ Some 9%nat = None)
       end.
Proof.
  eexists _, _. split; [vm_compute; reflexivity | ].
  eapply (@call_passes_auxiliaries_through Fixtures.cv_plain
            (Fixtures.augraphy_with 0) nat
            (Fixtures.factory_of [Fixtures.flat 4 4 (Some 3) 7] 0 0)
            (Fixtures.flat 2 2 (Some 3) 0) (Some 5%nat) None (Some 9%nat) false
            (Fixtures.rng_const 0)).
  vm_compute. reflexivity.
Defined.

(** ** [PaperFactory.generate_random_texture]: the side crops *)

Lemma random_choice_run {A : Type} (seq : list A) (g : Rng) :
  seq <> [] ->
  exists x, random_choice seq g = Ok (x, advance g 1) /\ In x seq.
Proof.
  intros Hne. destruct seq as [ | a seq]; [contradiction | ].
  unfold random_choice, bind, next_draw, ret.
  eexists. split; [reflexivity | ]. apply nth_In.
  pose proof (Z.mod_pos_bound (stream g (cursor g))
                (Z.of_nat (List.length (a :: seq)))) as Hb.
  cbn [List.length] in *. lia.
Qed.

Lemma py_int_twentieth (n : Z) :
  0 <= n -> py_int (inject_Z n / 20) = n / 20.
Proof.
  intros Hn. unfold py_int.
  change 20%Q with (inject_Z 20). rewrite <- Zdiv_Qdiv.
  destruct (Qlt_le_dec (inject_Z n / inject_Z 20) 0) as [Hneg | _]; [ | reflexivity].
  exfalso. assert (H : (0 <= inject_Z n / inject_Z 20)%Q).
  { apply Qle_shift_div_l; [reflexivity | ].
    rewrite Qmult_0_l. change 0%Q with (inject_Z 0). rewrite <- Zle_Qle. exact Hn. }
  lra.
Qed.

Section SideCropFacts.
Context {cv : OpenCV} {au : Augraphy}.

(** The size of a texture after one side crop. *)
Lemma crop_side_shape (selection ysize xsize crop_y crop_x : Z) (texture : Image) :
  0 <= crop_y <= height texture -> 0 <= crop_x <= width texture ->
  crop_y <= ysize -> crop_x <= xsize ->
  height (PaperFactory.crop_side selection ysize xsize crop_y crop_x texture)
  = (if selection =? 0 then height texture - crop_y
     else if selection =? 1 then Z.min (ysize - crop_y) (height texture)
          else height texture)
  /\ width (PaperFactory.crop_side selection ysize xsize crop_y crop_x texture)
     = (if selection =? 0 then width texture
        else if selection =? 1 then width texture
             else if selection =? 2 then width texture - crop_x
                  else if selection =? 3 then Z.min (xsize - crop_x) (width texture)
                       else width texture).
Proof.
  intros Hy Hx Hys Hxs. unfold PaperFactory.crop_side.
  destruct (selection =? 0); [ | destruct (selection =? 1);
    [ | destruct (selection =? 2); [ | destruct (selection =? 3)]]];
    unfold slice2, slice_range, slice_index; cbn [height width fst snd];
    repeat match goal with
           | |- context [if ?a <? ?b then _ else _] => destruct (Z.ltb_spec a b)
           end; split; lia.
Qed.

(** The bottom crop is taken at [ysize - crop_y] of the rows of the original
    size: after the top was removed it removes nothing, whereas removing the
    top after the bottom removes [crop_y] more rows; likewise for the right
    crop after the left one. *)
Theorem side_crops_depend_on_order (ysize xsize crop_y crop_x : Z) (texture : Image) :
  height texture = ysize -> width texture = xsize ->
  0 <= crop_y -> 2 * crop_y <= ysize -> 0 <= crop_x -> 2 * crop_x <= xsize ->
  height (PaperFactory.crop_side 1 ysize xsize crop_y crop_x
            (PaperFactory.crop_side 0 ysize xsize crop_y crop_x texture))
  = ysize - crop_y
  /\ height (PaperFactory.crop_side 0 ysize xsize crop_y crop_x
               (PaperFactory.crop_side 1 ysize xsize crop_y crop_x texture))
     = ysize - 2 * crop_y
  /\ width (PaperFactory.crop_side 3 ysize xsize crop_y crop_x
              (PaperFactory.crop_side 2 ysize xsize crop_y crop_x texture))
     = xsize - crop_x
  /\ width (PaperFactory.crop_side 2 ysize xsize crop_y crop_x
              (PaperFactory.crop_side 3 ysize xsize crop_y crop_x texture))
     = xsize - 2 * crop_x.
Proof.
  intros Hh Hw Hy Hy2 Hx Hx2.
  destruct (crop_side_shape 0 ysize xsize crop_y crop_x texture) as [H0h H0w];
    try lia.
  destruct (crop_side_shape 1 ysize xsize crop_y crop_x texture) as [H1h H1w];
    try lia.
  destruct (crop_side_shape 2 ysize xsize crop_y crop_x texture) as [H2h H2w];
    try lia.
  destruct (crop_side_shape 3 ysize xsize crop_y crop_x texture) as [H3h H3w];
    try lia.
  cbn [Z.eqb Pos.eqb] in *.
  repeat split.
  - destruct (crop_side_shape 1 ysize xsize crop_y crop_x
                (PaperFactory.crop_side 0 ysize xsize crop_y crop_x texture))
      as [H _]; try lia. cbn [Z.eqb Pos.eqb] in H. lia.
  - destruct (crop_side_shape 0 ysize xsize crop_y crop_x
                (PaperFactory.crop_side 1 ysize xsize crop_y crop_x texture))
      as [H _]; try lia. cbn [Z.eqb Pos.eqb] in H. lia.
  - destruct (crop_side_shape 3 ysize xsize crop_y crop_x
                (PaperFactory.crop_side 2 ysize xsize crop_y crop_x texture))
      as [_ H]; try lia. cbn [Z.eqb Pos.eqb] in H. lia.
  - destruct (crop_side_shape 2 ysize xsize crop_y crop_x
                (PaperFactory.crop_side 3 ysize xsize crop_y crop_x texture))
      as [_ H]; try lia. cbn [Z.eqb Pos.eqb] in H. lia.
Qed.
End SideCropFacts.

Lemma side_crops_depend_on_order_witness :
  height (PaperFactory.crop_side 1 40 60 2 3
            (PaperFactory.crop_side 0 40 60 2 3 (Fixtures.grid 40 60 None)))
  = 40 - 2
  /\ height (PaperFactory.crop_side 0 40 60 2 3
               (PaperFactory.crop_side 1 40 60 2 3 (Fixtures.grid 40 60 None)))
     = 40 - 2 * 2
  /\ width (PaperFactory.crop_side 3 40 60 2 3
              (PaperFactory.crop_side 2 40 60 2 3 (Fixtures.grid 40 60 None)))
     = 60 - 3
  /\ width (PaperFactory.crop_side 2 40 60 2 3
              (PaperFactory.crop_side 3 40 60 2 3 (Fixtures.grid 40 60 None)))
     = 60 - 2 * 3.
Proof.
  apply (side_crops_depend_on_order 40 60 2 3 (Fixtures.grid 40 60 None));
    simpl; lia.
Defined.

Section RandomTextureFacts.
Context {cv : OpenCV} {au : Augraphy}.

(** For an image with rows and columns, provided the texture generator
    returns, for the seven texture types that are drawn here and at the size
    of the image, a texture of that size, [generate_random_texture] returns
    a texture from which at most two side crops of a twentieth of the axis
    were taken: its height is the image's minus 0, 1 or 2 times
    [height / 20], its width likewise, and the two counts add up to 2 at
    most. *)
Theorem generate_random_texture_shape (image : Image) (g : Rng) :
  0 < height image -> 0 < width image ->
  (forall texture_type g0,
      In texture_type ["normal"; "strange"; "rough_stains"; "fine_stains";
                       "granular"; "curvy_edge"; "broken_edge"]%string ->
      exists img g1,
        texture_generator texture_type (width image) (height image) g0
        = Ok (img, g1)
        /\ height img = height image /\ width img = width image) ->
  exists texture g' rows cols,
    PaperFactory.generate_random_texture image g = Ok (texture, g')
    /\ 0 <= rows /\ 0 <= cols /\ rows + cols <= 2
    /\ height texture = height image - rows * (height image / 20)
    /\ width texture = width image - cols * (width image / 20).
Proof.
  intros Hh Hw Hgen. unfold PaperFactory.generate_random_texture. cbv zeta.
  destruct (random_choice_run
              ["normal"; "strange"; "rough_stains"; "fine_stains"; "granular"]%string g)
    as (ty & Hty & Hinty); [discriminate | ].
  unfold bind at 1. rewrite Hty.
  destruct (Hgen ty (advance g 1)) as (t0 & g1 & Ht0 & Ht0h & Ht0w).
  { cbn in Hinty |- *. tauto. }
  unfold bind at 1. rewrite Ht0.
  destruct (random_choice_run ["curvy_edge"; "broken_edge"]%string g1)
    as (ety & Hety & Hinety); [discriminate | ].
  unfold bind at 1. rewrite Hety.
  destruct (Hgen ety (advance g1 1)) as (te & g2 & Hte & Hteh & Htew).
  { cbn in Hinety |- *. tauto. }
  unfold bind at 1. rewrite Hte.
  rewrite !py_int_twentieth by lia.
  set (crop_y := height image / 20). set (crop_x := width image / 20).
  assert (Hcy : 0 <= crop_y /\ 20 * crop_y <= height image).
  { subst crop_y. split; [apply Z.div_pos; lia | apply Z.mul_div_le; lia]. }
  assert (Hcx : 0 <= crop_x /\ 20 * crop_x <= width image).
  { subst crop_x. split; [apply Z.div_pos; lia | apply Z.mul_div_le; lia]. }
  match goal with
  | |- context [PaperFactory.crop_side _ _ _ _ _ ?T] => set (texture := T)
  end.
  assert (HT : height texture = height image /\ width texture = width image).
  { subst texture. destruct (String.eqb ety "curvy_edge"); cbn [height width];
      split; assumption. }
  destruct HT as [HTh HTw].
  destruct (random_randint_run 0 1 g2) as [Hfirst _]; [lia | ].
  unfold bind at 1. rewrite Hfirst.
  destruct (PaperFactory.truthy _).
  2:{ exists texture, (advance g2 1), 0, 0. split; [reflexivity | lia]. }
  destruct (random_choice_run [0; 1; 2; 3] (advance g2 1)) as (s1 & Hs1 & Hin1);
    [discriminate | ].
  unfold bind at 1. rewrite Hs1.
  destruct (random_randint_run 0 1 (advance (advance g2 1) 1)) as [Hsecond _]; [lia | ].
  unfold bind at 1. rewrite Hsecond.
  destruct (crop_side_shape s1 (height image) (width image) crop_y crop_x texture)
    as [H1h H1w]; try lia.
  set (cropped := PaperFactory.crop_side s1 (height image) (width image)
                    crop_y crop_x texture) in *.
  destruct (PaperFactory.truthy _).
  2:{ destruct Hin1 as [<- | [<- | [<- | [<- | []]]]]; cbn [Z.eqb Pos.eqb] in *;
        [exists cropped, (advance (advance (advance g2 1) 1) 1), 1, 0
        | exists cropped, (advance (advance (advance g2 1) 1) 1), 1, 0
        | exists cropped, (advance (advance (advance g2 1) 1) 1), 0, 1
        | exists cropped, (advance (advance (advance g2 1) 1) 1), 0, 1];
        (split; [reflexivity | lia]). }
  assert (Hrem : remove Z.eq_dec s1 [0; 1; 2; 3] <> []).
  { destruct Hin1 as [<- | [<- | [<- | [<- | []]]]]; discriminate. }
  destruct (random_choice_run (remove Z.eq_dec s1 [0; 1; 2; 3])
              (advance (advance (advance g2 1) 1) 1)) as (s2 & Hs2 & Hin2);
    [exact Hrem | ].
  unfold bind at 1. rewrite Hs2. unfold ret.
  assert (Hcrop : 0 <= crop_y <= height cropped /\ 0 <= crop_x <= width cropped).
  { destruct Hin1 as [<- | [<- | [<- | [<- | []]]]]; cbn [Z.eqb Pos.eqb] in *; lia. }
  destruct (crop_side_shape s2 (height image) (width image) crop_y crop_x cropped)
    as [H2h H2w]; try lia.
  destruct Hin1 as [<- | [<- | [<- | [<- | []]]]]; cbn in Hin2;
    repeat match type of Hin2 with
           | _ \/ _ => destruct Hin2 as [<- | Hin2]
           | False => destruct Hin2
           end;
    cbn [Z.eqb Pos.eqb] in *;
    eexists _, _;
    first [ exists 1, 0; split; [reflexivity | lia]
          | exists 2, 0; split; [reflexivity | lia]
          | exists 1, 1; split; [reflexivity | lia]
          | exists 0, 1; split; [reflexivity | lia]
          | exists 0, 2; split; [reflexivity | lia] ].
Qed.
End RandomTextureFacts.

Lemma generate_random_texture_shape_witness :
  exists texture g' rows cols,
    PaperFactory.generate_random_texture (cv := Fixtures.cv_plain)
      (au := Fixtures.augraphy_with 0) (Fixtures.flat 40 60 None 0)
      (Fixtures.rng_const 1) = Ok (texture, g')
    /\ 0 <= rows /\ 0 <= cols /\ rows + cols <= 2
    /\ height texture = 40 - rows * (40 / 20)
    /\ width texture = 60 - cols * (60 / 20).
Proof.
  apply (@generate_random_texture_shape Fixtures.cv_plain (Fixtures.augraphy_with 0)
           (Fixtures.flat 40 60 None 0) (Fixtures.rng_const 1)).
  - reflexivity.
  - reflexivity.
  - intros texture_type g0 _. eexists _, _. repeat split.
Defined.

(** ** [TextureGenerator.remove_frequency]: results *)

Lemma values_nonempty (a : FloatImage) :
  0 < fheight a -> 0 < fwidth a -> TextureGenerator.values a <> [].
Proof.
  intros Hh Hw E.
  assert (Hin : In (fpix a 0 0) (TextureGenerator.values a)).
  { apply in_values. exists 0, 0. repeat split; lia. }
  rewrite E in Hin. destruct Hin.
Qed.

Lemma values_empty (a : FloatImage) :
  fheight a <= 0 \/ fwidth a <= 0 -> TextureGenerator.values a = [].
Proof.
  intros H. destruct (TextureGenerator.values a) as [ | q l] eqn:E; [reflexivity | ].
  assert (Hin : In q (TextureGenerator.values a)) by (rewrite E; left; reflexivity).
  apply in_values in Hin. destruct Hin as (y & x & Hy & Hx & _). lia.
Qed.

(** The normalization of a non-empty array returns, takes no draw, and its
    result is the same whatever the generator. *)
Lemma minmax_normalize_run (a : FloatImage) :
  0 < fheight a -> 0 < fwidth a ->
  exists lo hi,
    (forall g, TextureGenerator.minmax_normalize a g
               = Ok (fun y x => np_divide (fpix a y x - lo) (hi - lo), g))
    /\ (forall y x, 0 <= y < fheight a -> 0 <= x < fwidth a ->
          (lo <= fpix a y x <= hi)%Q)
    /\ (exists y x, 0 <= y < fheight a /\ 0 <= x < fwidth a /\ (fpix a y x == lo)%Q)
    /\ (exists y x, 0 <= y < fheight a /\ 0 <= x < fwidth a /\ (fpix a y x == hi)%Q).
Proof.
  intros Hh Hw.
  pose proof (values_nonempty a Hh Hw) as Hne.
  unfold TextureGenerator.minmax_normalize, TextureGenerator.np_min,
    TextureGenerator.np_max.
  assert (Hmin : forall l v, (fold_left Qmin l v <= v)%Q
                   /\ (forall q, In q l -> (fold_left Qmin l v <= q)%Q)
                   /\ (exists q, In q (v :: l) /\ (q == fold_left Qmin l v)%Q)).
  { induction l as [ | q l IH]; intros v; cbn [fold_left].
    - split; [lra | ]. split; [intros q [] | ].
      exists v. split; [left; reflexivity | reflexivity].
    - destruct (IH (Qmin v q)) as (H1 & H2 & (w & Hw1 & Hw2)).
      pose proof (Q.le_min_l v q). pose proof (Q.le_min_r v q).
      split; [lra | ]. split.
      + intros q' [<- | Hq']; [lra | apply H2; exact Hq'].
      + destruct Hw1 as [<- | Hw1].
        * destruct (Q.min_spec v q) as [[_ E] | [_ E]].
          -- exists v. split; [left; reflexivity | rewrite <- Hw2, E; reflexivity].
          -- exists q. split; [right; left; reflexivity | rewrite <- Hw2, E; reflexivity].
        * exists w. split; [right; right; exact Hw1 | exact Hw2]. }
  assert (Hmax : forall l v, (v <= fold_left Qmax l v)%Q
                   /\ (forall q, In q l -> (q <= fold_left Qmax l v)%Q)
                   /\ (exists q, In q (v :: l) /\ (q == fold_left Qmax l v)%Q)).
  { induction l as [ | q l IH]; intros v; cbn [fold_left].
    - split; [lra | ]. split; [intros q [] | ].
      exists v. split; [left; reflexivity | reflexivity].
    - destruct (IH (Qmax v q)) as (H1 & H2 & (w & Hw1 & Hw2)).
      pose proof (Q.le_max_l v q). pose proof (Q.le_max_r v q).
      split; [lra | ]. split.
      + intros q' [<- | Hq']; [lra | apply H2; exact Hq'].
      + destruct Hw1 as [<- | Hw1].
        * destruct (Q.max_spec v q) as [[_ E] | [_ E]].
          -- exists q. split; [right; left; reflexivity | rewrite <- Hw2, E; reflexivity].
          -- exists v. split; [left; reflexivity | rewrite <- Hw2, E; reflexivity].
        * exists w. split; [right; right; exact Hw1 | exact Hw2]. }
  destruct (TextureGenerator.values a) as [ | v l] eqn:Ev; [contradiction | ].
  destruct (Hmin l v) as (Hlo1 & Hlo2 & (wlo & Hwlo & Elo)).
  destruct (Hmax l v) as (Hhi1 & Hhi2 & (whi & Hwhi & Ehi)).
  exists (fold_left Qmin l v), (fold_left Qmax l v).
  split; [intros g; reflexivity | ]. split; [ | split].
  - intros y x Hy Hx.
    assert (Hin : In (fpix a y x) (v :: l)).
    { rewrite <- Ev. apply in_values. exists y, x. repeat split; lia. }
    destruct Hin as [<- | Hin]; [lra | ].
    split; [apply Hlo2 | apply Hhi2]; exact Hin.
  - rewrite <- Ev in Hwlo. apply in_values in Hwlo.
    destruct Hwlo as (y & x & Hy & Hx & ->). exists y, x. repeat split; try lia.
    exact Elo.
  - rewrite <- Ev in Hwhi. apply in_values in Hwhi.
    destruct Hwhi as (y & x & Hy & Hx & ->). exists y, x. repeat split; try lia.
    exact Ehi.
Qed.

Section RemoveFrequencyResults.
Context {np : Numpy}.

(** On a non-empty image [remove_frequency] returns after one draw, and what
    it returns does not depend on the generator: the drawn radius is always
    [frequency].  The result has the shape of the input and 8-bit samples. *)
Theorem remove_frequency_ignores_draw (wave_grid_output : Image) (frequency : Z) :
  0 < height wave_grid_output -> 0 < width wave_grid_output ->
  exists result,
    (forall g, TextureGenerator.remove_frequency wave_grid_output frequency g
               = Ok (result, advance g 1))
    /\ height result = height wave_grid_output
    /\ width result = width wave_grid_output
    /\ channels result = channels wave_grid_output
    /\ forall y x c, 0 <= pix result y x c <= 255.
Proof.
  intros Hh Hw.
  destruct (minmax_normalize_run
              (TextureGenerator.masked_magnitude wave_grid_output frequency) Hh Hw)
    as (lo & hi & Hrun & _).
  eexists. split; [ | split; [ | split; [ | split]]].
  - intros g. unfold TextureGenerator.remove_frequency. cbv zeta. unfold bind at 1.
    rewrite random_randint_same. unfold bind at 1. rewrite Hrun. reflexivity.
  - reflexivity.
  - reflexivity.
  - reflexivity.
  - intros y x c. cbn [pix]. apply uint8_range.
Qed.

(** An image without rows or without columns makes [remove_frequency] raise
    [ValueError]: the minimum of an empty array. *)
Theorem remove_frequency_empty_image (wave_grid_output : Image) (frequency : Z)
  (g : Rng) :
  height wave_grid_output <= 0 \/ width wave_grid_output <= 0 ->
  TextureGenerator.remove_frequency wave_grid_output frequency g = Raise ValueError.
Proof.
  intros H. unfold TextureGenerator.remove_frequency. cbv zeta. unfold bind at 1.
  rewrite random_randint_same. unfold bind at 1.
  unfold TextureGenerator.minmax_normalize, bind, TextureGenerator.np_min.
  rewrite values_empty by exact H. reflexivity.
Qed.
End RemoveFrequencyResults.

Lemma remove_frequency_ignores_draw_witness :
  exists result,
    (forall g, TextureGenerator.remove_frequency (np := Fixtures.numpy_small)
                 (Fixtures.pair_image 9 3) 0 g = Ok (result, advance g 1))
    /\ height result = 1 /\ width result = 2 /\ channels result = None
    /\ forall y x c, 0 <= pix result y x c <= 255.
Proof.
  apply (@remove_frequency_ignores_draw Fixtures.numpy_small
           (Fixtures.pair_image 9 3) 0); reflexivity.
Defined.

Lemma remove_frequency_empty_image_witness :
  TextureGenerator.remove_frequency (np := Fixtures.numpy_small)
    (Fixtures.flat 0 5 None 0) 3 (Fixtures.rng_const 2) = Raise ValueError.
Proof.
  apply (@remove_frequency_empty_image Fixtures.numpy_small). left. simpl. lia.
Defined.

Section InversionFacts.
Context {np : Numpy}.

(** The sample computed from a magnitude [v] between the minimum [lo] and
    the maximum [hi], when these differ. *)
Lemma inverted_sample (lo hi v : Q) :
  (lo < hi)%Q -> (lo <= v <= hi)%Q ->
  uint8 (255 - TextureGenerator.float_to_uint8
                 (TextureGenerator.np_scale (np_divide (v - lo) (hi - lo)) 255))
  = 255 - Qfloor ((v - lo) / (hi - lo) * 255)
  /\ 0 <= Qfloor ((v - lo) / (hi - lo) * 255) <= 255.
Proof.
  intros Hlt Hv. unfold np_divide.
  assert (E : Qeq_bool (hi - lo) 0 = false).
  { destruct (Qeq_bool (hi - lo) 0) eqn:E; [ | reflexivity].
    apply Qeq_bool_iff in E. lra. }
  rewrite E. cbn [TextureGenerator.np_scale TextureGenerator.float_to_uint8].
  set (q := ((v - lo) / (hi - lo))%Q).
  assert (Hq0 : (0 <= q)%Q) by (apply Qle_shift_div_l; lra).
  assert (Hq1 : (q <= 1)%Q) by (apply Qle_shift_div_r; lra).
  assert (Hf : 0 <= Qfloor (q * 255) <= 255).
  { assert (H0 : Qfloor (inject_Z 0) <= Qfloor (q * 255)).
    { apply Qfloor_resp_le. change (inject_Z 0) with 0%Q. lra. }
    assert (H1 : Qfloor (q * 255) <= Qfloor (inject_Z 255)).
    { apply Qfloor_resp_le. change (inject_Z 255) with 255%Q. lra. }
    rewrite Qfloor_Z in H0, H1. lia. }
  split; [ | exact Hf].
  unfold py_int. destruct (Qlt_le_dec (q * 255) 0) as [Hneg | _]; [lra | ].
  unfold uint8. rewrite (Z.mod_small (Qfloor (q * 255))) by lia.
  apply Z.mod_small. lia.
Qed.

(** [remove_frequency] inverts: when the magnitude is not the same
    everywhere, a position of least magnitude gets 255, a position of
    greatest magnitude gets 0, and a larger magnitude never gives a larger
    sample. *)
Theorem remove_frequency_inverts (wave_grid_output : Image) (frequency : Z)
  (g : Rng) (y1 x1 y2 x2 : Z) :
  let magnitude :=
    fpix (TextureGenerator.masked_magnitude wave_grid_output frequency) in
  let inside := fun y x =>
    0 <= y < height wave_grid_output /\ 0 <= x < width wave_grid_output in
  inside y1 x1 -> inside y2 x2 -> (magnitude y1 x1 < magnitude y2 x2)%Q ->
  exists result,
    TextureGenerator.remove_frequency wave_grid_output frequency g
    = Ok (result, advance g 1)
    /\ (forall y x c,
          inside y x ->
          (forall y' x', inside y' x' -> (magnitude y x <= magnitude y' x')%Q) ->
          pix result y x c = 255)
    /\ (forall y x c,
          inside y x ->
          (forall y' x', inside y' x' -> (magnitude y' x' <= magnitude y x)%Q) ->
          pix result y x c = 0)
    /\ (forall y x y' x' c,
          inside y x -> inside y' x' ->
          (magnitude y x <= magnitude y' x')%Q ->
          pix result y' x' c <= pix result y x c).
Proof.
  cbv zeta. intros [Hy1 Hx1] [Hy2 Hx2] Hlt.
  set (a := TextureGenerator.masked_magnitude wave_grid_output frequency) in *.
  assert (Hh : 0 < fheight a) by (cbn; lia).
  assert (Hw : 0 < fwidth a) by (cbn; lia).
  destruct (minmax_normalize_run a Hh Hw)
    as (lo & hi & Hrun & Hbounds & (yl & xl & Hyl & Hxl & Elo)
        & (yh & xh & Hyh & Hxh & Ehi)).
  assert (Hlohi : (lo < hi)%Q).
  { pose proof (Hbounds y1 x1 Hy1 Hx1). pose proof (Hbounds y2 x2 Hy2 Hx2). lra. }
  eexists. split; [ | split; [ | split]].
  - unfold TextureGenerator.remove_frequency. cbv zeta. unfold bind at 1.
    rewrite random_randint_same. unfold bind at 1. fold a. rewrite Hrun. reflexivity.
  - intros y x c [Hy Hx] Hleast. cbn [pix].
    destruct (inverted_sample lo hi (fpix a y x) Hlohi (Hbounds y x Hy Hx)) as [E _].
    rewrite E.
    assert (Ev : (fpix a y x == lo)%Q).
    { pose proof (Hleast yl xl (conj Hyl Hxl)). pose proof (Hbounds y x Hy Hx). lra. }
    assert (Ez : ((fpix a y x - lo) / (hi - lo) * 255 == inject_Z 0)%Q).
    { rewrite Ev. change (inject_Z 0) with 0%Q. field. lra. }
    rewrite Ez, Qfloor_Z. reflexivity.
  - intros y x c [Hy Hx] Hmost. cbn [pix].
    destruct (inverted_sample lo hi (fpix a y x) Hlohi (Hbounds y x Hy Hx)) as [E _].
    rewrite E.
    assert (Ev : (fpix a y x == hi)%Q).
    { pose proof (Hmost yh xh (conj Hyh Hxh)). pose proof (Hbounds y x Hy Hx). lra. }
    assert (Ez : ((fpix a y x - lo) / (hi - lo) * 255 == inject_Z 255)%Q).
    { rewrite Ev. change (inject_Z 255) with 255%Q. field. lra. }
    rewrite Ez, Qfloor_Z. reflexivity.
  - intros y x y' x' c [Hy Hx] [Hy' Hx'] Hle. cbn [pix].
    destruct (inverted_sample lo hi (fpix a y x) Hlohi (Hbounds y x Hy Hx)) as [E _].
    destruct (inverted_sample lo hi (fpix a y' x') Hlohi (Hbounds y' x' Hy' Hx'))
      as [E' _].
    rewrite E, E'.
    assert (Hf : Qfloor ((fpix a y x - lo) / (hi - lo) * 255)
                 <= Qfloor ((fpix a y' x' - lo) / (hi - lo) * 255)).
    { apply Qfloor_resp_le. apply Qmult_le_compat_r; [ | lra].
      unfold Qdiv. apply Qmult_le_compat_r; [lra | ].
      apply Qlt_le_weak, Qinv_lt_0_compat. lra. }
    lia.
Qed.
End InversionFacts.

Lemma remove_frequency_inverts_witness :
  exists result,
    TextureGenerator.remove_frequency (np := Fixtures.numpy_echo)
      (Fixtures.pair_image 0 9) 1 (Fixtures.rng_const 0)
    = Ok (result, advance (Fixtures.rng_const 0) 1)
    /\ (forall y x c,
          0 <= y < 1 /\ 0 <= x < 2 ->
          (forall y' x', 0 <= y' < 1 /\ 0 <= x' < 2 ->
             (fpix (TextureGenerator.masked_magnitude (np := Fixtures.numpy_echo)
                      (Fixtures.pair_image 0 9) 1) y x
              <= fpix (TextureGenerator.masked_magnitude (np := Fixtures.numpy_echo)
                         (Fixtures.pair_image 0 9) 1) y' x')%Q) ->
          pix result y x c = 255)
    /\ (forall y x c,
          0 <= y < 1 /\ 0 <= x < 2 ->
          (forall y' x', 0 <= y' < 1 /\ 0 <= x' < 2 ->
             (fpix (TextureGenerator.masked_magnitude (np := Fixtures.numpy_echo)
                      (Fixtures.pair_image 0 9) 1) y' x'
              <= fpix (TextureGenerator.masked_magnitude (np := Fixtures.numpy_echo)
                         (Fixtures.pair_image 0 9) 1) y x)%Q) ->
          pix result y x c = 0)
    /\ (forall y x y' x' c,
          0 <= y < 1 /\ 0 <= x < 2 -> 0 <= y' < 1 /\ 0 <= x' < 2 ->
          (fpix (TextureGenerator.masked_magnitude (np := Fixtures.numpy_echo)
                   (Fixtures.pair_image 0 9) 1) y x
           <= fpix (TextureGenerator.masked_magnitude (np := Fixtures.numpy_echo)
                      (Fixtures.pair_image 0 9) 1) y' x')%Q ->
          pix result y' x' c <= pix result y x c).
Proof.
  apply (@remove_frequency_inverts Fixtures.numpy_echo (Fixtures.pair_image 0 9) 1
           (Fixtures.rng_const 0) 0 0 0 1).
  - simpl. lia.
  - simpl. lia.
  - vm_compute. reflexivity.
Defined.

(** ** [TextureGenerator.generate_FFT_grid]: results *)

Section FFTGridResults.
Context {np : Numpy}.

Lemma fft_pass_run (xsize ysize : Z) (config : WaveConfig) (g : Rng) :
  0 < xsize -> 0 < ysize ->
  (forall g0, exists real_part g1,
      wave_ifft_pixel xsize ysize config g0 = Ok (real_part, g1)) ->
  exists new_wave_grid g',
    TextureGenerator.fft_pass xsize ysize config g = Ok (new_wave_grid, g').
Proof.
  intros Hx Hy Hwave. unfold TextureGenerator.fft_pass. unfold bind at 1.
  destruct (Hwave g) as (real_part & g1 & Hrun). rewrite Hrun.
  destruct (minmax_normalize_run (mkFloatImage ysize xsize real_part))
    as (lo & hi & Hnorm & _); [exact Hy | exact Hx | ].
  unfold bind. rewrite Hnorm. eexists _, _. reflexivity.
Qed.

(** On a grid with rows and columns, with a non-empty range of pass counts
    and a wave transform that returns, [generate_FFT_grid] returns a 2-D
    array of [ysize] by [xsize] whose samples are 8-bit. *)
Theorem generate_FFT_grid_returns (xsize ysize : Z) (config : WaveConfig) (g : Rng) :
  0 < xsize -> 0 < ysize ->
  fst (f_iterations config) <= snd (f_iterations config) ->
  (forall g0, exists real_part g1,
      wave_ifft_pixel xsize ysize config g0 = Ok (real_part, g1)) ->
  exists grid g',
    TextureGenerator.generate_FFT_grid xsize ysize config g = Ok (grid, g')
    /\ height grid = ysize /\ width grid = xsize /\ channels grid = None
    /\ forall y x c, 0 <= pix grid y x c <= 255.
Proof.
  intros Hx Hy Hf Hwave.
  unfold TextureGenerator.generate_FFT_grid, TextureGenerator.np_zeros.
  destruct (Z.ltb_spec ysize 0); [lia | ].
  destruct (Z.ltb_spec xsize 0); [lia | ].
  cbn [orb]. unfold bind at 1. unfold ret at 1. unfold bind at 1.
  destruct (random_randint_run (fst (f_iterations config))
              (snd (f_iterations config)) g Hf) as [Hrun _].
  rewrite Hrun.
  apply (for_range_inv
           (fun out => height out = ysize /\ width out = xsize
                       /\ channels out = None
                       /\ forall y x c, 0 <= pix out y x c <= 255)).
  - intros j out g0 _ (Hh & Hw & Hc & Hp). unfold bind.
    destruct (fft_pass_run xsize ysize config g0 Hx Hy Hwave) as (img & g1 & Hpass).
    rewrite Hpass. unfold ret. eexists _, _. split; [reflexivity | ].
    cbn [height width channels pix TextureGenerator.iadd_uint8].
    repeat split; try assumption; apply uint8_range.
  - cbn [height width channels pix]. repeat split; lia.
Qed.

(** On a grid without rows or without columns [generate_FFT_grid] returns
    no image as soon as a pass is asked for: it raises, whatever the wave
    transform does on the empty grid (numpy's transform raises there, and a
    transform that returned would leave the pass an empty array to
    normalise). *)
Theorem generate_FFT_grid_empty_grid (xsize ysize : Z) (config : WaveConfig)
  (g : Rng) :
  0 <= xsize -> 0 <= ysize -> xsize = 0 \/ ysize = 0 ->
  1 <= fst (f_iterations config) ->
  exists e, TextureGenerator.generate_FFT_grid xsize ysize config g = Raise e.
Proof.
  intros Hx Hy Hempty Hf.
  unfold TextureGenerator.generate_FFT_grid, TextureGenerator.np_zeros.
  destruct (Z.ltb_spec ysize 0); [lia | ].
  destruct (Z.ltb_spec xsize 0); [lia | ].
  cbn [orb]. unfold bind at 1. unfold ret at 1. unfold bind at 1.
  destruct (Z_lt_le_dec (snd (f_iterations config)) (fst (f_iterations config)))
    as [Hlt | Hle].
  - exists ValueError. unfold random_randint.
    destruct (Z.ltb_spec (snd (f_iterations config)) (fst (f_iterations config)));
      [reflexivity | lia].
  - destruct (random_randint_run (fst (f_iterations config))
                (snd (f_iterations config)) g) as [Hrun Hb]; [lia | ].
    rewrite Hrun. unfold for_range.
    destruct (Z.to_nat _) as [ | n] eqn:En; [lia | ].
    cbn [for_range_from]. unfold bind at 1. unfold bind at 1.
    unfold TextureGenerator.fft_pass. unfold bind at 1.
    destruct (wave_ifft_pixel xsize ysize config (advance g 1))
      as [[real_part g1] | e]; [ | exists e; reflexivity].
    exists ValueError. unfold bind at 1.
    unfold TextureGenerator.minmax_normalize, bind, TextureGenerator.np_min.
    rewrite values_empty; [reflexivity | ]. cbn [fheight fwidth]. lia.
Qed.
End FFTGridResults.

Lemma generate_FFT_grid_returns_witness :
  exists grid g',
    TextureGenerator.generate_FFT_grid (np := Fixtures.numpy_small) 3 2
      (Fixtures.config_of (3, 5)) (Fixtures.rng_const 4) = Ok (grid, g')
    /\ height grid = 2 /\ width grid = 3 /\ channels grid = None
    /\ forall y x c, 0 <= pix grid y x c <= 255.
Proof.
  apply (@generate_FFT_grid_returns Fixtures.numpy_small 3 2
           (Fixtures.config_of (3, 5)) (Fixtures.rng_const 4)).
  - lia.
  - lia.
  - simpl. lia.
  - intros g0. eexists _, _. reflexivity.
Defined.

Lemma generate_FFT_grid_empty_grid_witness :
  exists e,
    TextureGenerator.generate_FFT_grid (np := Fixtures.numpy_small) 0 2
      (Fixtures.config_of (3, 5)) (Fixtures.rng_const 4) = Raise e.
Proof.
  apply (@generate_FFT_grid_empty_grid Fixtures.numpy_small 0 2
           (Fixtures.config_of (3, 5)) (Fixtures.rng_const 4)).
  - lia.
  - lia.
  - left. reflexivity.
  - simpl. lia.
Defined.

(** ** [TextureGenerator.get_random_patch]: the accepted candidate *)

Section AcceptFacts.
Context {np : Numpy}.



End AcceptFacts.


(** ** [TextureGenerator.quilt_texture]: the channel layout *)

Section QuiltLayoutFacts.
Context {cv : OpenCV} {au : Augraphy} {np : Numpy}.

Lemma assign_patch_layout (image_quilt image_patch : Image) (patch_size y x : Z)
  (g : Rng) :
  0 <= patch_size ->
  0 <= y -> y + patch_size <= height image_quilt ->
  0 <= x -> x + patch_size <= width image_quilt ->
  height image_patch = patch_size -> width image_patch = patch_size ->
  exists quilt,
    TextureGenerator.assign_patch image_quilt patch_size y x image_patch g
    = Ok (quilt, g)
    /\ height quilt = height image_quilt /\ width quilt = width image_quilt
    /\ channels quilt = channels image_quilt.
Proof.
  intros Hp Hy Hy' Hx Hx' Hph Hpw. unfold TextureGenerator.assign_patch. cbv zeta.
  rewrite !slice_range_inside by lia. cbn [fst snd].
  rewrite Hph, Hpw, !Z.eqb_refl. cbn [orb andb].
  eexists. split; [reflexivity | repeat split].
Qed.

(** The quilt has the channel layout of the texture it was made from: a 2-D
    gray texture gives a 2-D quilt, a texture with a channel axis gives a
    quilt with the same channel axis. *)
Theorem quilt_texture_keeps_layout (image_texture : Image)
  (patch_size patch_number_width patch_number_height : Z) (g : Rng) :
  patch_size < height image_texture -> patch_size < width image_texture ->
  0 < patch_size -> 0 < patch_number_width -> 0 < patch_number_height ->
  exists image_quilt g',
    TextureGenerator.quilt_texture image_texture patch_size patch_number_width
      patch_number_height g = Ok (image_quilt, g')
    /\ channels image_quilt = channels image_texture
    /\ ndim image_quilt = ndim image_texture.
Proof.
  intros Hy Hx Hp Hnw Hnh. unfold TextureGenerator.quilt_texture. cbv zeta.
  set (overlap := patch_size / 5).
  assert (Hov : 0 <= overlap <= patch_size).
  { subst overlap. split; [apply Z.div_pos; lia | ].
    apply Z.div_le_upper_bound; lia. }
  set (ysize := patch_number_height * patch_size
                - (patch_number_height - 1) * overlap).
  set (xsize := patch_number_width * patch_size
                - (patch_number_width - 1) * overlap).
  set (source := if ndim image_texture <? 3
                 then cvt_GRAY2BGR image_texture else image_texture).
  assert (Hsrc : height source = height image_texture
                 /\ width source = width image_texture).
  { subst source. destruct (ndim image_texture <? 3); split; reflexivity. }
  destruct Hsrc as [Hsh Hsw].
  assert (Hys : 0 <= ysize) by (subst ysize; nia).
  assert (Hxs : 0 <= xsize) by (subst xsize; nia).
  unfold bind at 1. unfold TextureGenerator.np_zeros.
  destruct (Z.ltb_spec ysize 0); [lia | ].
  destruct (Z.ltb_spec xsize 0); [lia | ].
  cbn [orb]. unfold ret at 1. unfold bind at 1.
  destruct (find_reference_run 10 (cvt_BGR2HSV source) patch_size
              (height source) (width source) 0 0 g) as (yx & g1 & Href);
    [lia | lia | ].
  rewrite Href. unfold bind at 1.
  match goal with
  | |- context [for_range patch_number_height ?body ?acc g1] =>
      destruct (for_range_inv
                  (fun q => height q = ysize /\ width q = xsize
                            /\ channels q = channels source)
                  body patch_number_height acc g1)
        as (quilt & g2 & Hloop & Hqh & Hqw & Hqc)
  end.
  - intros i q g0 Hi (Hqh & Hqw & Hqc).
    apply for_range_inv; [ | repeat split; assumption].
    intros j q' g0' Hj (Hqh' & Hqw' & Hqc'). unfold bind.
    destruct (get_random_patch_shape source (cvt_BGR2HSV source) patch_size
                (TextureGenerator.range_around
                   (TextureGenerator.patch_mean (cvt_BGR2HSV source) patch_size
                      (fst yx) (snd yx) 0) 10)
                (TextureGenerator.range_around
                   (TextureGenerator.patch_mean (cvt_BGR2HSV source) patch_size
                      (fst yx) (snd yx) 1) 10)
                (TextureGenerator.range_around
                   (TextureGenerator.patch_mean (cvt_BGR2HSV source) patch_size
                      (fst yx) (snd yx) 2) 10)
                g0') as (patch & g3 & Hpatch & Hph & Hpw); [lia | lia | lia | ].
    rewrite Hpatch.
    destruct (assign_patch_layout q' patch patch_size
                (i * (patch_size - overlap)) (j * (patch_size - overlap)) g3)
      as (q'' & Hassign & Hh'' & Hw'' & Hc''); try assumption; try lia.
    + nia.
    + rewrite Hqh'. subst ysize. nia.
    + nia.
    + rewrite Hqw'. subst xsize. nia.
    + exists q'', g3. split; [exact Hassign | ]. repeat split; congruence.
  - repeat split; reflexivity.
  - rewrite Hloop. unfold ret. eexists _, _. split; [reflexivity | ].
    subst source. unfold ndim in *.
    destruct (channels image_texture) as [c | ] eqn:Ec;
      cbn [Z.ltb Z.compare Pos.compare Pos.compare_cont] in *;
      cbn [channels cvt_BGR2GRAY TextureGenerator.enhance_contrast cv2_medianBlur].
    + rewrite Hqc, Ec. split; reflexivity.
    + split; reflexivity.
Qed.
End QuiltLayoutFacts.

Lemma quilt_texture_keeps_layout_witness :
  exists image_quilt g',
    TextureGenerator.quilt_texture (cv := Fixtures.cv_plain)
      (au := Fixtures.augraphy_with 0) (np := Fixtures.numpy_small)
      (Fixtures.grid 30 40 None) 20 2 3 (Fixtures.rng_const 5)
    = Ok (image_quilt, g')
    /\ channels image_quilt = None
    /\ ndim image_quilt = 2.
Proof.
  apply (@quilt_texture_keeps_layout Fixtures.cv_plain (Fixtures.augraphy_with 0)
           Fixtures.numpy_small (Fixtures.grid 30 40 None) 20 2 3
           (Fixtures.rng_const 5)); reflexivity.
Defined.

(** ** [PaperFactory.__init__]: the library that is built *)

Section ConstructionFacts.
Context {disk : Disk}.

(** The images of the files that [cv2.imread] can read, in listing order. *)
Local Notation "'readable'" :=
  (fun file : string => match imread file with Some texture => [texture] | None => [] end)
  (only parsing).

Lemma load_files_names (files : list string) (names : list string)
  (textures : list Image) :
  fst (fold_left PaperFactory.load_file files (names, textures))
  = names ++ map os_path_basename files.
Proof.
  revert names textures. induction files as [ | file files IH]; intros names textures.
  - cbn. rewrite app_nil_r. reflexivity.
  - cbn [fold_left map]. unfold PaperFactory.load_file at 2. cbn [fst snd].
    destruct (imread file); rewrite IH, <- app_assoc; reflexivity.
Qed.

Lemma load_files_textures (files : list string) (names : list string)
  (textures : list Image) :
  snd (fold_left PaperFactory.load_file files (names, textures))
  = textures ++ flat_map readable files.
Proof.
  revert names textures. induction files as [ | file files IH]; intros names textures.
  - cbn. rewrite app_nil_r. reflexivity.
  - cbn [fold_left flat_map]. unfold PaperFactory.load_file at 2. cbn [fst snd].
    destruct (imread file); rewrite IH.
    + rewrite <- app_assoc. reflexivity.
    + reflexivity.
Qed.

Lemma readable_length (files : list string) :
  (List.length (flat_map readable files)
   + List.length (filter (fun file => match imread file with
                                      | Some _ => false
                                      | None => true
                                      end) files)
   = List.length files)%nat.
Proof.
  induction files as [ | file files IH]; [reflexivity | ].
  cbn [flat_map filter]. destruct (imread file); cbn [List.length app]; lia.
Qed.

Lemma init_fields (texture_path : string)
  (texture_enable_color blend_texture : PaperFactory.Flag)
  (blend_method : string) (p : Q) :
  PaperFactory.texture_file_names
    (PaperFactory.__init__ texture_path texture_enable_color blend_texture
       blend_method p)
  = map os_path_basename (glob (String.append texture_path "/*"))
  /\ PaperFactory.paper_textures
       (PaperFactory.__init__ texture_path texture_enable_color blend_texture
          blend_method p)
     = flat_map readable (glob (String.append texture_path "/*")).
Proof.
  unfold PaperFactory.__init__. cbv zeta.
  cbn [PaperFactory.texture_file_names PaperFactory.paper_textures].
  rewrite load_files_names, load_files_textures. split; reflexivity.
Qed.

(** The constructor records one name per file of the directory, in listing
    order, and one texture per file that could be read, in listing order:
    the library is the listing with the unreadable files left out and every
    other file replaced by its image.  So a texture is in the library
    exactly when some listed file reads as it, and the names outnumber the
    textures by the number of files that could not be read. *)
Theorem init_builds_library (texture_path : string)
  (texture_enable_color blend_texture : PaperFactory.Flag)
  (blend_method : string) (p : Q) :
  let files := glob (String.append texture_path "/*") in
  let self := PaperFactory.__init__ texture_path texture_enable_color
                blend_texture blend_method p in
  PaperFactory.texture_file_names self = map os_path_basename files
  /\ PaperFactory.paper_textures self
     = flat_map (fun file => match imread file with
                             | Some texture => [texture]
                             | None => []
                             end) files
  /\ (forall texture,
        In texture (PaperFactory.paper_textures self)
        <-> exists file, In file files /\ imread file = Some texture)
  /\ (List.length (PaperFactory.paper_textures self)
      + List.length (filter (fun file => match imread file with
                                         | Some _ => false
                                         | None => true
                                         end) files)
      = List.length (PaperFactory.texture_file_names self))%nat.
Proof.
  cbv zeta.
  destruct (init_fields texture_path texture_enable_color blend_texture
              blend_method p) as [Hn Ht].
  rewrite Hn, Ht. split; [reflexivity | ]. split; [reflexivity | ]. split.
  - intros texture. rewrite in_flat_map. split.
    + intros (file & Hin & Hr). exists file. split; [exact Hin | ].
      destruct (imread file) as [t | ]; [ | contradiction].
      destruct Hr as [Hr | []]. congruence.
    + intros (file & Hin & Hr). exists file. split; [exact Hin | ].
      rewrite Hr. left. reflexivity.
  - rewrite length_map. apply readable_length.
Qed.

(** When the first file that cannot be read is followed by a readable one,
    the texture of the latter sits in the library at the index at which the
    name of the unreadable file sits in the name list. *)
Theorem init_names_out_of_step (texture_path : string)
  (texture_enable_color blend_texture : PaperFactory.Flag)
  (blend_method : string) (p : Q)
  (before after : list string) (bad good : string) (texture : Image) :
  glob (String.append texture_path "/*") = before ++ bad :: good :: after ->
  (forall file, In file before -> imread file <> None) ->
  imread bad = None -> imread good = Some texture ->
  let self := PaperFactory.__init__ texture_path texture_enable_color
                blend_texture blend_method p in
  nth_error (PaperFactory.paper_textures self) (List.length before) = Some texture
  /\ nth_error (PaperFactory.texture_file_names self) (List.length before)
     = Some (os_path_basename bad).
Proof.
  intros Hglob Hbefore Hbad Hgood. cbv zeta.
  destruct (init_fields texture_path texture_enable_color blend_texture
              blend_method p) as [Hn Ht].
  rewrite Hn, Ht, Hglob. split.
  - rewrite flat_map_app. cbn [flat_map]. rewrite Hbad, Hgood. cbn [app].
    assert (Hlen : List.length (flat_map readable before) = List.length before).
    { clear - Hbefore. induction before as [ | file files IH]; [reflexivity | ].
      cbn [flat_map]. destruct (imread file) eqn:E.
      - cbn [app List.length]. f_equal. apply IH.
        intros f Hf. apply Hbefore. right. exact Hf.
      - exfalso. apply (Hbefore file); [left; reflexivity | exact E]. }
    rewrite nth_error_app2 by lia. rewrite Hlen, Nat.sub_diag. reflexivity.
  - rewrite map_app. rewrite nth_error_app2 by (rewrite length_map; lia).
    rewrite length_map, Nat.sub_diag. reflexivity.
Qed.

(** A factory built over a directory with a readable file can choose a
    texture: [choose_texture] returns after two draws, with the texture at a
    drawn index of the library and the name at the same index of the name
    list, which is the name of the file at that index of the listing. *)
Theorem init_then_choose_texture (texture_path : string)
  (texture_enable_color blend_texture : PaperFactory.Flag)
  (blend_method : string) (p : Q) {cv : OpenCV} (file : string) (g : Rng) :
  In file (glob (String.append texture_path "/*")) -> imread file <> None ->
  let self := PaperFactory.__init__ texture_path texture_enable_color
                blend_texture blend_method p in
  exists (index : nat) texture k listed,
    nth_error (PaperFactory.paper_textures self) index = Some texture
    /\ nth_error (glob (String.append texture_path "/*")) index = Some listed
    /\ 1 <= k <= 4
    /\ PaperFactory.choose_texture self g
       = Ok ((PaperFactory.check_paper_edges (np_rot90 texture k),
              os_path_basename listed),
             advance g 2).
Proof.
  intros Hin Hread. cbv zeta.
  set (self := PaperFactory.__init__ texture_path texture_enable_color
                 blend_texture blend_method p).
  destruct (init_fields texture_path texture_enable_color blend_texture
              blend_method p) as [Hn Ht].
  fold self in Hn, Ht.
  set (files := glob (String.append texture_path "/*")) in *.
  pose proof (readable_length files) as Hlen. rewrite <- Ht in Hlen.
  set (n := Z.of_nat (List.length (PaperFactory.paper_textures self))).
  assert (Hpos : 0 < n).
  { subst n. rewrite Ht.
    assert (Hsome : exists t, In t (flat_map readable files)).
    { destruct (imread file) as [t | ] eqn:E; [ | congruence].
      exists t. apply in_flat_map. exists file. split; [exact Hin | ].
      rewrite E. left. reflexivity. }
    destruct Hsome as [t Hint].
    destruct (flat_map readable files); [contradiction | cbn [List.length]; lia]. }
  unfold PaperFactory.choose_texture. fold n.
  destruct (random_randint_run 0 (n - 1) g) as [Hidx Hb]; [lia | ].
  set (idx := 0 + stream g (cursor g) mod (n - 1 - 0 + 1)) in *.
  destruct (random_randint_run 1 4 (advance g 1)) as [Hk Hkb]; [lia | ].
  set (k := 1 + stream (advance g 1) (cursor (advance g 1)) mod (4 - 1 + 1)) in *.
  destruct (nth_error (PaperFactory.paper_textures self) (Z.to_nat idx))
    as [texture | ] eqn:Etex;
    [ | apply nth_error_None in Etex; subst n; lia].
  destruct (nth_error files (Z.to_nat idx)) as [listed | ] eqn:Efile;
    [ | apply nth_error_None in Efile; subst n; lia].
  exists (Z.to_nat idx), texture, k, listed.
  split; [exact Etex | ]. split; [exact Efile | ]. split; [exact Hkb | ].
  unfold bind. rewrite Hidx. unfold PaperFactory.list_get at 1. rewrite Etex.
  unfold ret at 1. rewrite Hk. unfold PaperFactory.list_get.
  rewrite Hn, nth_error_map, Efile. reflexivity.
Qed.
End ConstructionFacts.

Lemma init_names_out_of_step_witness :
  let disk := Fixtures.disk_of
                [("paper/notes.txt"%string, None);
                 ("paper/linen.png"%string, Some (Fixtures.flat 4 4 (Some 3) 7))] in
  let self := PaperFactory.__init__ (disk := disk) "paper"
                (PaperFactory.FlagValue 0) (PaperFactory.FlagValue 0)
                "normal" 1%Q in
  nth_error (PaperFactory.paper_textures self) 0
  = Some (Fixtures.flat 4 4 (Some 3) 7)
  /\ nth_error (PaperFactory.texture_file_names self) 0 = Some "notes.txt"%string.
Proof.
  cbv zeta.
  apply (@init_names_out_of_step
           (Fixtures.disk_of
              [("paper/notes.txt"%string, None);
               ("paper/linen.png"%string, Some (Fixtures.flat 4 4 (Some 3) 7))])
           "paper" (PaperFactory.FlagValue 0) (PaperFactory.FlagValue 0)
           "normal" 1%Q [] [] "paper/notes.txt" "paper/linen.png"
           (Fixtures.flat 4 4 (Some 3) 7)).
  - reflexivity.
  - intros file [].
  - reflexivity.
  - reflexivity.
Defined.

Lemma init_then_choose_texture_witness :
  let disk := Fixtures.disk_of
                [("paper/notes.txt"%string, None);
                 ("paper/linen.png"%string, Some (Fixtures.flat 4 4 (Some 3) 7))] in
  let self := PaperFactory.__init__ (disk := disk) "paper"
                (PaperFactory.FlagValue 0) (PaperFactory.FlagValue 0)
                "normal" 1%Q in
  exists (index : nat) texture k listed,
    nth_error (PaperFactory.paper_textures self) index = Some texture
    /\ nth_error (glob (Disk := disk) (String.append "paper" "/*")) index
       = Some listed
    /\ 1 <= k <= 4
    /\ PaperFactory.choose_texture (cv := Fixtures.cv_plain) self
         (Fixtures.rng_const 0)
       = Ok ((PaperFactory.check_paper_edges (cv := Fixtures.cv_plain)
                (np_rot90 texture k),
              os_path_basename listed),
             advance (Fixtures.rng_const 0) 2).
Proof.
  cbv zeta.
  apply (@init_then_choose_texture
           (Fixtures.disk_of
              [("paper/notes.txt"%string, None);
               ("paper/linen.png"%string, Some (Fixtures.flat 4 4 (Some 3) 7))])
           "paper" (PaperFactory.FlagValue 0) (PaperFactory.FlagValue 0)
           "normal" 1%Q Fixtures.cv_plain "paper/linen.png"
           (Fixtures.rng_const 0)).
  - right. left. reflexivity.
  - discriminate.
Defined.

(** ** [TextureGenerator.generate_strange_texture]: the divisor search *)

Lemma divisor_loop_background (fuel : nat) (value i stop step : Z) (bg : Q) :
  TextureGenerator.divisor_loop fuel value i stop step bg bg = bg.
Proof.
  revert i. induction fuel as [ | fuel IH]; intros i; [reflexivity | ].
  cbn [TextureGenerator.divisor_loop].
  destruct (i <? stop); [ | reflexivity].
  destruct (value mod i =? 0); apply IH.
Qed.

(** The search tests the candidates [i], [i + step], [i + 2 step], ...
    below [stop], and only those. *)
Lemma divisor_loop_hit (fuel : nat) (value i stop step : Z) (color bg : Q) (n : Z) :
  0 < step -> (Z.to_nat (stop - i) <= fuel)%nat ->
  0 <= n -> i + n * step < stop -> value mod (i + n * step) = 0 ->
  TextureGenerator.divisor_loop fuel value i stop step color bg = bg.
Proof.
  intros Hstep. revert i color n.
  induction fuel as [ | fuel IH]; intros i color n Hfuel Hn Hlt Hdiv.
  - exfalso. nia.
  - cbn [TextureGenerator.divisor_loop].
    destruct (Z.ltb_spec i stop) as [Hi | Hi]; [ | exfalso; nia].
    destruct (Z.eq_dec n 0) as [-> | Hn0].
    + replace (i + 0 * step) with i in Hdiv by lia.
      rewrite Hdiv. cbn [Z.eqb]. apply divisor_loop_background.
    + apply (IH (i + step) _ (n - 1)); [lia | lia | nia | ].
      replace (i + step + (n - 1) * step) with (i + n * step) by ring.
      exact Hdiv.
Qed.

Lemma divisor_loop_miss (fuel : nat) (value i stop step : Z) (color bg : Q) :
  0 < step ->
  (forall n, 0 <= n -> i + n * step < stop -> value mod (i + n * step) <> 0) ->
  TextureGenerator.divisor_loop fuel value i stop step color bg = color.
Proof.
  intros Hstep. revert i.
  induction fuel as [ | fuel IH]; intros i Hmiss; [reflexivity | ].
  cbn [TextureGenerator.divisor_loop].
  destruct (Z.ltb_spec i stop) as [Hi | Hi]; [ | reflexivity].
  destruct (Z.eqb_spec (value mod i) 0) as [E | E].
  - exfalso. apply (Hmiss 0); [lia | lia | ].
    replace (i + 0 * step) with i by lia. exact E.
  - apply IH. intros n Hn Hlt.
    replace (i + step + n * step) with (i + (n + 1) * step) by ring.
    apply Hmiss; [lia | ]. replace (i + (n + 1) * step) with (i + step + n * step) by ring.
    exact Hlt.
Qed.

(** A value without a divisor among the candidates, above 1 and odd or 2,
    keeps the colour 1.0. *)
Lemma strange_color_bright (bg : Q) (value step : Z) :
  0 < step -> 1 < value -> (value mod 2 <> 0 \/ value = 2) ->
  (forall n, 0 <= n -> 3 + n * step < Z.sqrt value ->
     value mod (3 + n * step) <> 0) ->
  TextureGenerator.strange_color bg value step = 1%Q.
Proof.
  intros Hstep Hv Hodd Hmiss. unfold TextureGenerator.strange_color. cbv zeta.
  destruct (Z.leb_spec value 1); [lia | ].
  replace ((value mod 2 =? 0) && (value >? 2)) with false.
  - apply divisor_loop_miss; assumption.
  - symmetry. apply andb_false_iff.
    destruct Hodd as [Hodd | ->]; [left; apply Z.eqb_neq; exact Hodd | right; reflexivity].
Qed.

(** The pixel colour is the background value exactly for the values at
    most 1, the even values above 2, and the values with a divisor among
    [3, 3 + step, 3 + 2 step, ...] below the integer square root; every
    other value is coloured 1.0. *)
Theorem strange_color_sieve (bg : Q) (value step : Z) :
  1 <= step ->
  let dimmed :=
    value <= 1 \/ (value mod 2 = 0 /\ 2 < value)
    \/ exists n, 0 <= n /\ 3 + n * step < Z.sqrt value
                 /\ value mod (3 + n * step) = 0 in
  (dimmed -> TextureGenerator.strange_color bg value step = bg)
  /\ (~ dimmed -> TextureGenerator.strange_color bg value step = 1%Q).
Proof.
  intros Hstep. cbv zeta. split.
  - intros [Hle | [[He Hgt] | (n & Hn & Hlt & Hdiv)]];
      unfold TextureGenerator.strange_color; cbv zeta.
    + destruct (Z.leb_spec value 1); [ | lia].
      destruct ((value mod 2 =? 0) && (value >? 2)); apply divisor_loop_background.
    + rewrite He. cbn [Z.eqb]. destruct (Z.gtb_spec value 2); [ | lia].
      cbn [andb]. apply divisor_loop_background.
    + apply (divisor_loop_hit _ _ _ _ _ _ _ n); try assumption; lia.
  - intros Hnot. apply strange_color_bright.
    + lia.
    + destruct (Z_le_gt_dec value 1); [ | lia]. exfalso. apply Hnot. left. assumption.
    + destruct (Z.eq_dec (value mod 2) 0) as [E | E]; [ | left; exact E].
      right. destruct (Z_le_gt_dec value 2) as [Hle | Hgt].
      * destruct (Z_le_gt_dec value 1); [exfalso; apply Hnot; left; assumption | lia].
      * exfalso. apply Hnot. right. left. split; [exact E | lia].
    + intros n Hn Hlt Hdiv. apply Hnot. right. right. exists n. auto.
Qed.

Lemma prime_no_small_divisor (p d : Z) : Z.prime p -> 1 < d < p -> p mod d <> 0.
Proof.
  intros [_ Hp] Hd E. apply (Hp d Hd). apply Z.mod_divide; [lia | exact E].
Qed.

Lemma prime_odd_or_two (p : Z) : Z.prime p -> p mod 2 <> 0 \/ p = 2.
Proof.
  intros Hp. destruct (Z.eq_dec p 2) as [-> | Hne]; [right; reflexivity | left].
  pose proof (Z.prime_ge_2 p Hp).
  apply prime_no_small_divisor; [exact Hp | lia].
Qed.

(** A prime is always coloured 1.0, whatever the drawn stride. *)
Theorem strange_color_prime (bg : Q) (value step : Z) :
  Z.prime value -> 1 <= step ->
  TextureGenerator.strange_color bg value step = 1%Q.
Proof.
  intros Hp Hstep. pose proof (Z.prime_ge_2 value Hp) as Hge.
  apply strange_color_bright.
  - lia.
  - lia.
  - apply prime_odd_or_two. exact Hp.
  - intros n Hn Hlt. apply prime_no_small_divisor; [exact Hp | ].
    pose proof (Z.sqrt_le_lin value ltac:(lia)). nia.
Qed.

(** The search stops before the integer square root: the product of two odd
    primes [p <= q <= p + 2], whose least divisor is that root, is coloured
    1.0 like a prime, whatever the stride. *)
Theorem strange_color_misses_root_factor (bg : Q) (p q step : Z) :
  Z.prime p -> Z.prime q -> 3 <= p -> p <= q <= p + 2 -> 1 <= step ->
  TextureGenerator.strange_color bg (p * q) step = 1%Q.
Proof.
  intros Hp Hq H3 Hpq Hstep.
  assert (Hroot : Z.sqrt (p * q) = p).
  { apply Z.sqrt_unique. nia. }
  assert (Hpodd : p mod 2 = 1).
  { destruct (prime_odd_or_two p Hp) as [H | H]; [ | lia].
    pose proof (Z.mod_pos_bound p 2). lia. }
  assert (Hqodd : q mod 2 = 1).
  { destruct (prime_odd_or_two q Hq) as [H | H]; [ | lia].
    pose proof (Z.mod_pos_bound q 2). lia. }
  apply strange_color_bright.
  - lia.
  - nia.
  - left. rewrite Z.mul_mod by lia. rewrite Hpodd, Hqodd. discriminate.
  - intros n Hn Hlt E. rewrite Hroot in Hlt.
    set (d := 3 + n * step) in *.
    assert (Hd : 3 <= d) by (subst d; nia).
    assert (Hdiv : (d | p * q)) by (apply Z.mod_divide; [lia | exact E]).
    assert (Hrel : Z.gcd d p = 1).
    { rewrite Z.gcd_comm. apply (Z.coprime_prime_small p d Hp). lia. }
    assert (Hdq : (d | q)).
    { apply (Z.gauss d p q); assumption. }
    destruct (Z.divide_prime_r d q Hq Hdq) as [H | [H | [H | H]]]; lia.
Qed.

(** The value whose divisors are searched is never negative, so that the
    square root is always taken of a non-negative number. *)
Theorem strange_value_nonnegative (t_random m0 m1 : Q) (y x : Z) :
  (0 <= t_random)%Q -> (0 <= m0)%Q -> (0 <= m1)%Q -> 0 <= y -> 0 <= x ->
  0 <= TextureGenerator.strange_value t_random m0 m1 y x.
Proof.
  intros Ht H0 H1 Hy Hx. unfold TextureGenerator.strange_value.
  apply Z.lxor_nonneg. split; intros _; apply py_int_lower.
  - assert (0 <= inject_Z y)%Q by (change 0%Q with (inject_Z 0); rewrite <- Zle_Qle; exact Hy).
    assert (0 <= t_random * 80)%Q by (apply Qmult_le_0_compat; [exact Ht | discriminate]).
    assert (0 <= m1 * 10)%Q by (apply Qmult_le_0_compat; [exact H1 | discriminate]).
    change (inject_Z 0) with 0%Q. lra.
  - assert (0 <= inject_Z x)%Q by (change 0%Q with (inject_Z 0); rewrite <- Zle_Qle; exact Hx).
    assert (0 <= t_random * 80)%Q by (apply Qmult_le_0_compat; [exact Ht | discriminate]).
    assert (0 <= m0 * 10)%Q by (apply Qmult_le_0_compat; [exact H0 | discriminate]).
    change (inject_Z 0) with 0%Q. lra.
Qed.

Lemma strange_color_sieve_witness :
  let dimmed :=
    175 <= 1 \/ (175 mod 2 = 0 /\ 2 < 175)
    \/ exists n, 0 <= n /\ 3 + n * 2 < Z.sqrt 175 /\ 175 mod (3 + n * 2) = 0 in
  (dimmed -> TextureGenerator.strange_color (1 # 10) 175 2 = (1 # 10)%Q)
  /\ (~ dimmed -> TextureGenerator.strange_color (1 # 10) 175 2 = 1%Q).
Proof.
  apply (strange_color_sieve (1 # 10) 175 2). lia.
Defined.

Lemma strange_color_prime_witness :
  Z.prime 29 /\ TextureGenerator.strange_color (1 # 10) 29 1 = 1%Q.
Proof.
  assert (Hp : Z.prime 29).
  { split; [lia | ]. intros n Hn Hdiv.
    apply Z.mod_divide in Hdiv; [ | lia].
    assert (Hall : forall k : nat, (k < 27)%nat -> 29 mod (Z.of_nat k + 2) <> 0).
    { intros k Hk. do 27 (destruct k as [ | k]; [vm_compute; discriminate | ]). lia. }
    apply (Hall (Z.to_nat (n - 2))); [lia | ].
    replace (Z.of_nat (Z.to_nat (n - 2)) + 2) with n by lia. exact Hdiv. }
  split; [exact Hp | ].
  apply (strange_color_prime (1 # 10) 29 1); [exact Hp | lia].
Defined.

Lemma strange_color_misses_root_factor_witness :
  Z.prime 5 /\ Z.prime 7 /\ TextureGenerator.strange_color (1 # 10) (5 * 7) 1 = 1%Q.
Proof.
  assert (Hprime : forall p : Z, 1 < p ->
            (forall k : nat, (k < 5)%nat -> p mod (Z.of_nat k + 2) <> 0 \/ p <= Z.of_nat k + 2) ->
            p <= 7 -> Z.prime p).
  { intros p Hp Hall Hle. split; [exact Hp | ]. intros n Hn Hdiv.
    apply Z.mod_divide in Hdiv; [ | lia].
    destruct (Hall (Z.to_nat (n - 2))) as [H | H]; [lia | | lia].
    apply H. replace (Z.of_nat (Z.to_nat (n - 2)) + 2) with n by lia. exact Hdiv. }
  assert (H5 : Z.prime 5).
  { apply Hprime; [lia | | lia]. intros k Hk.
    do 5 (destruct k as [ | k];
          [first [left; vm_compute; discriminate | right; vm_compute; discriminate] | ]).
    lia. }
  assert (H7 : Z.prime 7).
  { apply Hprime; [lia | | lia]. intros k Hk.
    do 5 (destruct k as [ | k];
          [first [left; vm_compute; discriminate | right; vm_compute; discriminate] | ]).
    lia. }
  split; [exact H5 | ]. split; [exact H7 | ].
  apply (strange_color_misses_root_factor (1 # 10) 5 7 1); [exact H5 | exact H7 | lia | lia | lia].
Defined.

Lemma strange_value_nonnegative_witness :
  0 <= TextureGenerator.strange_value (1 # 2) 3 (7 # 4) 5 9.
Proof.
  apply (strange_value_nonnegative (1 # 2) 3 (7 # 4) 5 9);
    first [discriminate | lia].
Defined.

(** ** [TextureGenerator.generate_strange_texture]: the texture *)

(** A loop whose invariant follows the index and the generator. *)
Lemma for_range_from_steps {A : Type} (P : Z -> A -> Rng -> Prop)
  (body : Z -> A -> M A) (n : nat) (i : Z) (acc : A) (g : Rng) :
  (forall j a g0, i <= j < i + Z.of_nat n -> P j a g0 ->
     exists a' g1, body j a g0 = Ok (a', g1) /\ P (j + 1) a' g1) ->
  P i acc g ->
  exists acc' g',
    for_range_from n i body acc g = Ok (acc', g') /\ P (i + Z.of_nat n) acc' g'.
Proof.
  revert i acc g. induction n as [ | n IH]; intros i acc g Hbody Hacc.
  - exists acc, g. split; [reflexivity | ].
    replace (i + Z.of_nat 0) with i by lia. exact Hacc.
  - cbn [for_range_from]. unfold bind.
    destruct (Hbody i acc g ltac:(lia) Hacc) as (a' & g1 & Hrun & Ha').
    rewrite Hrun.
    replace (i + Z.of_nat (S n)) with (i + 1 + Z.of_nat n) by lia.
    apply IH; [ | exact Ha'].
    intros j a g0 Hj Ha. apply Hbody; [lia | exact Ha].
Qed.

Lemma for_range_steps {A : Type} (P : Z -> A -> Rng -> Prop)
  (body : Z -> A -> M A) (n : Z) (acc : A) (g : Rng) :
  0 <= n ->
  (forall j a g0, 0 <= j < n -> P j a g0 ->
     exists a' g1, body j a g0 = Ok (a', g1) /\ P (j + 1) a' g1) ->
  P 0 acc g ->
  exists acc' g', for_range n body acc g = Ok (acc', g') /\ P n acc' g'.
Proof.
  intros Hn Hbody Hacc. unfold for_range.
  destruct (for_range_from_steps P body (Z.to_nat n) 0 acc g) as (a & g' & H & HP).
  - intros j a g0 Hj. apply Hbody. lia.
  - exact Hacc.
  - exists a, g'. split; [exact H | ].
    replace n with (0 + Z.of_nat (Z.to_nat n)) by lia. exact HP.
Qed.

Lemma divisor_loop_either (fuel : nat) (value i stop step : Z) (color bg : Q) :
  TextureGenerator.divisor_loop fuel value i stop step color bg = color
  \/ TextureGenerator.divisor_loop fuel value i stop step color bg = bg.
Proof.
  revert i color. induction fuel as [ | fuel IH]; intros i color; [left; reflexivity | ].
  cbn [TextureGenerator.divisor_loop].
  destruct (i <? stop); [ | left; reflexivity].
  destruct (value mod i =? 0); [right; apply divisor_loop_background | apply IH].
Qed.

Lemma strange_color_either (bg : Q) (value step : Z) :
  TextureGenerator.strange_color bg value step = 1%Q
  \/ TextureGenerator.strange_color bg value step = bg.
Proof.
  unfold TextureGenerator.strange_color. cbv zeta.
  destruct (value <=? 1); destruct ((value mod 2 =? 0) && (value >? 2));
    first [right; apply divisor_loop_background | apply divisor_loop_either].
Qed.

Lemma channel_bounds (bg color r : Q) :
  (4 # 100 <= bg)%Q -> (bg <= 1)%Q -> color = 1%Q \/ color = bg ->
  (0 <= r)%Q -> (r < 1)%Q ->
  (1 # 75 < color / ((1 # 100) + (3 - (1 # 100)) * r))%Q
  /\ (color / ((1 # 100) + (3 - (1 # 100)) * r) <= 100)%Q.
Proof.
  intros Hbg Hbg1 Hc Hr0 Hr1.
  set (u := ((1 # 100) + (3 - (1 # 100)) * r)%Q).
  assert (Hu : (1 # 100 <= u)%Q /\ (u < 3)%Q) by (subst u; split; lra).
  assert (Hcolor : (4 # 100 <= color)%Q /\ (color <= 1)%Q).
  { destruct Hc as [-> | ->]; split; lra. }
  split.
  - apply Qlt_shift_div_l; lra.
  - apply Qle_shift_div_r; lra.
Qed.

(** A pixel takes four draws, and each of its channels lies in
    (1/75, 100]. *)
Lemma strange_pixel_run (bg t_random m0 m1 : Q) (y x : Z) (g : Rng) :
  (4 # 100 <= bg)%Q -> (bg <= 1)%Q ->
  exists c0 c1 c2 : Q,
    TextureGenerator.strange_pixel bg t_random m0 m1 y x g
    = Ok ((c0, c1, c2), advance g 4)
    /\ (1 # 75 < c0)%Q /\ (c0 <= 100)%Q
    /\ (1 # 75 < c1)%Q /\ (c1 <= 100)%Q
    /\ (1 # 75 < c2)%Q /\ (c2 <= 100)%Q.
Proof.
  intros Hbg Hbg1. unfold TextureGenerator.strange_pixel. cbv zeta.
  destruct (random_randint_run 1 10 g) as [Hstep _]; [lia | ].
  set (step := 1 + stream g (cursor g) mod (10 - 1 + 1)) in *.
  set (color := TextureGenerator.strange_color bg
                  (TextureGenerator.strange_value t_random m0 m1 y x) step).
  assert (Hcolor : color = 1%Q \/ color = bg) by apply strange_color_either.
  destruct (random_uniform_run (1 # 100) 3 (advance g 1)) as (r0 & H0 & Hr0 & Hr0').
  destruct (random_uniform_run (1 # 100) 3 (advance g 2)) as (r1 & H1 & Hr1 & Hr1').
  destruct (random_uniform_run (1 # 100) 3 (advance g 3)) as (r2 & H2 & Hr2 & Hr2').
  destruct (channel_bounds bg color r0 Hbg Hbg1 Hcolor Hr0 Hr0') as [Ha0 Hb0].
  destruct (channel_bounds bg color r1 Hbg Hbg1 Hcolor Hr1 Hr1') as [Ha1 Hb1].
  destruct (channel_bounds bg color r2 Hbg Hbg1 Hcolor Hr2 Hr2') as [Ha2 Hb2].
  eexists _, _, _. split.
  - unfold bind at 1. rewrite Hstep. fold color.
    unfold bind at 1. rewrite H0.
    unfold bind at 1. change (mkRng (stream (advance g 1)) (S (cursor (advance g 1))))
      with (advance g 2). rewrite H1.
    unfold bind at 1. change (mkRng (stream (advance g 2)) (S (cursor (advance g 2))))
      with (advance g 3). rewrite H2.
    reflexivity.
  - repeat split; assumption.
Qed.

Lemma color_rot90_once_inside (B : Q -> Prop) (a : TextureGenerator.FloatColorImage) :
  (forall y x c, 0 <= y < TextureGenerator.cheight a ->
                 0 <= x < TextureGenerator.cwidth a ->
                 B (TextureGenerator.cpix a y x c)) ->
  forall y x c,
    0 <= y < TextureGenerator.cheight (TextureGenerator.color_rot90_once a) ->
    0 <= x < TextureGenerator.cwidth (TextureGenerator.color_rot90_once a) ->
    B (TextureGenerator.cpix (TextureGenerator.color_rot90_once a) y x c).
Proof.
  intros H y x c Hy Hx. cbn in *. apply H; lia.
Qed.

(** For non-negative sizes [generate_strange_texture] returns after
    [5 + 4 * oysize * oxsize] draws; the array has [oysize] rows and
    [oxsize] columns when the drawn number of quarter turns is even, and the
    two are exchanged when it is odd; every sample lies in (1/75, 100]. *)
Theorem generate_strange_texture_returns (oxsize oysize : Z) (g : Rng) :
  0 <= oxsize -> 0 <= oysize ->
  exists image k,
    TextureGenerator.generate_strange_texture oxsize oysize g
    = Ok (image, advance g (5 + 4 * Z.to_nat (oysize * oxsize)))
    /\ 0 <= k <= 3
    /\ TextureGenerator.cheight image = (if Z.even k then oysize else oxsize)
    /\ TextureGenerator.cwidth image = (if Z.even k then oxsize else oysize)
    /\ forall y x c,
        0 <= y < TextureGenerator.cheight image ->
        0 <= x < TextureGenerator.cwidth image ->
        0 <= c < 3 ->
        (1 # 75 < TextureGenerator.cpix image y x c)%Q
        /\ (TextureGenerator.cpix image y x c <= 100)%Q.
Proof.
  intros Hx Hy. unfold TextureGenerator.generate_strange_texture.
  destruct (random_uniform_run (4 # 100) (11 # 100) g) as (r & Hbg & Hr0 & Hr1).
  set (bg := ((4 # 100) + ((11 # 100) - (4 # 100)) * r)%Q) in *.
  assert (Hlo : (4 # 100 <= bg)%Q) by (subst bg; lra).
  assert (Hhi : (bg <= 1)%Q) by (subst bg; lra).
  unfold bind at 1. rewrite Hbg.
  change (mkRng (stream g) (S (cursor g))) with (advance g 1).
  destruct (random_uniform_run 0 100 (advance g 1)) as (rt & Ht & _).
  unfold bind at 1. rewrite Ht.
  change (mkRng (stream (advance g 1)) (S (cursor (advance g 1)))) with (advance g 2).
  destruct (random_uniform_run 0 100 (advance g 2)) as (r0 & H0 & _).
  unfold bind at 1. rewrite H0.
  change (mkRng (stream (advance g 2)) (S (cursor (advance g 2)))) with (advance g 3).
  destruct (random_uniform_run 0 100 (advance g 3)) as (r1 & H1 & _).
  unfold bind at 1. rewrite H1.
  change (mkRng (stream (advance g 3)) (S (cursor (advance g 3)))) with (advance g 4).
  set (t_random := (0 + (100 - 0) * rt)%Q).
  set (m0 := (0 + (100 - 0) * r0)%Q).
  set (m1 := (0 + (100 - 0) * r1)%Q).
  destruct (Z.ltb_spec oysize 0); [lia | ].
  destruct (Z.ltb_spec oxsize 0); [lia | ].
  cbn [orb]. unfold bind at 1. unfold ret at 1.
  set (B := fun q : Q => (1 # 75 < q)%Q /\ (q <= 100)%Q).
  set (start := TextureGenerator.mkFloatColorImage oysize oxsize (fun _ _ _ => 0%Q)).
  unfold bind at 1.
  match goal with
  | |- context [for_range oysize ?body start (advance g 4)] =>
      destruct (for_range_steps
                  (fun y image g0 =>
                     TextureGenerator.cheight image = oysize
                     /\ TextureGenerator.cwidth image = oxsize
                     /\ g0 = advance g (4 + 4 * Z.to_nat (y * oxsize))
                     /\ forall yy xx c, 0 <= yy < y -> 0 <= xx < oxsize ->
                          B (TextureGenerator.cpix image yy xx c))
                  body oysize start (advance g 4))
        as (image & g' & Hloop & Hh & Hw & Hg & Hpix)
  end.
  - exact Hy.
  - intros y image g0 Hyr (Hh & Hw & Hg & Hrows).
    match goal with
    | |- context [for_range oxsize ?body image g0] =>
        destruct (for_range_steps
                    (fun x image' g1 =>
                       TextureGenerator.cheight image' = oysize
                       /\ TextureGenerator.cwidth image' = oxsize
                       /\ g1 = advance g (4 + 4 * Z.to_nat (y * oxsize + x))
                       /\ (forall yy xx c, 0 <= yy < y -> 0 <= xx < oxsize ->
                             B (TextureGenerator.cpix image' yy xx c))
                       /\ (forall xx c, 0 <= xx < x ->
                             B (TextureGenerator.cpix image' y xx c)))
                    body oxsize image g0)
          as (image' & g1 & Hinner & Hh' & Hw' & Hg' & Hrows' & Hrow)
    end.
    + exact Hx.
    + intros x im g1 Hxr (Hh' & Hw' & Hg' & Hrows' & Hrow).
      destruct (strange_pixel_run bg t_random m0 m1 y x g1 Hlo Hhi)
        as (c0 & c1 & c2 & Hrun & Hb).
      unfold bind. rewrite Hrun. unfold ret.
      eexists _, _. split; [reflexivity | ].
      split; [exact Hh' | ]. split; [exact Hw' | ]. split.
      * rewrite Hg', advance_advance. f_equal. nia.
      * split.
        -- intros yy xx c Hyy Hxx. cbn [TextureGenerator.cpix TextureGenerator.set_color].
           destruct (Z.eqb_spec yy y); [lia | ]. cbn [andb]. apply Hrows'; assumption.
        -- intros xx c Hxx. cbn [TextureGenerator.cpix TextureGenerator.set_color].
           rewrite Z.eqb_refl. cbn [andb].
           destruct (Z.eqb_spec xx x) as [-> | Hne].
           ++ cbn [fst snd]. destruct (c =? 0); [ | destruct (c =? 1)];
                unfold B; tauto.
           ++ apply Hrow. lia.
    + split; [exact Hh | ]. split; [exact Hw | ]. split.
      * rewrite Hg. f_equal. f_equal. f_equal. lia.
      * split; [exact Hrows | ]. intros xx c Hxx. lia.
    + exists image', g1. split; [exact Hinner | ].
      split; [exact Hh' | ]. split; [exact Hw' | ]. split.
      * rewrite Hg'. f_equal. f_equal. f_equal. f_equal. ring.
      * intros yy xx c Hyy Hxx.
        destruct (Z.eq_dec yy y) as [-> | Hne];
          [apply Hrow; exact Hxx | apply Hrows'; [lia | exact Hxx]].
  - split; [reflexivity | ]. split; [reflexivity | ]. split.
    + reflexivity.
    + intros yy xx c Hyy. lia.
  - rewrite Hloop. unfold bind at 1.
    destruct (random_randint_run 0 3 g') as [Hk Hkb]; [lia | ].
    rewrite Hk. unfold ret.
    set (k := 0 + stream g' (cursor g') mod (3 - 0 + 1)) in *.
    exists (TextureGenerator.color_rot90 image k), k.
    split; [rewrite Hg, advance_advance; do 3 f_equal; lia | ].
    split; [exact Hkb | ].
    assert (Hinside : forall y x c,
               0 <= y < TextureGenerator.cheight image ->
               0 <= x < TextureGenerator.cwidth image ->
               B (TextureGenerator.cpix image y x c)).
    { intros y x c Hyr Hxr. apply Hpix; lia. }
    clearbody k. clear Hk.
    assert (Hcases : k = 0 \/ k = 1 \/ k = 2 \/ k = 3) by lia.
    unfold TextureGenerator.color_rot90.
    destruct Hcases as [-> | [-> | [-> | ->]]];
      cbn [Z.modulo Z.div_eucl Z.pos_div_eucl Z.to_nat Pos.to_nat Pos.iter_op
           Nat.add Nat.iter nat_rect Z.even Z.ltb Z.compare Pos.compare
           Pos.compare_cont Z.leb Z.sub Z.add Z.opp Z.pos_sub Z.mul fst snd
           Z.succ_double Z.double Pos.pred_double Pos.succ];
      (split; [cbn; assumption | ]); (split; [cbn; assumption | ]);
      intros y x c Hyr Hxr _.
    + apply Hinside; assumption.
    + apply (color_rot90_once_inside B); assumption.
    + apply (color_rot90_once_inside B); [ | assumption | assumption].
      apply (color_rot90_once_inside B). assumption.
    + apply (color_rot90_once_inside B); [ | assumption | assumption].
      apply (color_rot90_once_inside B). apply (color_rot90_once_inside B). assumption.
Qed.

Lemma generate_strange_texture_returns_witness :
  exists image k,
    TextureGenerator.generate_strange_texture 3 2 (Fixtures.rng_const 5)
    = Ok (image, advance (Fixtures.rng_const 5) (5 + 4 * Z.to_nat (2 * 3)))
    /\ 0 <= k <= 3
    /\ TextureGenerator.cheight image = (if Z.even k then 2 else 3)
    /\ TextureGenerator.cwidth image = (if Z.even k then 3 else 2)
    /\ forall y x c,
        0 <= y < TextureGenerator.cheight image ->
        0 <= x < TextureGenerator.cwidth image ->
        0 <= c < 3 ->
        (1 # 75 < TextureGenerator.cpix image y x c)%Q
        /\ (TextureGenerator.cpix image y x c <= 100)%Q.
Proof.
  apply (generate_strange_texture_returns 3 2 (Fixtures.rng_const 5)); lia.
Defined.

(** ** [TextureGenerator.generate_normal_texture] *)

Section NormalTextureFacts.
Context {np : Numpy} {noise : TextureGenerator.NormalNoise}.

(** The size of a layer: [int(size / ratio)] lies between 1 and [size] for
    a ratio between 1 and [size]. *)
Lemma layer_size_range (size ratio : Z) :
  1 <= ratio <= size ->
  1 <= py_int (inject_Z size / inject_Z ratio) <= size.
Proof.
  intros Hr.
  assert (Hq : (0 < inject_Z ratio)%Q)
    by (change 0%Q with (inject_Z 0); rewrite <- Zlt_Qlt; lia).
  assert (H1 : (inject_Z 1 <= inject_Z size / inject_Z ratio)%Q).
  { apply Qle_shift_div_l; [exact Hq | ].
    rewrite <- inject_Z_mult, <- Zle_Qle. lia. }
  assert (H2 : (inject_Z size / inject_Z ratio <= inject_Z size)%Q).
  { apply Qle_shift_div_r; [exact Hq | ].
    rewrite <- inject_Z_mult, <- Zle_Qle. nia. }
  split; [apply py_int_lower; exact H1 | ].
  unfold py_int. destruct (Qlt_le_dec (inject_Z size / inject_Z ratio) 0) as [Hneg | _].
  - exfalso. change (inject_Z 1) with 1%Q in H1. lra.
  - pose proof (Qfloor_resp_le _ _ H2) as Hf. rewrite Qfloor_Z in Hf. exact Hf.
Qed.

(** With a turbulence of 2 or more the ratio at least halves at every turn,
    so the loop ends within [log2 ratio] layers; the layers it asks for are
    of one channel and of sizes between 1 and the size of the texture. *)
Lemma noise_loop_returns (fuel : nat) (xsize ysize : Z) (sigma : Q)
  (turbulence ratio : Z) (image_output : FloatImage) (g : Rng) :
  2 <= turbulence -> 1 <= ratio <= Z.min xsize ysize ->
  (forall new_xsize new_ysize g0,
      1 <= new_xsize <= xsize -> 1 <= new_ysize <= ysize ->
      exists result g1,
        TextureGenerator.normal_layer sigma new_xsize new_ysize 1 xsize ysize g0
        = Ok (result, g1)) ->
  (Z.to_nat (Z.log2 ratio) < fuel)%nat ->
  exists image g',
    TextureGenerator.noise_loop fuel xsize ysize 1 sigma turbulence ratio
      image_output g = Ok (Some image, g')
    /\ fheight image = fheight image_output
    /\ fwidth image = fwidth image_output.
Proof.
  intros Ht Hr Hlayer. revert ratio image_output g Hr.
  induction fuel as [ | fuel IH]; intros ratio image_output g Hr Hfuel; [lia | ].
  cbn [TextureGenerator.noise_loop].
  destruct (Z.eqb_spec ratio 1) as [-> | Hne].
  - exists image_output, g. repeat split; reflexivity.
  - unfold bind at 1. rewrite (py_truediv_run ysize ratio g) by lia.
    unfold bind at 1. rewrite (py_truediv_run xsize ratio g) by lia.
    unfold bind at 1.
    destruct (Hlayer (py_int (inject_Z xsize / inject_Z ratio))
                     (py_int (inject_Z ysize / inject_Z ratio)) g)
      as (result & g1 & Hrun);
      [apply layer_size_range; lia | apply layer_size_range; lia | ].
    rewrite Hrun. cbv zeta.
    destruct (Z.eqb_spec turbulence 0); [lia | ].
    set (next := if ratio / turbulence =? 0 then 1 else ratio / turbulence).
    assert (Hnext : 1 <= next /\ 2 * next <= ratio).
    { subst next.
      assert (0 <= ratio / turbulence) by (apply Z.div_pos; lia).
      assert (ratio / turbulence <= ratio / 2)
        by (apply Z.div_le_compat_l; lia).
      assert (2 * (ratio / 2) <= ratio) by (apply Z.mul_div_le; lia).
      destruct (Z.eqb_spec (ratio / turbulence) 0); lia. }
    assert (Hlog : Z.log2 next < Z.log2 ratio).
    { apply Z.log2_lt_pow2; [lia | ].
      pose proof (Z.log2_spec ratio ltac:(lia)) as [_ Hup].
      rewrite Z.pow_succ_r in Hup by apply Z.log2_nonneg. lia. }
    pose proof (Z.log2_nonneg next).
    destruct (IH next
                (mkFloatImage (fheight image_output) (fwidth image_output)
                   (fun y x => (fpix image_output y x + result y x)%Q)) g1)
      as (image & g' & Hloop & Hh & Hw); [lia | lia | ].
    exists image, g'. split; [exact Hloop | ]. split; assumption.
Qed.

(** A sample of the rescaled texture: at least 32 when the clipped array is
    not uniform. *)
Lemma rescaled_sample (lo hi v : Q) :
  (lo < hi)%Q -> (lo <= v <= hi)%Q ->
  32 <= TextureGenerator.float_to_uint8
          (match np_divide (v - lo) (hi - lo) with
           | Fin q => Fin (q * (255 - 32) + 32)
           | other => other
           end) <= 255.
Proof.
  intros Hlt Hv. unfold np_divide.
  assert (E : Qeq_bool (hi - lo) 0 = false).
  { destruct (Qeq_bool (hi - lo) 0) eqn:E; [ | reflexivity].
    apply Qeq_bool_iff in E. lra. }
  rewrite E. cbn [TextureGenerator.float_to_uint8].
  set (q := ((v - lo) / (hi - lo))%Q).
  assert (Hq0 : (0 <= q)%Q) by (apply Qle_shift_div_l; lra).
  assert (Hq1 : (q <= 1)%Q) by (apply Qle_shift_div_r; lra).
  set (s := (q * (255 - 32) + 32)%Q).
  assert (Hs : (inject_Z 32 <= s)%Q /\ (s <= inject_Z 255)%Q).
  { subst s. change (inject_Z 32) with 32%Q. change (inject_Z 255) with 255%Q.
    split; lra. }
  destruct Hs as [Hs0 Hs1].
  assert (Hint : 32 <= py_int s <= 255).
  { split; [apply py_int_lower; exact Hs0 | ].
    unfold py_int. destruct (Qlt_le_dec s 0) as [Hneg | _].
    - exfalso. change (inject_Z 32) with 32%Q in Hs0. lra.
    - pose proof (Qfloor_resp_le _ _ Hs1) as Hf. rewrite Qfloor_Z in Hf. exact Hf. }
  unfold uint8. rewrite Z.mod_small by lia. exact Hint.
Qed.

(** What follows the loop returns on a non-empty array, without a draw: a
    texture of the same size whose samples are all at least 32, unless the
    clipped array was uniform, when they are all the cast of NaN. *)
Lemma finish_normal_texture_run (channel : Z) (image_output : FloatImage) :
  0 < fheight image_output -> 0 < fwidth image_output ->
  exists result,
    (forall g, TextureGenerator.finish_normal_texture channel image_output g
               = Ok (result, g))
    /\ height result = fheight image_output
    /\ width result = fwidth image_output
    /\ channels result = (if channel =? 3 then Some 3 else None)
    /\ ((forall y x c, 0 <= y < height result -> 0 <= x < width result ->
           32 <= pix result y x c <= 255)
        \/ (forall y x c, 0 <= y < height result -> 0 <= x < width result ->
              pix result y x c = uint8 nan_to_uint8)).
Proof.
  intros Hh Hw. unfold TextureGenerator.finish_normal_texture. cbv zeta.
  set (clipped := mkFloatImage (fheight image_output) (fwidth image_output)
                    (fun y x => Qmax 0 (Qmin 255 (fpix image_output y x)))).
  destruct (minmax_normalize_run clipped Hh Hw)
    as (lo & hi & Hrun & Hrange & _ & _).
  eexists. split; [intros g; unfold bind; rewrite Hrun; reflexivity | ].
  destruct (channel =? 3); cbn [height width channels pix cvt_GRAY2BGR];
    (split; [reflexivity | ]); (split; [reflexivity | ]); (split; [reflexivity | ]).
  - destruct (Qlt_le_dec lo hi) as [Hlt | Hge].
    + left. intros y x c Hy Hx. apply rescaled_sample; [exact Hlt | ].
      apply Hrange; assumption.
    + right. intros y x c Hy Hx.
      pose proof (Hrange y x Hy Hx) as Hv.
      unfold np_divide.
      assert (E : Qeq_bool (hi - lo) 0 = true) by (apply Qeq_bool_iff; lra).
      assert (E' : Qeq_bool (fpix clipped y x - lo) 0 = true)
        by (apply Qeq_bool_iff; lra).
      rewrite E, E'. reflexivity.
  - destruct (Qlt_le_dec lo hi) as [Hlt | Hge].
    + left. intros y x c Hy Hx. apply rescaled_sample; [exact Hlt | ].
      apply Hrange; assumption.
    + right. intros y x c Hy Hx.
      pose proof (Hrange y x Hy Hx) as Hv.
      unfold np_divide.
      assert (E : Qeq_bool (hi - lo) 0 = true) by (apply Qeq_bool_iff; lra).
      assert (E' : Qeq_bool (fpix clipped y x - lo) 0 = true)
        by (apply Qeq_bool_iff; lra).
      rewrite E, E'. reflexivity.
Qed.

(** A gray texture ([channel] 1) of sizes of at least 1, with a turbulence
    of at least 2 and noise layers that return at the sizes the loop asks
    for (between 1 and the size of the texture): [generate_normal_texture]
    returns within [log2 (min xsize ysize) + 1] turns of its loop, a 2-D
    texture of [ysize] by [xsize] whose samples are all in [32, 255], or all
    the cast of NaN. *)
Theorem generate_normal_texture_returns (fuel : nat) (xsize ysize : Z)
  (value sigma : Q) (turbulence : Z) (g : Rng) :
  1 <= xsize -> 1 <= ysize -> 2 <= turbulence ->
  (forall new_xsize new_ysize g0,
      1 <= new_xsize <= xsize -> 1 <= new_ysize <= ysize ->
      exists result g1,
        TextureGenerator.normal_layer sigma new_xsize new_ysize 1 xsize ysize g0
        = Ok (result, g1)) ->
  (Z.to_nat (Z.log2 (Z.min xsize ysize)) < fuel)%nat ->
  exists image g',
    TextureGenerator.generate_normal_texture fuel xsize ysize 1 value sigma
      turbulence g = Ok (Some image, g')
    /\ height image = ysize /\ width image = xsize
    /\ channels image = None
    /\ ((forall y x c, 0 <= y < ysize -> 0 <= x < xsize ->
           32 <= pix image y x c <= 255)
        \/ (forall y x c, 0 <= y < ysize -> 0 <= x < xsize ->
              pix image y x c = uint8 nan_to_uint8)).
Proof.
  intros Hx Hy Ht Hlayer Hfuel. unfold TextureGenerator.generate_normal_texture.
  destruct (Z.ltb_spec ysize 0); [lia | ].
  destruct (Z.ltb_spec xsize 0); [lia | ].
  cbn [orb]. unfold bind at 1. unfold ret at 1. cbv zeta.
  destruct (noise_loop_returns fuel xsize ysize sigma turbulence
              (Z.min xsize ysize) (mkFloatImage ysize xsize (fun _ _ => value)) g)
    as (looped & g' & Hloop & Hh & Hw); [lia | lia | exact Hlayer | exact Hfuel | ].
  cbn [fheight fwidth] in Hh, Hw.
  unfold bind at 1. rewrite Hloop.
  destruct (finish_normal_texture_run 1 looped)
    as (result & Hrun & Hrh & Hrw & Hrc & Hpix); [lia | lia | ].
  exists result, g'. unfold bind. rewrite Hrun. unfold ret.
  split; [reflexivity | ]. rewrite Hrh, Hrw in *. rewrite Hh, Hw in *.
  repeat split; assumption.
Qed.

(** With a turbulence of 1 a ratio of 2 or more never changes. *)
Lemma noise_loop_turbulence_one (fuel : nat) (xsize ysize channel : Z) (sigma : Q)
  (ratio : Z) (image_output : FloatImage) (g : Rng) (image : FloatImage) (g' : Rng) :
  2 <= ratio ->
  TextureGenerator.noise_loop fuel xsize ysize channel sigma 1 ratio
    image_output g <> Ok (Some image, g').
Proof.
  intros Hr. revert image_output g.
  induction fuel as [ | fuel IH]; intros image_output g; [discriminate | ].
  cbn [TextureGenerator.noise_loop].
  destruct (Z.eqb_spec ratio 1); [lia | ].
  unfold bind at 1. rewrite (py_truediv_run ysize ratio g) by lia.
  unfold bind at 1. rewrite (py_truediv_run xsize ratio g) by lia.
  unfold bind at 1.
  destruct (TextureGenerator.normal_layer sigma _ _ channel xsize ysize g)
    as [[result g1] | e]; [ | discriminate].
  cbv zeta. cbn [Z.eqb]. rewrite Z.div_1_r.
  destruct (Z.eqb_spec ratio 0); [lia | ]. apply IH.
Qed.

(** With a turbulence of 1 and sizes of at least 2 the loop of
    [generate_normal_texture] does not end: however many turns it is given,
    it returns no texture. *)
Theorem generate_normal_texture_turbulence_one (fuel : nat)
  (xsize ysize channel : Z) (value sigma : Q) (g : Rng) :
  2 <= xsize -> 2 <= ysize ->
  forall image g',
    TextureGenerator.generate_normal_texture fuel xsize ysize channel value sigma
      1 g <> Ok (Some image, g').
Proof.
  intros Hx Hy image g'. unfold TextureGenerator.generate_normal_texture.
  destruct (Z.ltb_spec ysize 0); [lia | ].
  destruct (Z.ltb_spec xsize 0); [lia | ].
  cbn [orb]. unfold bind at 1. unfold ret at 1. cbv zeta. unfold bind at 1.
  destruct (TextureGenerator.noise_loop fuel xsize ysize channel sigma 1
              (Z.min xsize ysize) (mkFloatImage ysize xsize (fun _ _ => value)) g)
    as [[[looped | ] g1] | e] eqn:E; [ | discriminate | discriminate].
  exfalso. revert E. apply noise_loop_turbulence_one. lia.
Qed.

(** With a turbulence of 0 and sizes of at least 2, the first layer of a
    gray texture is added (the noise returning at layer sizes between 1 and
    the size of the texture) and the update of the ratio divides by zero. *)
Theorem generate_normal_texture_turbulence_zero (fuel : nat)
  (xsize ysize : Z) (value sigma : Q) (g : Rng) :
  2 <= xsize -> 2 <= ysize -> (0 < fuel)%nat ->
  (forall new_xsize new_ysize g0,
      1 <= new_xsize <= xsize -> 1 <= new_ysize <= ysize ->
      exists result g1,
        TextureGenerator.normal_layer sigma new_xsize new_ysize 1 xsize ysize g0
        = Ok (result, g1)) ->
  TextureGenerator.generate_normal_texture fuel xsize ysize 1 value sigma
    0 g = Raise ZeroDivisionError.
Proof.
  intros Hx Hy Hfuel Hlayer. unfold TextureGenerator.generate_normal_texture.
  destruct (Z.ltb_spec ysize 0); [lia | ].
  destruct (Z.ltb_spec xsize 0); [lia | ].
  cbn [orb]. unfold bind at 1. unfold ret at 1. cbv zeta. unfold bind at 1.
  destruct fuel as [ | fuel]; [lia | ].
  cbn [TextureGenerator.noise_loop].
  destruct (Z.eqb_spec (Z.min xsize ysize) 1); [lia | ].
  unfold bind at 1. rewrite (py_truediv_run ysize (Z.min xsize ysize) g) by lia.
  unfold bind at 1. rewrite (py_truediv_run xsize (Z.min xsize ysize) g) by lia.
  unfold bind at 1.
  destruct (Hlayer (py_int (inject_Z xsize / inject_Z (Z.min xsize ysize)))
                   (py_int (inject_Z ysize / inject_Z (Z.min xsize ysize))) g)
    as (result & g1 & Hrun);
    [apply layer_size_range; lia | apply layer_size_range; lia | ].
  rewrite Hrun. reflexivity.
Qed.

(** When the smaller side is 1 no layer is added and no draw is taken: the
    array is uniform, the rescaling divides zero by zero, and every sample
    of the texture is the cast of NaN, whatever [value] was. *)
Theorem generate_normal_texture_thin (fuel : nat) (xsize ysize channel : Z)
  (value sigma : Q) (turbulence : Z) (g : Rng) :
  1 <= xsize -> 1 <= ysize -> Z.min xsize ysize = 1 -> (0 < fuel)%nat ->
  exists image,
    TextureGenerator.generate_normal_texture fuel xsize ysize channel value sigma
      turbulence g = Ok (Some image, g)
    /\ height image = ysize /\ width image = xsize
    /\ forall y x c, 0 <= y < ysize -> 0 <= x < xsize ->
         pix image y x c = uint8 nan_to_uint8.
Proof.
  intros Hx Hy Hmin Hfuel. unfold TextureGenerator.generate_normal_texture.
  destruct (Z.ltb_spec ysize 0); [lia | ].
  destruct (Z.ltb_spec xsize 0); [lia | ].
  cbn [orb]. unfold bind at 1. unfold ret at 1. cbv zeta. unfold bind at 1.
  destruct fuel as [ | fuel]; [lia | ].
  cbn [TextureGenerator.noise_loop]. rewrite Hmin. cbn [Z.eqb Pos.eqb].
  unfold ret at 1. unfold TextureGenerator.finish_normal_texture. cbv zeta.
  set (clipped := mkFloatImage _ _ _).
  destruct (minmax_normalize_uniform clipped (Qmax 0 (Qmin 255 value)) g)
    as (normalized & Hrun & Hnan).
  - cbn. lia.
  - cbn. lia.
  - intros y x _ _. cbn. reflexivity.
  - unfold bind. rewrite Hrun. unfold ret. eexists. split; [reflexivity | ].
    cbn [fheight fwidth] in Hnan.
    destruct (channel =? 3); cbn [height width pix cvt_GRAY2BGR clipped fheight fwidth];
      (split; [reflexivity | ]); (split; [reflexivity | ]);
      intros y x c Hyr Hxr; rewrite (Hnan y x) by assumption; reflexivity.
Qed.

(** A side of 0 makes the first computation of the layer size divide by
    zero. *)
Theorem generate_normal_texture_empty (fuel : nat) (xsize ysize channel : Z)
  (value sigma : Q) (turbulence : Z) (g : Rng) :
  0 <= xsize -> 0 <= ysize -> xsize = 0 \/ ysize = 0 -> (0 < fuel)%nat ->
  TextureGenerator.generate_normal_texture fuel xsize ysize channel value sigma
    turbulence g = Raise ZeroDivisionError.
Proof.
  intros Hx Hy Hzero Hfuel. unfold TextureGenerator.generate_normal_texture.
  destruct (Z.ltb_spec ysize 0); [lia | ].
  destruct (Z.ltb_spec xsize 0); [lia | ].
  cbn [orb]. unfold bind at 1. unfold ret at 1. cbv zeta. unfold bind at 1.
  destruct fuel as [ | fuel]; [lia | ].
  cbn [TextureGenerator.noise_loop].
  replace (Z.min xsize ysize) with 0 by lia. cbn [Z.eqb].
  unfold bind at 1. unfold py_truediv at 1. cbn [Z.eqb]. reflexivity.
Qed.
End NormalTextureFacts.

Lemma generate_normal_texture_returns_witness :
  exists image g',
    TextureGenerator.generate_normal_texture (np := Fixtures.numpy_small)
      (noise := Fixtures.noise_ramp 1) 4 8 5 1 255 1 2 (Fixtures.rng_const 0)
    = Ok (Some image, g')
    /\ height image = 5 /\ width image = 8
    /\ channels image = None
    /\ ((forall y x c, 0 <= y < 5 -> 0 <= x < 8 -> 32 <= pix image y x c <= 255)
        \/ (forall y x c, 0 <= y < 5 -> 0 <= x < 8 ->
              pix image y x c = uint8 (nan_to_uint8 (Numpy := Fixtures.numpy_small)))).
Proof.
  apply (@generate_normal_texture_returns Fixtures.numpy_small
           (Fixtures.noise_ramp 1) 4 8 5 255 1 2 (Fixtures.rng_const 0));
    try lia.
  - intros new_xsize new_ysize g0 _ _. eexists _, _. reflexivity.
  - vm_compute. lia.
Defined.

Lemma generate_normal_texture_turbulence_one_witness :
  2 <= 8 /\ 2 <= 5
  /\ forall image g',
       TextureGenerator.generate_normal_texture (np := Fixtures.numpy_small)
         (noise := Fixtures.noise_ramp 1) 1000 8 5 1 255 1 1 (Fixtures.rng_const 0)
       <> Ok (Some image, g').
Proof.
  split; [lia | ]. split; [lia | ].
  apply (@generate_normal_texture_turbulence_one Fixtures.numpy_small
           (Fixtures.noise_ramp 1) 1000 8 5 1 255 1 (Fixtures.rng_const 0)); lia.
Defined.

Lemma generate_normal_texture_turbulence_zero_witness :
  TextureGenerator.generate_normal_texture (np := Fixtures.numpy_small)
    (noise := Fixtures.noise_ramp 1) 3 8 5 1 255 1 0 (Fixtures.rng_const 0)
  = Raise ZeroDivisionError.
Proof.
  apply (@generate_normal_texture_turbulence_zero Fixtures.numpy_small
           (Fixtures.noise_ramp 1) 3 8 5 255 1 (Fixtures.rng_const 0));
    try lia.
  intros new_xsize new_ysize g0 _ _. eexists _, _. reflexivity.
Defined.

Lemma generate_normal_texture_thin_witness :
  exists image,
    TextureGenerator.generate_normal_texture (np := Fixtures.numpy_small)
      (noise := Fixtures.noise_ramp 1) 1 1 6 3 255 1 2 (Fixtures.rng_const 0)
    = Ok (Some image, Fixtures.rng_const 0)
    /\ height image = 6 /\ width image = 1
    /\ forall y x c, 0 <= y < 6 -> 0 <= x < 1 ->
         pix image y x c = uint8 (nan_to_uint8 (Numpy := Fixtures.numpy_small)).
Proof.
  apply (@generate_normal_texture_thin Fixtures.numpy_small
           (Fixtures.noise_ramp 1) 1 1 6 3 255 1 2 (Fixtures.rng_const 0));
    first [lia | reflexivity].
Defined.

Lemma generate_normal_texture_empty_witness :
  TextureGenerator.generate_normal_texture (np := Fixtures.numpy_small)
    (noise := Fixtures.noise_ramp 1) 1 0 6 1 255 1 2 (Fixtures.rng_const 0)
  = Raise ZeroDivisionError.
Proof.
  apply (@generate_normal_texture_empty Fixtures.numpy_small
           (Fixtures.noise_ramp 1) 1 0 6 1 255 1 2 (Fixtures.rng_const 0));
    lia.
Defined.
